(** * MEGAN-MD: session orchestrator, message cache, command dispatch, chatbot

    A shallow embedding of the parts of the bot that its specification
    makes claims about:

    - [MessageCache]   src/lib/cache/MessageCache.js
    - [Connection]     megan.js, [handleConnectionUpdate] and [connect]
    - [CommandHandler] src/lib/Commandhandler.js, [handleCommand]
    - [Chatbot]        src/modules/Chatbot.js
    - [Bot]            megan.js, [sendMessage] and [handleChatbot]

    JavaScript strings are modelled as [string], the bytes of their
    UTF-8 encoding; JavaScript numbers that
    the code only uses as integers are modelled as [Z]; [Map] objects are
    [gmap]s; the SQLite table is a list of rows. Promises are run to
    completion in program order. Everything the code reads from outside
    (clock, random numbers, HTTP replies, the transport, the settings
    store, the configuration module) is an explicit argument. *)

From Stdlib Require Import ZArith Ascii String.
From stdpp Require Import gmap strings list fin_maps.

Open Scope string_scope.
Open Scope list_scope.
Open Scope Z_scope.

(** ** JavaScript values and string primitives *)

Module JS.

(** [!!s] for a string-or-undefined value: the empty string and
    [undefined] are falsy. *)
Definition truthy (v : option string) : bool :=
  match v with
  | Some (String _ _) => true
  | _ => false
  end.

(** [a || b] on strings-or-undefined. *)
Definition or_else (a : option string) (b : string) : string :=
  match a with
  | Some (String c s) => String c s
  | _ => b
  end.

(** [s.includes(sub)]. *)
Fixpoint includes (s sub : string) : bool :=
  String.prefix sub s ||
  match s with
  | EmptyString => false
  | String _ s' => includes s' sub
  end.

(** Every character is in the ASCII range. On such a string a byte, a
    UTF-16 code unit and a character are the same thing, so lengths and
    positions are those of JavaScript, and [toLowerCase] touches the
    letters A to Z only. *)
Fixpoint is_ascii (s : string) : bool :=
  match s with
  | EmptyString => true
  | String c s' => (nat_of_ascii c <? 128)%nat && is_ascii s'
  end.

(** [s.slice(n)] for [0 <= n], [n] counting bytes: the [n] of
    JavaScript counts UTF-16 code units, which is the same on ASCII text
    and whenever the part cut off is a whole string whose length [n]
    is. *)
Fixpoint slice (n : nat) (s : string) : string :=
  match n, s with
  | O, _ => s
  | S n', String _ s' => slice n' s'
  | S _, EmptyString => EmptyString
  end.

(** [s.substring(0, n)], [n] counting bytes: exact on ASCII text; on
    other text JavaScript counts UTF-16 code units and may cut
    elsewhere. *)
Fixpoint substring0 (n : nat) (s : string) : string :=
  match n, s with
  | S n', String c s' => String c (substring0 n' s')
  | _, _ => EmptyString
  end.

(** White space as [trim] sees it (WhiteSpace and LineTerminator of
    ECMAScript), by the length of its UTF-8 encoding. One byte: tab,
    line feed, vertical tab, form feed, carriage return, space. *)
Definition is_space (c : ascii) : bool :=
  let n := nat_of_ascii c in
  ((n =? 32) || (n =? 9) || (n =? 10) || (n =? 11) || (n =? 12) || (n =? 13))%nat.

(** Two bytes: U+00A0, the no-break space (C2 A0). *)
Definition is_space2 (c d : ascii) : bool :=
  ((nat_of_ascii c =? 194) && (nat_of_ascii d =? 160))%nat.

(** Three bytes: U+1680 (E1 9A 80); U+2000 to U+200A (E2 80 80 to
    E2 80 8A); the line and paragraph separators U+2028 and U+2029
    (E2 80 A8, E2 80 A9); U+202F (E2 80 AF); U+205F (E2 81 9F); U+3000
    (E3 80 80); and U+FEFF (EF BB BF). *)
Definition is_space3 (c d e : ascii) : bool :=
  let x := nat_of_ascii c in
  let y := nat_of_ascii d in
  let z := nat_of_ascii e in
  ((x =? 225) && (y =? 154) && (z =? 128)
   || (x =? 226) && (y =? 128)
      && ((128 <=? z) && (z <=? 138) || (z =? 168) || (z =? 169) || (z =? 175))
   || (x =? 226) && (y =? 129) && (z =? 159)
   || (x =? 227) && (y =? 128) && (z =? 128)
   || (x =? 239) && (y =? 187) && (z =? 191))%nat.

Fixpoint trimStart (s : string) : string :=
  match s with
  | EmptyString => EmptyString
  | String c s1 =>
      if is_space c then trimStart s1
      else
        match s1 with
        | EmptyString => s
        | String d s2 =>
            if is_space2 c d then trimStart s2
            else
              match s2 with
              | EmptyString => s
              | String e s3 => if is_space3 c d e then trimStart s3 else s
              end
        end
  end.

(** Nothing but white space. *)
Definition all_space (s : string) : bool :=
  match trimStart s with
  | EmptyString => true
  | String _ _ => false
  end.

(** The text up to the point from which on there is only white space. *)
Fixpoint trimEnd (s : string) : string :=
  match s with
  | EmptyString => EmptyString
  | String c s' => if all_space s then EmptyString else String c (trimEnd s')
  end.

Definition trim (s : string) : string := trimEnd (trimStart s).

Definition is_blank (c : ascii) : bool := (nat_of_ascii c =? 32)%nat.

Fixpoint skip_blanks (s : string) : string :=
  match s with
  | String c s' => if is_blank c then skip_blanks s' else s
  | EmptyString => EmptyString
  end.

(** [s.split(/ +/)]: every maximal run of blanks is one separator; the
    result always has at least one element. [fuel] bounds the scan and
    is taken as the length of the input. *)
Fixpoint split_blanks_aux (fuel : nat) (cur : string) (s : string) : list string :=
  match fuel with
  | O => [cur +:+ s]
  | S fuel' =>
      match s with
      | EmptyString => [cur]
      | String c s' =>
          if is_blank c
          then cur :: split_blanks_aux fuel' EmptyString (skip_blanks s')
          else split_blanks_aux fuel' (cur +:+ String c EmptyString) s'
      end
  end.

Definition split_blanks (s : string) : list string :=
  split_blanks_aux (S (String.length s)) EmptyString s.

(** [arr[0]] of a split result. *)
Definition first_token (l : list string) : string := hd EmptyString l.

Definition lower_char (c : ascii) : ascii :=
  let n := nat_of_ascii c in
  if ((65 <=? n) && (n <=? 90))%nat then ascii_of_nat (n + 32) else c.

(** [s.toLowerCase()] as it acts on ASCII text: the letters A to Z are
    folded, every other byte is kept. JavaScript also folds the cased
    letters outside ASCII, so what is stated through this definition is
    stated for ASCII text. *)
Fixpoint toLowerCase (s : string) : string :=
  match s with
  | EmptyString => EmptyString
  | String c s' => String (lower_char c) (toLowerCase s')
  end.

(** [s.split('@')[0]]. *)
Fixpoint before_at (s : string) : string :=
  match s with
  | EmptyString => EmptyString
  | String c s' => if (nat_of_ascii c =? 64)%nat then EmptyString else String c (before_at s')
  end.

(** [s.endsWith(suf)]. *)
Definition endsWith (s suf : string) : bool :=
  String.eqb (slice (String.length s - String.length suf) s) suf
  && (String.length suf <=? String.length s)%nat.

(** A thrown [Error] object; only its [message] is ever read. Values
    thrown that are not objects with a message ([throw null], say) are
    not represented. *)
Record Error := mkError { err_message : string }.

(** Completion of a call: a value, or a thrown error. *)
Inductive Outcome (A : Type) : Type :=
| Return (a : A)
| Throw (e : Error).
Arguments Return {A} a.
Arguments Throw {A} e.

Definition bind {A B} (m : Outcome A) (k : A -> Outcome B) : Outcome B :=
  match m with
  | Return a => k a
  | Throw e => Throw e
  end.

(** [try { body } catch (error) { handler }]. *)
Definition try_catch {A} (body : Outcome A) (handler : Error -> Outcome A) : Outcome A :=
  match body with
  | Return a => Return a
  | Throw e => handler e
  end.

End JS.

#[export] Instance outcome_ret : MRet JS.Outcome := fun A a => JS.Return a.
#[export] Instance outcome_bind : MBind JS.Outcome := fun A B k m => JS.bind m k.

(** ** The message cache (src/lib/cache/MessageCache.js) *)

Module MessageCache.

(** *** Incoming message objects, as far as the cache reads them *)

Record MessageKey := {
  key_id : string;
  remoteJid : string;
  participant : option string;
  fromMe : bool
}.

Record ExtendedTextMessage := { ext_text : option string }.
Record ImageMessage := { img_caption : option string; img_viewOnce : bool }.
Record VideoMessage := { vid_caption : option string; vid_viewOnce : bool }.
Record AudioMessage := { aud_viewOnce : bool }.
Record DocumentMessage := { doc_caption : option string; doc_title : option string }.

(** The payload [msg.message]: every field is optional. *)
Record Content := {
  conversation : option string;
  extendedTextMessage : option ExtendedTextMessage;
  imageMessage : option ImageMessage;
  videoMessage : option VideoMessage;
  audioMessage : option AudioMessage;
  documentMessage : option DocumentMessage;
  stickerMessage : bool;
  viewOnceMessage : bool
}.

Record WAMessage := {
  key : MessageKey;
  pushName : option string;
  messageTimestamp : option Z;
  message : option Content
}.

Inductive MessageKind := KText | KImage | KVideo | KAudio | KDocument | KSticker | KUnknown.

(** The string the code stores for each kind. *)
Definition kind_name (k : MessageKind) : string :=
  match k with
  | KText => "text" | KImage => "image" | KVideo => "video" | KAudio => "audio"
  | KDocument => "document" | KSticker => "sticker" | KUnknown => "unknown"
  end.

(** *** Helper methods *)

Definition present {A} (o : option A) : bool :=
  match o with Some _ => true | None => false end.

Definition detectMessageType (msg : WAMessage) : MessageKind :=
  match message msg with
  | None => KUnknown
  | Some m =>
      if present (imageMessage m) then KImage
      else if present (videoMessage m) then KVideo
      else if present (audioMessage m) then KAudio
      else if present (documentMessage m) then KDocument
      else if stickerMessage m then KSticker
      else if JS.truthy (conversation m) || present (extendedTextMessage m) then KText
      else KUnknown
  end.

Definition checkViewOnce (msg : WAMessage) : bool :=
  match message msg with
  | None => false
  | Some m =>
      from_option img_viewOnce false (imageMessage m)
      || from_option vid_viewOnce false (videoMessage m)
      || from_option aud_viewOnce false (audioMessage m)
      || viewOnceMessage m
  end.

(** [o?.f] for an optional object [o] and an optional string field [f]. *)
Definition opt_field {A} (f : A -> option string) (o : option A) : option string :=
  match o with Some a => f a | None => None end.

Definition extractText (msg : WAMessage) : string :=
  match message msg with
  | None => EmptyString
  | Some m =>
      if JS.truthy (conversation m) then JS.or_else (conversation m) EmptyString
      else if JS.truthy (opt_field ext_text (extendedTextMessage m))
      then JS.or_else (opt_field ext_text (extendedTextMessage m)) EmptyString
      else if JS.truthy (opt_field img_caption (imageMessage m))
      then JS.or_else (opt_field img_caption (imageMessage m)) EmptyString
      else if JS.truthy (opt_field vid_caption (videoMessage m))
      then JS.or_else (opt_field vid_caption (videoMessage m)) EmptyString
      else if JS.truthy (opt_field doc_caption (documentMessage m))
      then JS.or_else (opt_field doc_caption (documentMessage m)) EmptyString
      else EmptyString
  end.

(** *** The table and the cache object *)

(** One row of table [messages]; [id] is its PRIMARY KEY. The column
    [messageData] holds [JSON.stringify(msg)], kept here as the message
    it parses back to. *)
Record Row := {
  id : string;
  chatId : string;
  senderId : string;
  senderName : string;
  timestamp : Z;
  messageType : MessageKind;
  textContent : string;
  isViewOnce : Z;
  messageData : WAMessage
}.

Record Stats := {
  totalMessages : Z;
  deletedRecovered : Z;
  lastCleanup : Z
}.

Record Cache := {
  initialized : bool;
  rows : list Row;
  stats : Stats
}.

(** What [addMessage] resolves to on success. *)
Record Added := {
  a_id : string; a_chatId : string; a_senderId : string; a_senderName : string;
  a_timestamp : Z; a_messageType : MessageKind; a_textContent : string;
  a_isViewOnce : bool
}.

(** What [getMessage] resolves to when a row is found. *)
Record Cached := {
  c_id : string; c_chatId : string; c_senderId : string; c_senderName : string;
  c_timestamp : Z; c_messageType : MessageKind; c_textContent : string;
  c_isViewOnce : bool; c_message : WAMessage
}.

(** The state the constructor leaves once [initDatabase] has created an
    empty table. *)
Definition fresh (now : Z) : Cache :=
  {| initialized := true; rows := [];
     stats := {| totalMessages := 0; deletedRecovered := 0; lastCleanup := now |} |}.

(** [INSERT OR REPLACE INTO messages ...]: the only uniqueness
    constraint of the table is the primary key [id], so the rows that
    conflict with the new one are those with its [id]; they are deleted
    and the new row is inserted. *)
Definition insert_or_replace (r : Row) (tbl : list Row) : list Row :=
  filter (fun x => id x ≠ id r) tbl ++ [r].

(** [msg.messageTimestamp * 1000 || Date.now()]. *)
Definition row_timestamp (now : Z) (msg : WAMessage) : Z :=
  match messageTimestamp msg with
  | Some t => if (t * 1000 =? 0) then now else t * 1000
  | None => now
  end.

Definition row_of (now : Z) (msg : WAMessage) : Row :=
  {| id := key_id (key msg);
     chatId := remoteJid (key msg);
     senderId := JS.or_else (participant (key msg)) (remoteJid (key msg));
     senderName := JS.or_else (pushName msg) "Unknown";
     timestamp := row_timestamp now msg;
     messageType := detectMessageType msg;
     textContent := extractText msg;
     isViewOnce := if checkViewOnce msg then 1 else 0;
     messageData := msg |}.

Definition added_of (r : Row) : Added :=
  {| a_id := id r; a_chatId := chatId r; a_senderId := senderId r;
     a_senderName := senderName r; a_timestamp := timestamp r;
     a_messageType := messageType r; a_textContent := textContent r;
     a_isViewOnce := (isViewOnce r =? 1) |}.

Definition bump_total (s : Stats) : Stats :=
  {| totalMessages := totalMessages s + 1;
     deletedRecovered := deletedRecovered s;
     lastCleanup := lastCleanup s |}.

(** [addMessage(msg)]. [now] is [Date.now()]; [dberr] tells whether the
    database reports an error to the callback of [db.run]. *)
Definition addMessage (now : Z) (dberr : bool) (msg : WAMessage) (c : Cache)
  : Cache * option Added :=
  if negb (initialized c) || negb (present (message msg)) then (c, None)
  else
    let r := row_of now msg in
    if dberr then (c, None)
    else ({| initialized := initialized c;
             rows := insert_or_replace r (rows c);
             stats := bump_total (stats c) |},
          Some (added_of r)).

Definition cached_of (r : Row) : Cached :=
  {| c_id := id r; c_chatId := chatId r; c_senderId := senderId r;
     c_senderName := senderName r; c_timestamp := timestamp r;
     c_messageType := messageType r; c_textContent := textContent r;
     c_isViewOnce := (isViewOnce r =? 1); c_message := messageData r |}.

(** The WHERE clause [getMessage] builds: [id = ?], and [AND chatId = ?]
    when a truthy chat id is passed. *)
Definition selects (messageId : string) (chat : option string) (r : Row) : bool :=
  String.eqb (id r) messageId
  && (if JS.truthy chat then String.eqb (chatId r) (JS.or_else chat EmptyString) else true).

(** [db.get]: the first row of the result, if any. *)
Definition db_get (p : Row -> bool) (tbl : list Row) : option Row :=
  List.find p tbl.

(** [getMessage(messageId, chatId = null)]; [dberr] tells whether the
    database reports an error to the callback of [db.get], in which case
    the call resolves to [null], as it does when no row is found. *)
Definition getMessage (dberr : bool) (messageId : string) (chat : option string)
    (c : Cache) : option Cached :=
  if negb (initialized c) then None
  else if dberr then None
  else cached_of <$> db_get (selects messageId chat) (rows c).

(** [deleteMessage(messageId)]; [dberr] tells whether the database
    reports an error to the callback of [db.run], in which case nothing
    is deleted and the call resolves to [false]. *)
Definition deleteMessage (dberr : bool) (messageId : string) (c : Cache) : Cache * bool :=
  if negb (initialized c) then (c, false)
  else if dberr then (c, false)
  else ({| initialized := initialized c;
           rows := filter (fun x => id x ≠ messageId) (rows c);
           stats := stats c |}, true).

(** [cleanupOldMessages()], with [now] the value of [Date.now()];
    [dberr] tells whether the database reports an error to the callback
    of [db.run], in which case nothing changes. *)
Definition cleanupOldMessages (now : Z) (dberr : bool) (c : Cache) : Cache :=
  if negb (initialized c) then c
  else if dberr then c
  else
    let oneDayAgo := now - 24 * 60 * 60 * 1000 in
    {| initialized := initialized c;
       rows := filter (fun x => ¬ (timestamp x < oneDayAgo)) (rows c);
       stats := {| totalMessages := totalMessages (stats c);
                   deletedRecovered := deletedRecovered (stats c);
                   lastCleanup := now |} |}.

End MessageCache.

(** ** Configuration (config/config.js is not part of the sources: its
    values are parameters of everything below) *)

Record Config := {
  PREFIX : string;
  BOT_NAME : string;
  CHANNEL_LINK : string;
  AI_PROVIDER : option string;
  AUTO_PRESENCE : option string
}.

(** ** Connection life cycle (megan.js) *)

Module Connection.

Inductive ConnectionState := Disconnected | Connecting | Connected.

(** The fields of [MeganBot] that the connection handlers touch. *)
Record Session := {
  connectionState : ConnectionState;
  isConnected : bool;
  reconnectAttempts : Z;
  maxReconnectAttempts : Z;
  reconnects : Z;
  errors : Z
}.

(** The state the constructor sets up. *)
Definition initial : Session :=
  {| connectionState := Disconnected; isConnected := false;
     reconnectAttempts := 0; maxReconnectAttempts := 10;
     reconnects := 0; errors := 0 |}.

Inductive Status := StatusOpen | StatusClose | StatusConnecting.

(** A [connection.update] event: [connection], the value of
    [lastDisconnect?.error?.output?.statusCode] ([None] when any link of
    that chain is missing), and whether [qr] is set. *)
Record Update := {
  connection : option Status;
  statusCode : option Z;
  qr : bool
}.

(** What a timer started with [setTimeout] will run. *)
Inductive Task := TaskConnect | TaskPresence | TaskStartupNotification.

Inductive Effect :=
| Log (level context : string)
| SetTimeout (task : Task) (delay : Z)
| ProcessExit (code : Z).

(** [lastDisconnect?.error?.output?.statusCode !== 401]. *)
Definition shouldReconnect (u : Update) : bool :=
  match statusCode u with
  | Some c => negb (c =? 401)
  | None => true
  end.

(** [Math.min(1000 * Math.pow(2, attempts), 30000)]. *)
Definition backoff_delay (attempts : Z) : Z :=
  Z.min (1000 * 2 ^ attempts) 30000.

Definition qr_effects (u : Update) : list Effect :=
  if qr u then [Log "info" "AUTH"] else [].

(** [handleConnectionUpdate(update)]: the new session and the effects
    issued, in program order. *)
Definition handleConnectionUpdate (cfg : Config) (s : Session) (u : Update)
  : Session * list Effect :=
  match connection u with
  | Some StatusOpen =>
      ({| connectionState := Connected; isConnected := true;
          reconnectAttempts := 0;
          maxReconnectAttempts := maxReconnectAttempts s;
          reconnects := reconnects s; errors := errors s |},
       qr_effects u
       ++ [Log "system" "CONN"; Log "success" "SYSTEM"]
       ++ (if JS.truthy (AUTO_PRESENCE cfg) then [SetTimeout TaskPresence 2000] else [])
       ++ [SetTimeout TaskStartupNotification 3000])
  | Some StatusClose =>
      let s1 := {| connectionState := Disconnected; isConnected := false;
                   reconnectAttempts := reconnectAttempts s;
                   maxReconnectAttempts := maxReconnectAttempts s;
                   reconnects := reconnects s; errors := errors s |} in
      if shouldReconnect u && (reconnectAttempts s1 <? maxReconnectAttempts s1) then
        let attempts := reconnectAttempts s1 + 1 in
        let delay := backoff_delay attempts in
        ({| connectionState := Disconnected; isConnected := false;
            reconnectAttempts := attempts;
            maxReconnectAttempts := maxReconnectAttempts s1;
            reconnects := reconnects s1 + 1; errors := errors s1 |},
         qr_effects u
         ++ [Log "system" "CONN"; Log "info" "RECONNECT"; SetTimeout TaskConnect delay])
      else if negb (shouldReconnect u) then
        (s1, qr_effects u ++ [Log "system" "CONN"; Log "error" "AUTH"; ProcessExit 1])
      else (s1, qr_effects u ++ [Log "system" "CONN"])
  | _ => (s, qr_effects u)
  end.

(** [connect()]: [sessionExists] is the result of looking for the
    stored credentials, [socketOk] tells whether building the socket
    and its handlers goes through without an exception. The result is
    the session, the effects and the returned boolean. *)
Definition connect (sessionExists socketOk : bool) (s : Session)
  : Session * list Effect * bool :=
  let s1 := {| connectionState := Connecting; isConnected := isConnected s;
               reconnectAttempts := reconnectAttempts s;
               maxReconnectAttempts := maxReconnectAttempts s;
               reconnects := reconnects s; errors := errors s |} in
  if negb sessionExists then
    (s1, [Log "system" "CONN"; Log "error" "AUTH"; ProcessExit 1], false)
  else if socketOk then
    (s1, [Log "system" "CONN"; Log "success" "CONN"], true)
  else
    ({| connectionState := Connecting; isConnected := isConnected s;
        reconnectAttempts := reconnectAttempts s;
        maxReconnectAttempts := maxReconnectAttempts s;
        reconnects := reconnects s; errors := errors s + 1 |},
     [Log "system" "CONN"; Log "error" "CONN"], false).

(** The handler issued a reconnect, and with which delay. *)
Definition scheduled_reconnect (effs : list Effect) : option Z :=
  match List.find (fun e => match e with SetTimeout TaskConnect _ => true | _ => false end) effs with
  | Some (SetTimeout _ d) => Some d
  | _ => None
  end.

(** The handler ended the process. *)
Definition exits (effs : list Effect) : bool :=
  existsb (fun e => match e with ProcessExit _ => true | _ => false end) effs.

(** The session after a sequence of [connection.update] events, handled
    one after the other. *)
Definition after (cfg : Config) (s : Session) (updates : list Update) : Session :=
  fold_left (fun s u => fst (handleConnectionUpdate cfg s u)) updates s.

End Connection.

(** ** Command dispatch (src/lib/Commandhandler.js) *)

Module CommandHandler.

(** The argument object of [execute]; [bot] and [config] are the
    handler's own and [msg] is passed through untouched. *)
Record Context := {
  ctx_msg : MessageCache.WAMessage;
  ctx_from : string;
  ctx_sender : string;
  ctx_args : list string;
  ctx_text : string;
  ctx_isGroup : bool;
  ctx_command : string
}.

(** A registry entry. [execute] returns its result ([None] for
    [undefined]) or throws. *)
Record Command := {
  name : string;
  description : string;
  usage : string;
  category : string;
  categoryName : string;
  execute : Context -> JS.Outcome (option string)
}.

Record Handler := {
  config : Config;
  commands : gmap string Command;
  log : list (string * string)
}.

Record Result := {
  success : bool;
  message : string;
  command : option string
}.

Definition logged (h : Handler) (text level : string) : Handler :=
  {| config := config h; commands := commands h;
     log := log h ++ [(text, level)] |}.

(** The name as it is typed:
    [text.slice(PREFIX.length).trim().split(/ +/)[0]], before it is
    lower-cased. *)
Definition typedName (cfg : Config) (text : string) : string :=
  JS.first_token
    (JS.split_blanks (JS.trim (JS.slice (String.length (PREFIX cfg)) text))).

(** [text.slice(PREFIX.length).trim().split(/ +/)[0].toLowerCase()]. *)
Definition commandName (cfg : Config) (text : string) : string :=
  JS.toLowerCase
    (JS.first_token
       (JS.split_blanks (JS.trim (JS.slice (String.length (PREFIX cfg)) text)))).

(** [text.slice(PREFIX.length + commandName.length).trim().split(/ +/)]. *)
Definition arguments (cfg : Config) (text : string) : list string :=
  JS.split_blanks
    (JS.trim
       (JS.slice (String.length (PREFIX cfg) + String.length (commandName cfg text)) text)).

Definition unknown_message (cfg : Config) : string :=
  "❌ Unknown command. Type " +:+ PREFIX cfg +:+ "menu for available commands.".

(** The argument object built for [execute]. *)
Definition invocation (cfg : Config) (msg : MessageCache.WAMessage)
    (text from sender : string) (isGroup : bool) : Context :=
  {| ctx_msg := msg; ctx_from := from; ctx_sender := sender;
     ctx_args := arguments cfg text; ctx_text := text;
     ctx_isGroup := isGroup; ctx_command := commandName cfg text |}.

(** [handleCommand(msg, text, from, sender, isGroup)]: the handler
    afterwards and the value the promise resolves to, or the error it
    rejects with. *)
Definition handleCommand (h : Handler) (msg : MessageCache.WAMessage)
    (text from sender : string) (isGroup : bool)
  : JS.Outcome (Handler * Result) :=
  let cname := commandName (config h) text in
  match commands h !! cname with
  | None =>
      mret (h, {| success := false;
                  message := unknown_message (config h);
                  command := None |})
  | Some cmd =>
      let h1 := logged h ("⌨️ " +:+ cname +:+ " from " +:+ JS.before_at sender) "info" in
      JS.try_catch
        (result ← execute cmd (invocation (config h) msg text from sender isGroup);
         mret (h1, {| success := true;
                      message := JS.or_else result "✅ Command executed.";
                      command := Some cname |}))
        (fun error =>
           mret (logged h1 (JS.err_message error) ("command:" +:+ cname),
                 {| success := false;
                    message := "❌ Error: " +:+ JS.err_message error;
                    command := None |}))
  end.

(** The value a dispatch resolves to, without the handler. *)
Definition result_of (o : JS.Outcome (Handler * Result)) : JS.Outcome Result :=
  match o with
  | JS.Return (_, r) => JS.Return r
  | JS.Throw e => JS.Throw e
  end.

End CommandHandler.

(** ** Property names every object inherits *)

Module ObjectPrototype.

(** The members of [Object.prototype]. Looking one of their names up in
    an object literal used as a table ([this.providers[name]],
    [this.models[name]]) finds the inherited member, which is truthy, so
    the [|| default] beside the lookup does not apply and the member is
    what gets called, with [this] undefined. *)

(** Members whose call returns: [constructor] gives an object wrapping
    its first argument, [toString] the text for an undefined [this], and
    [isPrototypeOf] gives false for an argument that is a string. *)
Definition returning_names : list string :=
  [ "constructor"; "toString"; "isPrototypeOf" ].

(** Members whose call throws a [TypeError]: [__proto__] is an object and
    not a function; the others convert [this] to an object first. *)
Definition throwing_names : list string :=
  [ "__proto__"; "hasOwnProperty"; "propertyIsEnumerable"; "toLocaleString"; "valueOf";
    "__defineGetter__"; "__defineSetter__"; "__lookupGetter__"; "__lookupSetter__" ].

Definition inherited_names : list string := returning_names ++ throwing_names.

Definition inherited (name : string) : bool :=
  existsb (String.eqb name) inherited_names.

(** A key whose lookup is decided by the table's own entries; an absent
    key is looked up as the name [undefined]. *)
Definition own_lookup (key : option string) : bool :=
  match key with
  | Some k => negb (inherited k)
  | None => true
  end.

(** The error of calling a throwing member through a variable named
    [handler]. The wording of the message is the engine's (V8's here);
    nothing stated below depends on it. *)
Definition type_error (name : string) : JS.Error :=
  if String.eqb name "__proto__" then JS.mkError "handler is not a function"
  else if String.eqb name "toLocaleString"
  then JS.mkError "Object.prototype.toLocaleString called on null or undefined"
  else JS.mkError "Cannot convert undefined or null to object".

End ObjectPrototype.

(** ** The chatbot (src/modules/Chatbot.js) *)

Module Chatbot.

Definition dquote : string := String "034"%char EmptyString.
Definition newline : string := String "010"%char EmptyString.

(** What a [response] field can hold: a text, a whole result object of
    [meganFast] (the base provider puts one there when its own reply is
    empty), or the raw reply body of the custom endpoint. *)
Inductive Value :=
| VText (s : string)
| VResult (ok : bool) (text : string)
| VData.

(** Conversion to string inside a template literal. *)
Definition to_string (v : Value) : string :=
  match v with
  | VText s => s
  | _ => "[object Object]"
  end.

Record Entry := {
  role : string;
  message : Value;
  timestamp : Z
}.

Record UserContext := {
  userId : string;
  lastActive : Z;
  lastQuery : option string;
  lastResponse : option Value;
  providerUsed : option string
}.

Record State := {
  contexts : gmap string UserContext;
  history : gmap string (list Entry)
}.

(** The state the constructor sets up. *)
Definition initial : State := {| contexts := ∅; history := ∅ |}.

Definition maxHistory : nat := 10.

(** [arr.slice(-n)]: the last [n] elements. *)
Definition slice_last {A} (n : nat) (l : list A) : list A :=
  drop (length l - n) l.

(** [addToHistory(userId, role, message)], [now] being [Date.now()]. *)
Definition addToHistory (now : Z) (user : string) (r : string) (m : Value)
    (st : State) : State :=
  let h := default [] (history st !! user)
           ++ [{| role := r; message := m; timestamp := now |}] in
  {| contexts := contexts st;
     history := <[user := if (maxHistory <? length h)%nat
                          then slice_last maxHistory h else h]> (history st) |}.

(** [getHistory(userId)]. *)
Definition getHistory (user : string) (st : State) : list Entry :=
  default [] (history st !! user).

(** [clearHistory(userId)]. *)
Definition clearHistory (user : string) (st : State) : State :=
  {| contexts := delete user (contexts st); history := delete user (history st) |}.

(** [getUserContext(userId)]: creates the context on first use. *)
Definition getUserContext (now : Z) (user : string) (st : State) : State * UserContext :=
  match contexts st !! user with
  | Some c => (st, c)
  | None =>
      let c := {| userId := user; lastActive := now; lastQuery := None;
                  lastResponse := None; providerUsed := None |} in
      ({| contexts := <[user := c]> (contexts st); history := history st |}, c)
  end.

(** [updateUserContext(userId, {lastQuery, lastResponse, providerUsed})]. *)
Definition updateUserContext (now : Z) (user : string) (q : string) (r : Value)
    (p : option string) (st : State) : State :=
  let '(st1, _) := getUserContext now user st in
  {| contexts := <[user := {| userId := user; lastActive := now; lastQuery := Some q;
                              lastResponse := Some r; providerUsed := p |}]> (contexts st1);
     history := history st1 |}.

(** *** The outside world of one [chat] call *)

Inductive Endpoint := WorkerFast | WorkerBase | WorkerUltra | CustomEndpoint.

(** The reply to an [axios.post]: an exception (time-out, network or
    status error) or a body, of which the code reads one optional text. *)
Inductive HttpReply :=
| HttpError (e : JS.Error)
| HttpOk (text : option string).

(** The places that call [Math.random] through [fallbackResponse]. *)
Inductive RandomSite := FastEmptyReply | FastCatch | ChatFailed | ChatCatch.

(** The places that call [Date.now]. *)
Inductive ClockSite := ContextCreated | UserEntry | AssistantEntry | ContextUpdated.

Record UserSettings := {
  aiProvider : option string;
  chatbotEnabled : option bool
}.

Record World := {
  http : Endpoint -> HttpReply;
  random : RandomSite -> nat;
  clock : ClockSite -> Z;
  customEndpointSet : bool;
  getUserSettings : string -> JS.Outcome UserSettings
}.

(** No HTTP call of this world gets a reply. *)
Definition unreachable (w : World) : Prop :=
  forall ep, exists e, http w ep = HttpError e.

(** [fallbackResponse(prompt)], [pick] being
    [Math.floor(Math.random() * responses.length)]. *)
Definition fallbackResponse (pick : nat) (prompt : string) : string :=
  nth (pick mod 7)%nat
    [ "I understand you said: " +:+ dquote +:+ JS.substring0 50 prompt +:+ "..." +:+ dquote;
      "Processing your message...";
      "Thanks for your message! How can I assist you further?";
      "I heard: " +:+ dquote +:+ JS.substring0 30 prompt +:+ dquote +:+ " - could you elaborate?";
      "That's interesting! Tell me more.";
      "I'm here to help! What else would you like to know?";
      "Got it! Is there anything specific you'd like me to help with?" ]
    EmptyString.

(** What a provider resolves to. *)
Record ProviderResult := {
  p_success : bool;
  p_response : Value;
  p_error : option string;
  p_provider : option string
}.

Definition meganFast (w : World) (prompt : string) : ProviderResult :=
  match http w WorkerFast with
  | HttpOk body =>
      {| p_success := true;
         p_response := VText (JS.or_else body (fallbackResponse (random w FastEmptyReply) prompt));
         p_error := None; p_provider := Some "megan-fast" |}
  | HttpError e =>
      {| p_success := false;
         p_response := VText (fallbackResponse (random w FastCatch) prompt);
         p_error := Some (JS.err_message e); p_provider := None |}
  end.

Definition meganBase (w : World) (prompt : string) : ProviderResult :=
  match http w WorkerBase with
  | HttpOk body =>
      {| p_success := true;
         p_response :=
           if JS.truthy body then VText (JS.or_else body EmptyString)
           else let r := meganFast w prompt in
                VResult (p_success r) (to_string (p_response r));
         p_error := None; p_provider := Some "megan-base" |}
  | HttpError _ => meganFast w prompt
  end.

Definition meganUltra (w : World) (prompt : string) : ProviderResult :=
  match http w WorkerUltra with
  | HttpOk body =>
      {| p_success := true;
         p_response := VText ("✨ " +:+ JS.or_else body "Enhanced response generated.");
         p_error := None; p_provider := Some "megan-ultra" |}
  | HttpError _ => meganBase w prompt
  end.

Definition geminiAI := meganUltra.
Definition openAI := meganUltra.

Definition customAI (w : World) (prompt : string) : ProviderResult :=
  if negb (customEndpointSet w) then meganFast w prompt
  else match http w CustomEndpoint with
       | HttpOk body =>
           {| p_success := true;
              p_response := if JS.truthy body then VText (JS.or_else body EmptyString) else VData;
              p_error := None; p_provider := Some "custom" |}
       | HttpError _ => meganFast w prompt
       end.

(** The own entries of [this.providers], with [megan-fast] for a name
    that is not among them. *)
Definition providers (provider : option string) : World -> string -> ProviderResult :=
  match provider with
  | Some p =>
      if String.eqb p "megan-fast" then meganFast
      else if String.eqb p "megan-base" then meganBase
      else if String.eqb p "megan-ultra" then meganUltra
      else if String.eqb p "gemini" then geminiAI
      else if String.eqb p "openai" then openAI
      else if String.eqb p "custom" then customAI
      else meganFast
  | None => meganFast
  end.

(** [handler(prompt, chatContext)] for
    [handler = this.providers[provider] || this.providers['megan-fast']]:
    the result object of a provider; or, for a name that finds a member
    of [Object.prototype], a value that is no result object ([None]: its
    [success] and [error] read as undefined) or a [TypeError]. *)
Definition call_handler (provider : option string) (w : World) (prompt : string)
  : JS.Outcome (option ProviderResult) :=
  match provider with
  | Some p =>
      if existsb (String.eqb p) ObjectPrototype.throwing_names
      then JS.Throw (ObjectPrototype.type_error p)
      else if existsb (String.eqb p) ObjectPrototype.returning_names
      then JS.Return None
      else JS.Return (Some (providers provider w prompt))
  | None => JS.Return (Some (providers provider w prompt))
  end.

(** [a || b] on optional strings, as an optional string. *)
Definition first_truthy (a b : option string) : option string :=
  if JS.truthy a then a else b.

(** What [chat] resolves to. *)
Record ChatResult := {
  success : bool;
  response : Value;
  error : option string;
  provider : option string;
  historyLength : option nat
}.

(** What the [catch] of [chat] returns. *)
Definition caught (w : World) (prompt : string) (e : JS.Error) : ChatResult :=
  {| success := false;
     response := VText (fallbackResponse (random w ChatCatch) prompt);
     error := Some (JS.err_message e);
     provider := Some "error-fallback"; historyLength := None |}.

(** What [chat] returns when the value the handler gave has no truthy
    [success]; [err] is its [error]. *)
Definition failed (w : World) (prompt : string) (err : option string) : ChatResult :=
  {| success := false;
     response := VText (fallbackResponse (random w ChatFailed) prompt);
     error := err;
     provider := Some "fallback"; historyLength := None |}.

(** [chat(prompt, userId, options)], [optProvider] being
    [options.provider]. An exception of the settings store comes before
    anything is recorded; one of the handler call comes after the prompt
    went into the history. *)
Definition chat (cfg : Config) (w : World) (prompt user : string)
    (optProvider : option string) (st : State) : State * ChatResult :=
  match getUserSettings w user with
  | JS.Throw e => (st, caught w prompt e)
  | JS.Return userSettings =>
      let prov := first_truthy (first_truthy optProvider (aiProvider userSettings))
                               (AI_PROVIDER cfg) in
      let '(st1, _) := getUserContext (clock w ContextCreated) user st in
      let st2 := addToHistory (clock w UserEntry) user "user" (VText prompt) st1 in
      match call_handler prov w prompt with
      | JS.Throw e => (st2, caught w prompt e)
      | JS.Return None => (st2, failed w prompt None)
      | JS.Return (Some result) =>
          if p_success result then
            let st3 := addToHistory (clock w AssistantEntry) user "assistant"
                         (p_response result) st2 in
            let st4 := updateUserContext (clock w ContextUpdated) user prompt
                         (p_response result) (p_provider result) st3 in
            (st4, {| success := true; response := p_response result;
                     error := p_error result; provider := p_provider result;
                     historyLength := Some (length (getHistory user st4)) |})
          else (st2, failed w prompt (p_error result))
      end
  end.

End Chatbot.

(** ** Sending and the chatbot path of the orchestrator (megan.js) *)

Module Bot.

(** The content object handed to [sendMessage]. *)
Record Content := {
  text : option string;
  footer : option string
}.

Record GroupSettings := { chatbotInGroups : option bool }.

(** The collaborators of the orchestrator: the transport's send
    operation and the settings store. *)
Record Env := {
  sock_sendMessage : string -> Content -> JS.Outcome unit;
  getGroupSettings : string -> JS.Outcome GroupSettings;
  world : Chatbot.World
}.

Record State := {
  chatbot : Chatbot.State;
  sent : list (string * Content);
  log : list (string * string)
}.

Definition logged (st : State) (level context : string) : State :=
  {| chatbot := chatbot st; sent := sent st; log := log st ++ [(level, context)] |}.

(** The footer [sendMessage] appends. *)
Definition footer_text (cfg : Config) : string :=
  Chatbot.newline +:+ Chatbot.newline +:+ "📢 *" +:+ BOT_NAME cfg +:+ "*"
  +:+ Chatbot.newline +:+ CHANNEL_LINK cfg.

(** The update of [content.text] at the head of [sendMessage]. *)
Definition add_footer (cfg : Config) (t : option string) : option string :=
  match t with
  | Some s =>
      if JS.truthy (Some s) && negb (JS.includes s (CHANNEL_LINK cfg))
      then Some (s +:+ footer_text cfg)
      else Some s
  | None => None
  end.

(** [sendMessage(to, content, options)]: the state afterwards and the
    content object as the call leaves it, or the error rethrown. *)
Definition sendMessage (cfg : Config) (env : Env) (to : string) (content : Content)
    (st : State) : State * JS.Outcome Content :=
  let content' := {| text := add_footer cfg (text content); footer := footer content |} in
  match sock_sendMessage env to content' with
  | JS.Return _ =>
      (logged {| chatbot := chatbot st; sent := sent st ++ [(to, content')]; log := log st |}
              "outgoing" "SEND",
       JS.Return content')
  | JS.Throw e => (logged st "error" "SEND", JS.Throw e)
  end.

(** [x !== false] for a boolean-or-undefined setting. *)
Definition not_false (b : option bool) : bool :=
  match b with Some false => false | _ => true end.

(** [handleChatbot(msg, text)]. *)
Definition handleChatbot (cfg : Config) (env : Env) (msg : MessageCache.WAMessage)
    (txt : string) (st : State) : State :=
  if negb (JS.truthy (Some txt)) || (String.length (JS.trim txt) =? 0)%nat then st
  else
    let from := MessageCache.remoteJid (MessageCache.key msg) in
    let sender := JS.or_else (MessageCache.participant (MessageCache.key msg)) from in
    let isGroup := JS.endsWith from "@g.us" in
    match Chatbot.getUserSettings (world env) sender with
    | JS.Throw _ => logged st "error" "AI"
    | JS.Return userSettings =>
        match (if isGroup then getGroupSettings env from
               else JS.Return {| chatbotInGroups := None |}) with
        | JS.Throw _ => logged st "error" "AI"
        | JS.Return groupSettings =>
            let chatbotEnabled :=
              if isGroup
              then not_false (chatbotInGroups groupSettings)
                   && not_false (Chatbot.chatbotEnabled userSettings)
              else not_false (Chatbot.chatbotEnabled userSettings) in
            if negb chatbotEnabled then st
            else
              let st1 := logged st "ai" "Processing..." in
              let '(cb, response) :=
                Chatbot.chat cfg (world env) txt sender None (chatbot st1) in
              let st2 := {| chatbot := cb; sent := sent st1; log := log st1 |} in
              if Chatbot.success response then
                let '(st3, r) :=
                  sendMessage cfg env from
                    {| text := Some (Chatbot.to_string (Chatbot.response response)
                                     +:+ Chatbot.newline +:+ Chatbot.newline
                                     +:+ "💬 *AI Assistant*" +:+ Chatbot.newline
                                     +:+ CHANNEL_LINK cfg);
                       footer := Some (BOT_NAME cfg) |} st2 in
                match r with
                | JS.Return _ =>
                    match Chatbot.response response with
                    | Chatbot.VText _ => logged st3 "ai" "done"
                    | _ => logged st3 "error" "AI"
                    end
                | JS.Throw _ => logged st3 "error" "AI"
                end
              else st2
        end
    end.

End Bot.

(** ** Sample inputs *)

Module Samples.
Import MessageCache.

Definition no_content : Content :=
  {| conversation := None; extendedTextMessage := None; imageMessage := None;
     videoMessage := None; audioMessage := None; documentMessage := None;
     stickerMessage := false; viewOnceMessage := false |}.

(** A message from [chat] with the given id and payload. *)
Definition incoming (i chat : string) (payload : option Content) : WAMessage :=
  {| key := {| key_id := i; remoteJid := chat; participant := None; fromMe := false |};
     pushName := Some "Amina";
     messageTimestamp := Some 1700000000;
     message := payload |}.

Definition text_payload (t : string) : Content :=
  {| conversation := Some t; extendedTextMessage := None; imageMessage := None;
     videoMessage := None; audioMessage := None; documentMessage := None;
     stickerMessage := false; viewOnceMessage := false |}.

Definition extended_payload (t : string) : Content :=
  {| conversation := None; extendedTextMessage := Some {| ext_text := Some t |};
     imageMessage := None; videoMessage := None; audioMessage := None;
     documentMessage := None; stickerMessage := false; viewOnceMessage := false |}.

Definition image_payload (caption : option string) : Content :=
  {| conversation := None; extendedTextMessage := None;
     imageMessage := Some {| img_caption := caption; img_viewOnce := false |};
     videoMessage := None; audioMessage := None; documentMessage := None;
     stickerMessage := false; viewOnceMessage := false |}.

Definition video_payload (caption : option string) : Content :=
  {| conversation := None; extendedTextMessage := None; imageMessage := None;
     videoMessage := Some {| vid_caption := caption; vid_viewOnce := false |};
     audioMessage := None; documentMessage := None;
     stickerMessage := false; viewOnceMessage := false |}.

Definition audio_payload : Content :=
  {| conversation := None; extendedTextMessage := None; imageMessage := None;
     videoMessage := None; audioMessage := Some {| aud_viewOnce := false |};
     documentMessage := None; stickerMessage := false; viewOnceMessage := false |}.

Definition document_payload (caption : option string) : Content :=
  {| conversation := None; extendedTextMessage := None; imageMessage := None;
     videoMessage := None; audioMessage := None;
     documentMessage := Some {| doc_caption := caption; doc_title := Some "report.pdf" |};
     stickerMessage := false; viewOnceMessage := false |}.

Definition sticker_payload : Content :=
  {| conversation := None; extendedTextMessage := None; imageMessage := None;
     videoMessage := None; audioMessage := None; documentMessage := None;
     stickerMessage := true; viewOnceMessage := false |}.

(** An image with a caption that also carries an extended-text body. *)
Definition captioned_image_with_body : Content :=
  {| conversation := None;
     extendedTextMessage := Some {| ext_text := Some "see this" |};
     imageMessage := Some {| img_caption := Some "cat"; img_viewOnce := false |};
     videoMessage := None; audioMessage := None; documentMessage := None;
     stickerMessage := false; viewOnceMessage := false |}.

Definition alice : string := "254700000001@s.whatsapp.net".
Definition bob : string := "254700000002@s.whatsapp.net".

Definition config : Config :=
  {| PREFIX := "!"; BOT_NAME := "MEGAN-MD";
     CHANNEL_LINK := "https://whatsapp.com/channel/megan";
     AI_PROVIDER := Some "megan-fast"; AUTO_PRESENCE := None |}.

(** A command that answers and a command whose body throws. *)
Definition ping : CommandHandler.Command :=
  {| CommandHandler.name := "ping";
     CommandHandler.description := "Check that the bot is alive";
     CommandHandler.usage := "!ping";
     CommandHandler.category := "public";
     CommandHandler.categoryName := "Public Commands";
     CommandHandler.execute := fun _ => JS.Return (Some "pong") |}.

Definition backup : CommandHandler.Command :=
  {| CommandHandler.name := "backup";
     CommandHandler.description := "Back up the store";
     CommandHandler.usage := "!backup";
     CommandHandler.category := "owner";
     CommandHandler.categoryName := "Owner Commands";
     CommandHandler.execute := fun _ => JS.Throw (JS.mkError "disk is full") |}.

(** Every HTTP call times out; settings are readable and leave the
    chatbot enabled. *)
Definition offline : Chatbot.World :=
  {| Chatbot.http := fun _ => Chatbot.HttpError (JS.mkError "timeout of 10000ms exceeded");
     Chatbot.random := fun _ => 1%nat;
     Chatbot.clock := fun _ => 1700000000500;
     Chatbot.customEndpointSet := false;
     Chatbot.getUserSettings :=
       fun _ => JS.Return {| Chatbot.aiProvider := None; Chatbot.chatbotEnabled := None |} |}.

(** A transport that delivers everything. *)
Definition delivering (w : Chatbot.World) : Bot.Env :=
  {| Bot.sock_sendMessage := fun _ _ => JS.Return tt;
     Bot.getGroupSettings := fun _ => JS.Return {| Bot.chatbotInGroups := None |};
     Bot.world := w |}.

Definition idle : Bot.State :=
  {| Bot.chatbot := Chatbot.initial; Bot.sent := []; Bot.log := [] |}.

Definition handler : CommandHandler.Handler :=
  {| CommandHandler.config := config;
     CommandHandler.commands := <["ping" := ping]> (<["backup" := backup]> ∅);
     CommandHandler.log := [] |}.

End Samples.

(** ** The claims about the cache key, as the specification words them *)

Module CacheKeySpec.
Import MessageCache.

(** The cache after [m1] and then [m2] were written without database
    errors. The reads below are reads the database answers
    ([getMessage false]). *)
Definition after_two (now1 now2 : Z) (m1 m2 : WAMessage) (c : Cache) : Cache :=
  fst (addMessage now2 false m2 (fst (addMessage now1 false m1 c))).

(** Last write wins under one (message id, chat id) pair, and the
    overwriting write is counted. *)
Definition last_write_wins : Prop :=
  forall (c : Cache) (now1 now2 : Z) (m1 m2 : WAMessage),
    initialized c = true ->
    present (message m1) = true -> present (message m2) = true ->
    key_id (key m1) = key_id (key m2) ->
    remoteJid (key m1) = remoteJid (key m2) ->
    m1 <> m2 ->
    getMessage false (key_id (key m2)) (Some (remoteJid (key m2)))
      (after_two now1 now2 m1 m2 c)
      = Some (cached_of (row_of now2 m2))
    /\ totalMessages (stats (after_two now1 now2 m1 m2 c))
       = totalMessages (stats (fst (addMessage now1 false m1 c))) + 1.

(** The pair (message id, chat id) is the key: a record is replaced only
    by a write under the same pair, so a write under another pair leaves
    it readable. *)
Definition pair_is_key : Prop :=
  forall (c : Cache) (now1 now2 : Z) (m1 m2 : WAMessage),
    initialized c = true ->
    present (message m1) = true -> present (message m2) = true ->
    (key_id (key m1), remoteJid (key m1)) <> (key_id (key m2), remoteJid (key m2)) ->
    getMessage false (key_id (key m1)) (Some (remoteJid (key m1)))
      (after_two now1 now2 m1 m2 c)
      = Some (cached_of (row_of now1 m1)).

Definition as_stated : Prop := last_write_wins /\ pair_is_key.

End CacheKeySpec.

(** ** The derivation rules for kind and text, as tables of checks *)

Module DerivationSpec.
Import MessageCache.

(** First entry that is a non-empty string; the empty string if none. *)
Fixpoint first_match (candidates : list (option string)) : string :=
  match candidates with
  | [] => EmptyString
  | Some (String a s) :: _ => String a s
  | _ :: rest => first_match rest
  end.

(** The captions of the media that carry one. *)
Definition captions (m : Content) : list (option string) :=
  [ opt_field img_caption (imageMessage m);
    opt_field vid_caption (videoMessage m);
    opt_field doc_caption (documentMessage m) ].

Definition extended_body (m : Content) : option string :=
  opt_field ext_text (extendedTextMessage m).

(** The order the specification gives: conversation text, or caption of
    media, or extended-text body. *)
Definition text_as_stated (msg : WAMessage) : string :=
  match message msg with
  | None => EmptyString
  | Some m => first_match ([conversation m] ++ captions m ++ [extended_body m])
  end.

(** The order with the extended-text body ahead of the captions. *)
Definition text_body_first (msg : WAMessage) : string :=
  match message msg with
  | None => EmptyString
  | Some m => first_match ([conversation m; extended_body m] ++ captions m)
  end.

(** First check that holds decides the kind. *)
Fixpoint first_kind (checks : list (bool * MessageKind)) : MessageKind :=
  match checks with
  | [] => KUnknown
  | (true, k) :: _ => k
  | (false, _) :: rest => first_kind rest
  end.

Definition kind_rules (msg : WAMessage) : MessageKind :=
  match message msg with
  | None => KUnknown
  | Some m =>
      first_kind
        [ (present (imageMessage m), KImage);
          (present (videoMessage m), KVideo);
          (present (audioMessage m), KAudio);
          (present (documentMessage m), KDocument);
          (stickerMessage m, KSticker);
          (JS.truthy (conversation m), KText);
          (present (extendedTextMessage m), KText) ]
  end.

(** Write, then read back under the same (id, chat id); [dberr] tells
    whether the database reports an error on the read. *)
Definition read_back (dberr : bool) (now : Z) (msg : WAMessage) (c : Cache)
  : option Cached :=
  getMessage dberr (key_id (key msg)) (Some (remoteJid (key msg)))
    (fst (addMessage now false msg c)).

(** The round trip with the text order of the specification, for a
    read the database answers. *)
Definition round_trip_as_stated : Prop :=
  forall (c : Cache) (now : Z) (msg : WAMessage),
    initialized c = true -> present (message msg) = true ->
    exists rec, read_back false now msg c = Some rec
                /\ c_messageType rec = kind_rules msg
                /\ c_textContent rec = text_as_stated msg.

End DerivationSpec.

(** ** Reconnect sequences, and exhaustion as the specification words it *)

Module ConnectionSpec.
Import Connection.

Definition close_with (code : option Z) : Update :=
  {| connection := Some StatusClose; statusCode := code; qr := false |}.

(** A close for any reason but the unauthorized code. *)
Definition retryable (u : Update) : Prop :=
  connection u = Some StatusClose /\ statusCode u <> Some 401.

(** The close that tells the session is not authorized. *)
Definition unauthorized (u : Update) : Prop :=
  connection u = Some StatusClose /\ statusCode u = Some 401.

(** Closes seen since the last open: an open starts the count again. *)
Definition count_close (n : nat) (u : Update) : nat :=
  match connection u with
  | Some StatusOpen => 0%nat
  | Some StatusClose => S n
  | _ => n
  end.

Definition closes_since_open (updates : list Update) : nat :=
  fold_left count_close updates 0%nat.

(** The session with all ten attempts used. *)
Definition exhausted : Session :=
  {| connectionState := Connected; isConnected := true;
     reconnectAttempts := 10; maxReconnectAttempts := 10;
     reconnects := 10; errors := 0 |}.

(** A retryable close with the attempts used up ends the process. *)
Definition exhaustion_is_fatal : Prop :=
  forall (cfg : Config) (s : Session) (u : Update),
    retryable u ->
    maxReconnectAttempts s <= reconnectAttempts s ->
    exits (snd (handleConnectionUpdate cfg s u)) = true.

End ConnectionSpec.

(** ** Sequences of history writes *)

Module HistorySpec.
Import Chatbot.

(** A call that writes to the conversation history: [addToHistory]
    itself, or [chat], which calls it for the prompt and, when the
    handler call gave a successful result, for the reply. *)
Inductive Call :=
| CallAdd (now : Z) (user role : string) (m : Value)
| CallChat (cfg : Config) (w : World) (prompt user : string) (optProvider : option string).

Definition step (st : State) (c : Call) : State :=
  match c with
  | CallAdd now user r m => addToHistory now user r m st
  | CallChat cfg w prompt user optProvider => fst (chat cfg w prompt user optProvider st)
  end.

Definition run (calls : list Call) (st : State) : State := fold_left step calls st.

(** The provider [chat] ends up calling. *)
Definition chosen (cfg : Config) (w : World) (user : string) (optProvider : option string)
  : option string :=
  match getUserSettings w user with
  | JS.Return us => first_truthy (first_truthy optProvider (aiProvider us)) (AI_PROVIDER cfg)
  | JS.Throw _ => None
  end.

(** The entries one call hands to [addToHistory] for user [u], oldest
    first. *)
Definition inserted (c : Call) (u : string) : list Entry :=
  match c with
  | CallAdd now user r m =>
      if decide (user = u) then [{| role := r; message := m; timestamp := now |}] else []
  | CallChat cfg w prompt user optProvider =>
      if decide (user = u) then
        match getUserSettings w user with
        | JS.Throw _ => []
        | JS.Return _ =>
            {| role := "user"; message := VText prompt; timestamp := clock w UserEntry |}
            :: match call_handler (chosen cfg w user optProvider) w prompt with
               | JS.Return (Some result) =>
                   if p_success result
                   then [{| role := "assistant"; message := p_response result;
                            timestamp := clock w AssistantEntry |}]
                   else []
               | _ => []
               end
        end
      else []
  end.

(** Everything a sequence of calls inserted for [u], oldest first. *)
Definition all_inserted (calls : list Call) (u : string) : list Entry :=
  concat (map (fun c => inserted c u) calls).

End HistorySpec.

(** ** The message cache: statistics and sequences of operations *)

Module CacheOps.
Import MessageCache.

(** What [getStats] resolves to: the counters of the cache object and
    the three aggregates of the table. *)
Record StatsView := {
  v_totalMessages : Z;
  v_deletedRecovered : Z;
  v_lastCleanup : Z;
  cacheSize : Z;
  uniqueChats : Z;
  viewOnceMessages : Z
}.

Definition view (s : Stats) (size chats once : Z) : StatsView :=
  {| v_totalMessages := totalMessages s; v_deletedRecovered := deletedRecovered s;
     v_lastCleanup := lastCleanup s;
     cacheSize := size; uniqueChats := chats; viewOnceMessages := once |}.

(** [SUM(isViewOnce)], with [|| 0] applied to the NULL of an empty
    table. *)
Definition sum_viewOnce (tbl : list Row) : Z :=
  foldr Z.add 0 (isViewOnce <$> tbl).

(** [COUNT(DISTINCT chatId)]. *)
Definition count_chats (tbl : list Row) : Z :=
  Z.of_nat (length (remove_dups (chatId <$> tbl))).

(** [getStats()], [dberr] telling whether [db.all] reports an error. *)
Definition getStats (dberr : bool) (c : Cache) : StatsView :=
  if negb (initialized c) then view (stats c) 0 0 0
  else if dberr then view (stats c) 0 0 0
  else view (stats c) (Z.of_nat (length (rows c))) (count_chats (rows c))
            (sum_viewOnce (rows c)).

(** The calls that change the cache. *)
Inductive Op :=
| OpAdd (now : Z) (dberr : bool) (msg : WAMessage)
| OpDelete (dberr : bool) (messageId : string)
| OpCleanup (now : Z) (dberr : bool).

Definition apply (c : Cache) (o : Op) : Cache :=
  match o with
  | OpAdd now dberr msg => fst (addMessage now dberr msg c)
  | OpDelete dberr messageId => fst (deleteMessage dberr messageId c)
  | OpCleanup now dberr => cleanupOldMessages now dberr c
  end.

Definition run (ops : list Op) (c : Cache) : Cache := fold_left apply ops c.

(** The view-once column holds 0 or 1 in every row. *)
Definition flags_ok (c : Cache) : Prop :=
  Forall (fun r => isViewOnce r = 0 \/ isViewOnce r = 1) (rows c).

End CacheOps.

(** ** The other text extractor (src/utils/logger.js) *)

Module Logger.
Import MessageCache.

(** [extractMessageText(msg)] of the logger: no document field. *)
Definition extractMessageText (msg : WAMessage) : string :=
  match message msg with
  | None => EmptyString
  | Some m =>
      if JS.truthy (conversation m) then JS.or_else (conversation m) EmptyString
      else if JS.truthy (opt_field ext_text (extendedTextMessage m))
      then JS.or_else (opt_field ext_text (extendedTextMessage m)) EmptyString
      else if JS.truthy (opt_field img_caption (imageMessage m))
      then JS.or_else (opt_field img_caption (imageMessage m)) EmptyString
      else if JS.truthy (opt_field vid_caption (videoMessage m))
      then JS.or_else (opt_field vid_caption (videoMessage m)) EmptyString
      else EmptyString
  end.

End Logger.

(** ** Message routing of the orchestrator (megan.js) *)

Module Orchestrator.
Import MessageCache.

(** [extractMessageText(msg)] of megan.js: the document contributes its
    title. *)
Definition extractMessageText (msg : WAMessage) : string :=
  match message msg with
  | None => EmptyString
  | Some m =>
      if JS.truthy (conversation m) then JS.or_else (conversation m) EmptyString
      else if JS.truthy (opt_field ext_text (extendedTextMessage m))
      then JS.or_else (opt_field ext_text (extendedTextMessage m)) EmptyString
      else if JS.truthy (opt_field img_caption (imageMessage m))
      then JS.or_else (opt_field img_caption (imageMessage m)) EmptyString
      else if JS.truthy (opt_field vid_caption (videoMessage m))
      then JS.or_else (opt_field vid_caption (videoMessage m)) EmptyString
      else if JS.truthy (opt_field doc_title (documentMessage m))
      then JS.or_else (opt_field doc_title (documentMessage m)) EmptyString
      else EmptyString
  end.

(** [text.startsWith(prefix)]. *)
Definition startsWith (text prefix : string) : bool := String.prefix prefix text.

(** [shouldRespondToChatbot(msg)]. *)
Definition shouldRespondToChatbot (cfg : Config) (msg : WAMessage) : bool :=
  if fromMe (key msg) then false
  else
    let text := extractMessageText msg in
    if negb (JS.truthy (Some text)) then false
    else if startsWith text (PREFIX cfg) then false
    else true.

(** The counters of [this.stats] that message handling touches. *)
Record Counters := {
  messagesProcessed : Z;
  commandsExecuted : Z;
  errors : Z
}.

Record State := {
  bot : Bot.State;
  handler : CommandHandler.Handler;
  counters : Counters
}.

(** The collaborators: those of [Bot], the [cacheMessage] method of the
    cache module megan.js imports and [autoFeatures.processMessage],
    neither of which is among the sources; each returns or throws. *)
Record Env := {
  base : Bot.Env;
  cacheMessage : WAMessage -> JS.Outcome unit;
  processMessage : WAMessage -> JS.Outcome unit
}.

Definition count_error (st : State) : State :=
  {| bot := bot st; handler := handler st;
     counters := {| messagesProcessed := messagesProcessed (counters st);
                    commandsExecuted := commandsExecuted (counters st);
                    errors := errors (counters st) + 1 |} |}.

Definition count_processed (st : State) : State :=
  {| bot := bot st; handler := handler st;
     counters := {| messagesProcessed := messagesProcessed (counters st) + 1;
                    commandsExecuted := commandsExecuted (counters st);
                    errors := errors (counters st) |} |}.

Definition count_command (st : State) : State :=
  {| bot := bot st; handler := handler st;
     counters := {| messagesProcessed := messagesProcessed (counters st);
                    commandsExecuted := commandsExecuted (counters st) + 1;
                    errors := errors (counters st) |} |}.

Definition with_bot (st : State) (b : Bot.State) : State :=
  {| bot := b; handler := handler st; counters := counters st |}.

(** [handleCommand(msg, text)] of megan.js. *)
Definition handleCommand (cfg : Config) (env : Env) (msg : WAMessage) (text : string)
    (st : State) : State :=
  let from := remoteJid (key msg) in
  let sender := JS.or_else (participant (key msg)) from in
  let isGroup := JS.endsWith from "@g.us" in
  match CommandHandler.handleCommand (handler st) msg text from sender isGroup with
  | JS.Throw _ => count_error st
  | JS.Return (h, result) =>
      let st1 := {| bot := bot st; handler := h; counters := counters st |} in
      if negb (CommandHandler.success result)
         && JS.truthy (Some (CommandHandler.message result))
      then
        match Bot.sendMessage cfg (base env) from
                {| Bot.text := Some (CommandHandler.message result);
                   Bot.footer := Some (CHANNEL_LINK cfg) |} (bot st1) with
        | (b, JS.Return _) => with_bot st1 b
        | (b, JS.Throw _) => count_error (with_bot st1 b)
        end
      else if CommandHandler.success result then count_command st1
      else st1
  end.

(** The body of the loop of [handleMessagesUpsert] for one message. *)
Definition handleOne (cfg : Config) (env : Env) (st : State) (msg : WAMessage) : State :=
  match cacheMessage env msg with
  | JS.Throw _ => count_error st
  | JS.Return _ =>
      let st1 := count_processed st in
      match processMessage env msg with
      | JS.Throw _ => count_error st1
      | JS.Return _ =>
          let text := extractMessageText msg in
          if JS.truthy (Some text) && startsWith text (PREFIX cfg)
          then handleCommand cfg env msg text st1
          else if negb (fromMe (key msg)) && shouldRespondToChatbot cfg msg
          then with_bot st1 (Bot.handleChatbot cfg (base env) msg text (bot st1))
          else st1
      end
  end.

(** [handleMessagesUpsert(messages, type)], [notify] telling whether
    [type] is ['notify']. *)
Definition handleMessagesUpsert (cfg : Config) (env : Env) (messages : list WAMessage)
    (notify : bool) (st : State) : State :=
  if negb notify then st else fold_left (handleOne cfg env) messages st.

(** The message went into the cache without an exception. *)
Definition cached_ok (env : Env) (msg : WAMessage) : bool :=
  match cacheMessage env msg with JS.Return _ => true | JS.Throw _ => false end.

(** Caching the message or the automatic features threw. *)
Definition failed_early (env : Env) (msg : WAMessage) : bool :=
  match cacheMessage env msg, processMessage env msg with
  | JS.Return _, JS.Return _ => false
  | _, _ => true
  end.

(** How many messages of a batch satisfy [p]. *)
Definition count (p : WAMessage -> bool) (messages : list WAMessage) : Z :=
  Z.of_nat (length (List.filter p messages)).

(** The uptime line of [getBotStats]: hours and minutes of an uptime in
    milliseconds. *)
Definition uptime_hours (uptime : Z) : Z := uptime / (1000 * 60 * 60).
Definition uptime_minutes (uptime : Z) : Z := (uptime mod (1000 * 60 * 60)) / (1000 * 60).

End Orchestrator.

(** ** Runs of the connection handlers *)

Module ConnectionRuns.
Import Connection.

(** What can happen to the session: a [connection.update] event is
    handled, or [connect()] runs (at start-up or from a reconnect timer). *)
Inductive Event :=
| EvUpdate (u : Update)
| EvConnect (sessionExists socketOk : bool).

Definition step (cfg : Config) (s : Session) (e : Event) : Session * list Effect :=
  match e with
  | EvUpdate u => handleConnectionUpdate cfg s u
  | EvConnect sessionExists socketOk =>
      let '(s', effs, _) := connect sessionExists socketOk s in (s', effs)
  end.

(** The session after a sequence of events and every effect issued on
    the way, in order. *)
Fixpoint run (cfg : Config) (s : Session) (events : list Event) : Session * list Effect :=
  match events with
  | [] => (s, [])
  | e :: rest =>
      let '(s1, effs) := step cfg s e in
      let '(s2, more) := run cfg s1 rest in
      (s2, effs ++ more)
  end.

(** The timer, if this effect starts one for [connect]. *)
Definition reconnect_delay (e : Effect) : option Z :=
  match e with
  | SetTimeout TaskConnect d => Some d
  | _ => None
  end.

(** The delays of the reconnects scheduled by a list of effects. *)
Definition reconnect_delays (effs : list Effect) : list Z :=
  omap reconnect_delay effs.

(** The maximum is the constructor's and the counter is within it. *)
Definition session_ok (s : Session) : Prop :=
  maxReconnectAttempts s = 10 /\ 0 <= reconnectAttempts s <= 10.

End ConnectionRuns.

(** ** The chatbot: statistics and provider chains *)

Module ChatbotStats.
Import Chatbot.

(** What [getStats] returns, without the constant list of provider
    names. *)
Record StatsView := {
  activeUsers : nat;
  totalHistory : nat
}.

(** [getStats()]. *)
Definition getStats (st : State) : StatsView :=
  {| activeUsers := size (contexts st);
     totalHistory := map_fold (fun _ h sum => (sum + length h)%nat) 0%nat (history st) |}.

(** The endpoint answered the call. *)
Definition replies (w : World) (ep : Endpoint) : bool :=
  match http w ep with HttpOk _ => true | HttpError _ => false end.

(** The endpoints a provider name leads to, in the order they are tried. *)
Definition chain (provider : option string) (w : World) : list Endpoint :=
  match provider with
  | Some p =>
      if String.eqb p "megan-fast" then [WorkerFast]
      else if String.eqb p "megan-base" then [WorkerBase; WorkerFast]
      else if String.eqb p "megan-ultra" then [WorkerUltra; WorkerBase; WorkerFast]
      else if String.eqb p "gemini" then [WorkerUltra; WorkerBase; WorkerFast]
      else if String.eqb p "openai" then [WorkerUltra; WorkerBase; WorkerFast]
      else if String.eqb p "custom"
      then (if customEndpointSet w then [CustomEndpoint; WorkerFast] else [WorkerFast])
      else [WorkerFast]
  | None => [WorkerFast]
  end.

End ChatbotStats.

(** ** The model router (second class of src/modules/Chatbot.js) *)

Module ModelRouter.

Record Router := {
  enabled : bool;
  onlyInbox : bool
}.

(** The state the constructor sets up. *)
Definition initial : Router := {| enabled := true; onlyInbox := true |}.

Definition enable (r : Router) : Router := {| enabled := true; onlyInbox := onlyInbox r |}.
Definition disable (r : Router) : Router := {| enabled := false; onlyInbox := onlyInbox r |}.
Definition setInboxOnly (b : bool) (r : Router) : Router :=
  {| enabled := enabled r; onlyInbox := b |}.

(** The two HTTP calls the router can make. *)
Inductive Call := FastCall | BaseCall.

Record World := {
  http : Call -> Chatbot.HttpReply;
  random : nat
}.

(** [fallbackResponse(message)]. *)
Definition fallbackResponse (pick : nat) (message : string) : string :=
  nth (pick mod 3)%nat
    [ "I heard: " +:+ Chatbot.dquote +:+ JS.substring0 50 message +:+ "..." +:+ Chatbot.dquote;
      "Processing your message...";
      "Thanks for reaching out!" ]
    EmptyString.

Definition fastModel (w : World) (message : string) : string :=
  match http w FastCall with
  | Chatbot.HttpOk body => JS.or_else body "No response"
  | Chatbot.HttpError _ => fallbackResponse (random w) message
  end.

Definition baseModel (w : World) (message : string) : string :=
  match http w BaseCall with
  | Chatbot.HttpOk body =>
      if JS.truthy body then JS.or_else body EmptyString else fastModel w message
  | Chatbot.HttpError _ => fastModel w message
  end.

Definition ultraModel (message : string) : string :=
  "[Ultra Mode] " +:+ message +:+ Chatbot.newline +:+ Chatbot.newline
  +:+ "Enhanced response coming soon!".

Definition cloudflareModel := fastModel.

(** [this.models[model] || this.models['megan-fast']]. *)
Definition models (model : string) (w : World) (message : string) : string :=
  if String.eqb model "megan-fast" then fastModel w message
  else if String.eqb model "megan-base" then baseModel w message
  else if String.eqb model "megan-ultra" then ultraModel message
  else if String.eqb model "cloudflare" then cloudflareModel w message
  else fastModel w message.

(** [route(model, message, context)], [isGroup] being [context.isGroup];
    [None] is the [null] of a skipped message. *)
Definition route (r : Router) (w : World) (model message : string) (isGroup : bool)
  : option string :=
  if negb (enabled r) then None
  else if onlyInbox r && isGroup then None
  else Some (models model w message).

End ModelRouter.

(** ** Group utilities (src/lib/GroupUtils.js) *)

Module GroupUtils.

Definition is_digit (c : ascii) : bool :=
  let n := nat_of_ascii c in ((48 <=? n) && (n <=? 57))%nat.

(** [s.replace(/\D/g, '')]. *)
Fixpoint digits (s : string) : string :=
  match s with
  | EmptyString => EmptyString
  | String c s' => if is_digit c then String c (digits s') else digits s'
  end.

(** Every character is a digit. *)
Fixpoint all_digits (s : string) : bool :=
  match s with
  | EmptyString => true
  | String c s' => is_digit c && all_digits s'
  end.

Definition whatsapp_net : string := "@s.whatsapp.net".

(** [extractPhone(jid)], [None] being an [undefined] argument. *)
Definition extractPhone (jid : option string) : string :=
  if negb (JS.truthy jid) then EmptyString
  else digits (JS.before_at (JS.or_else jid EmptyString)).

(** [normalizeJid(jid)]. *)
Definition normalizeJid (jid : string) : string :=
  if negb (JS.truthy (Some jid)) then EmptyString
  else
    let phone := extractPhone (Some jid) in
    if negb (JS.truthy (Some phone)) then jid
    else phone +:+ whatsapp_net.

(** [formatJid(phone)]; [None] is the [null] returned for an empty
    argument. *)
Definition formatJid (phone : string) : option string :=
  if negb (JS.truthy (Some phone)) then None
  else if JS.includes phone "@" then Some (normalizeJid phone)
  else
    let d := digits phone in
    let d' := if negb (String.prefix "254" d) && (String.length d =? 9)%nat
              then "254" +:+ d else d in
    Some (d' +:+ whatsapp_net).

(** [isOwner(senderJid)], given [config.OWNER_PHONE] and
    [sock.user?.id]. *)
Definition isOwner (ownerPhone : string) (botId : option string) (senderJid : string) : bool :=
  let senderPhone := extractPhone (Some senderJid) in
  String.eqb senderPhone (extractPhone (Some ownerPhone))
  || String.eqb senderPhone (extractPhone botId).

(** A participant of the group metadata; [p_admin] is ['admin'],
    ['superadmin'] or absent. *)
Record Participant := {
  p_id : string;
  p_admin : option string
}.

(** [['admin', 'superadmin'].includes(p.admin)]. *)
Definition has_admin_role (p : Participant) : bool :=
  match p_admin p with
  | Some r => String.eqb r "admin" || String.eqb r "superadmin"
  | None => false
  end.

(** [isAdmin(groupJid, userJid)], given what [sock.groupMetadata] does
    for the group; the [undefined] of a user that is not found counts as
    [false]. *)
Definition isAdmin (metadata : JS.Outcome (list Participant)) (userJid : string) : bool :=
  match metadata with
  | JS.Throw _ => false
  | JS.Return participants =>
      match List.find (fun p => String.eqb (normalizeJid (p_id p)) (normalizeJid userJid))
                      participants with
      | Some p => has_admin_role p
      | None => false
      end
  end.

(** [getAdmins(groupJid)]. *)
Definition getAdmins (metadata : JS.Outcome (list Participant)) : list string :=
  match metadata with
  | JS.Throw _ => []
  | JS.Return participants => List.map p_id (List.filter has_admin_role participants)
  end.

(** [getAllMembers(groupJid)]. *)
Definition getAllMembers (metadata : JS.Outcome (list Participant)) : list string :=
  match metadata with
  | JS.Throw _ => []
  | JS.Return participants => List.map p_id participants
  end.

End GroupUtils.

(** ** Loading the registry (src/lib/Commandhandler.js, [loadCommands] and
    [reloadCommands]) *)

Module Loader.
Import CommandHandler.

Definition Exec := Context -> JS.Outcome (option string).

(** A command definition as a source exports it. *)
Record CommandDef := {
  d_description : option string;
  d_usage : option string;
  d_category : option string;
  d_execute : Exec
}.

(** What [require] of a source yields: an object with an [execute]
    function, a function, an object without [execute] (its entries in
    order, each value a command definition or something else), [null],
    or anything else. *)
Inductive Export :=
| ExpCommand (def : CommandDef)
| ExpFunction (f : Exec)
| ExpTable (entries : list (string * option CommandDef))
| ExpNull
| ExpOther.

(** A file below the commands directory: in a category folder, or at the
    top level. *)
Inductive Path :=
| CategoryFile (category file : string)
| TopFile (file : string).

#[export] Instance path_eq_dec : EqDecision Path.
Proof. solve_decision. Defined.

#[export] Instance path_countable : Countable Path.
Proof.
  refine (inj_countable'
            (fun p => match p with
                      | CategoryFile c f => inl (c, f)
                      | TopFile f => inr f
                      end)
            (fun x => match x with
                      | inl (c, f) => CategoryFile c f
                      | inr f => TopFile f
                      end) _).
  intros []; reflexivity.
Defined.

(** The file system and the module loader as the handler sees them: the
    listing of each category folder ([None] when it does not exist), the
    listing of the commands directory, and what loading each file from
    disk gives. *)
Record Disk := {
  category_listing : string -> option (list string);
  top_listing : list string;
  content : Path -> JS.Outcome Export
}.

(** The handler together with [require.cache]. *)
Record State := {
  handler : Handler;
  cache : gmap Path Export
}.

(** [require(path)]: the cached module if there is one; otherwise the
    file is loaded and, unless loading throws, cached. *)
Definition require (disk : Disk) (c : gmap Path Export) (path : Path)
  : gmap Path Export * JS.Outcome Export :=
  match c !! path with
  | Some e => (c, JS.Return e)
  | None =>
      match content disk path with
      | JS.Return e => (<[path := e]> c, JS.Return e)
      | JS.Throw err => (c, JS.Throw err)
      end
  end.

(** [this.categories], in the order of [Object.entries]. *)
Definition categories : list (string * string) :=
  [ ("public", "👤 Public Commands");
    ("group", "👥 Group Commands");
    ("admin", "⭐ Admin Commands");
    ("owner", "👑 Owner Commands") ].

(** [this.categories[key]]. *)
Definition category_title (key : option string) : option string :=
  match key with
  | Some k => snd <$> List.find (fun '(c, _) => String.eqb c k) categories
  | None => None
  end.

Definition is_js (file : string) : bool := JS.endsWith file ".js".

(** [path.basename(file, '.js')] of a file name that ends in [.js]. *)
Definition basename (file : string) : string :=
  JS.substring0 (String.length file - 3) file.

(** [this.commands.set(name, entry)]. *)
Definition set_command (h : Handler) (n : string) (c : Command) : Handler :=
  {| config := config h; commands := <[n := c]> (commands h); log := log h |}.

(** The body of the [try] of the first strategy, given what [require]
    did. *)
Definition register_category (category title : string) (file : string)
    (r : JS.Outcome Export) (h : Handler) : Handler :=
  let n := basename file in
  match r with
  | JS.Return (ExpCommand def) =>
      logged
        (set_command h n
           {| name := n;
              description := JS.or_else (d_description def) "No description";
              usage := JS.or_else (d_usage def) (PREFIX (config h) +:+ n);
              category := JS.or_else (d_category def) category;
              categoryName := title;
              execute := d_execute def |})
        ("Loaded: " +:+ category +:+ "/" +:+ n) "debug"
  | JS.Return (ExpFunction f) =>
      logged
        (set_command h n
           {| name := n; description := "No description";
              usage := PREFIX (config h) +:+ n;
              category := category; categoryName := title; execute := f |})
        ("Loaded: " +:+ category +:+ "/" +:+ n) "debug"
  | JS.Return ExpNull => logged h ("Failed " +:+ category +:+ "/" +:+ n) "warning"
  | JS.Return _ => logged h ("Loaded: " +:+ category +:+ "/" +:+ n) "debug"
  | JS.Throw e =>
      logged h ("Failed " +:+ category +:+ "/" +:+ n +:+ ": " +:+ JS.err_message e) "warning"
  end.

(** One entry of a multi-command export. *)
Definition register_entry (file : string) (h : Handler) (entry : string * option CommandDef)
  : Handler :=
  match entry with
  | (n, Some def) =>
      logged
        (set_command h n
           {| name := n;
              description := JS.or_else (d_description def) "No description";
              usage := JS.or_else (d_usage def) (PREFIX (config h) +:+ n);
              category := JS.or_else (d_category def) "public";
              categoryName := JS.or_else (category_title (d_category def)) "Public Commands";
              execute := d_execute def |})
        ("Loaded from " +:+ file +:+ ": " +:+ n) "debug"
  | (_, None) => h
  end.

(** The body of the [try] of the second strategy, given what [require]
    did. *)
Definition register_top (file : string) (r : JS.Outcome Export) (h : Handler) : Handler :=
  match r with
  | JS.Return (ExpTable entries) => fold_left (register_entry file) entries h
  | JS.Return ExpNull => logged h ("Failed to load " +:+ file) "warning"
  | JS.Return _ => h
  | JS.Throw e =>
      logged h ("Failed to load " +:+ file +:+ ": " +:+ JS.err_message e) "warning"
  end.

(** The files of the category folders that are required, in order. *)
Definition category_files (disk : Disk) : list (string * string * string) :=
  concat (List.map (fun '(cat, title) =>
                      match category_listing disk cat with
                      | Some files => List.map (fun f => (cat, title, f)) (List.filter is_js files)
                      | None => []
                      end) categories).

(** The top-level files that are required, in order. *)
Definition top_files (disk : Disk) : list string :=
  List.filter (fun f => is_js f && negb (String.eqb f "index.js")) (top_listing disk).

(** Every [require] of [loadCommands], in order, each with what is done
    with its outcome: first the category folders, then the top-level
    files. *)
Definition plan (disk : Disk) : list (Path * (JS.Outcome Export -> Handler -> Handler)) :=
  List.map (fun '(cat, title, f) => (CategoryFile cat f, register_category cat title f))
           (category_files disk)
  ++ List.map (fun f => (TopFile f, register_top f)) (top_files disk).

(** Running requires one after the other, threading [require.cache]. *)
Definition run_requires (disk : Disk)
    (steps : list (Path * (JS.Outcome Export -> Handler -> Handler))) (st : State) : State :=
  fold_left (fun st '(path, k) =>
               let '(c, r) := require disk (cache st) path in
               {| handler := k r (handler st); cache := c |})
            steps st.

(** [loadCommands()]. *)
Definition loadCommands (disk : Disk) (st : State) : State :=
  let st1 := run_requires disk (plan disk) st in
  {| handler := logged (handler st1) "✅ Loaded commands" "success"; cache := cache st1 |}.

(** [reloadCommands()]: the cache entries of the category files are
    dropped, those of the top-level files are not; the result is the new
    state and the number of commands. *)
Definition reloadCommands (disk : Disk) (st : State) : State * nat :=
  let h := logged (handler st) "Reloading commands..." "info" in
  let cleared := {| config := config h; commands := ∅; log := log h |} in
  let c := fold_left (fun c '(cat, _, f) => delete (CategoryFile cat f) c)
                     (category_files disk) (cache st) in
  let st' := loadCommands disk {| handler := cleared; cache := c |} in
  (st', size (commands (handler st'))).

(** The same registrations with the outcome of every [require] given by
    a function. *)
Definition build (oracle : Path -> JS.Outcome Export)
    (steps : list (Path * (JS.Outcome Export -> Handler -> Handler))) (h : Handler) : Handler :=
  fold_left (fun h '(path, k) => k (oracle path) h) steps h.

(** What [require] returns for a path, given cache and disk. *)
Definition resolve (disk : Disk) (c : gmap Path Export) (path : Path) : JS.Outcome Export :=
  match c !! path with
  | Some e => JS.Return e
  | None => content disk path
  end.

(** The constructor's handler, before it loads anything. *)
Definition empty_handler (cfg : Config) : Handler :=
  {| config := cfg; commands := ∅; log := [] |}.

(** Two handlers that differ at most in their logs. *)
Definition same_registry (h h' : Handler) : Prop :=
  config h = config h' /\ commands h = commands h'.

(** What [require] returns during a reload: category files come from
    disk, top-level files from the cache when they are in it. *)
Definition reload_oracle (disk : Disk) (c : gmap Path Export) (path : Path)
  : JS.Outcome Export :=
  match path with
  | CategoryFile _ _ => content disk path
  | TopFile _ => resolve disk c path
  end.

(** A name of ASCII characters without white space and without
    upper-case letters: [trim] and [toLowerCase] leave it as it is. *)
Fixpoint plain_name (n : string) : bool :=
  match n with
  | EmptyString => true
  | String c n' =>
      (nat_of_ascii c <? 128)%nat
      && negb (JS.is_space c) && Ascii.eqb (JS.lower_char c) c && plain_name n'
  end.

(** A step that never removes a name from the registry. *)
Definition grows (k : JS.Outcome Export -> Handler -> Handler) : Prop :=
  forall r h n, is_Some (commands h !! n) -> is_Some (commands (k r h) !! n).

(** Every entry is filed under its own name and has a description. *)
Definition entries_ok (h : Handler) : Prop :=
  forall n c, commands h !! n = Some c -> name c = n /\ description c <> EmptyString.

End Loader.

(** ** Sample command sources *)

Module LoaderSamples.
Import Loader.

Definition ping_def : CommandDef :=
  {| d_description := Some "Check that the bot is alive"; d_usage := None;
     d_category := None; d_execute := fun _ => JS.Return (Some "pong") |}.

Definition kick_def : CommandDef :=
  {| d_description := None; d_usage := Some "!kick @user";
     d_category := Some "admin"; d_execute := fun _ => JS.Return None |}.

(** One category file, one text file beside it, one multi-command file
    at the top level. *)
Definition disk : Disk :=
  {| category_listing :=
       fun cat => if String.eqb cat "public" then Some ["ping.js"; "notes.txt"] else None;
     top_listing := ["group.js"; "index.js"; "public"];
     content :=
       fun path =>
         match path with
         | CategoryFile _ _ => JS.Return (ExpCommand ping_def)
         | TopFile _ => JS.Return (ExpTable [("kick", Some kick_def); ("version", None)])
         end |}.

(** The same directory after [group.js] was edited to define [ban]
    instead of [kick]. *)
Definition edited : Disk :=
  {| category_listing := category_listing disk;
     top_listing := top_listing disk;
     content :=
       fun path =>
         match path with
         | CategoryFile _ _ => content disk path
         | TopFile _ => JS.Return (ExpTable [("ban", Some kick_def)])
         end |}.

Definition fresh : State :=
  {| handler := empty_handler Samples.config; cache := ∅ |}.

End LoaderSamples.

(** * Properties *)

(** ** The message cache: keys, overwrites and the counter *)

Section MessageCacheFacts.
Import MessageCache.

Lemma find_app_first {A} (p : A -> bool) (l1 l2 : list A) :
  List.find p (l1 ++ l2) =
  match List.find p l1 with Some x => Some x | None => List.find p l2 end.
Proof.
  induction l1 as [|a l1 IH]; simpl; [reflexivity|].
  destruct (p a); [reflexivity | exact IH].
Qed.

(** After the conflicting rows are deleted no row has the new id. *)
Lemma no_match_after_delete (i : string) (chat : option string) (tbl : list Row) :
  db_get (selects i chat) (filter (fun x => id x ≠ i) tbl) = None.
Proof.
  unfold db_get. induction tbl as [|r tbl IH]; [reflexivity|].
  rewrite filter_cons. destruct (decide (id r ≠ i)) as [Hne|Heq]; [|exact IH].
  simpl. unfold selects at 1.
  destruct (String.eqb_spec (id r) i) as [E|_]; [contradiction|]. simpl. exact IH.
Qed.

Lemma none_left_after_delete (i : string) (tbl : list Row) :
  filter (fun x => id x = i) (filter (fun x => id x ≠ i) tbl) = [].
Proof.
  induction tbl as [|r tbl IH]; [reflexivity|].
  rewrite filter_cons. destruct (decide (id r ≠ i)) as [Hne|Heq]; [|exact IH].
  rewrite filter_cons. destruct (decide (id r = i)); [contradiction | exact IH].
Qed.

Lemma selects_own_key (r : Row) :
  selects (id r) (Some (chatId r)) r = true.
Proof.
  unfold selects. rewrite String.eqb_refl. simpl.
  destruct (chatId r) as [|a s] eqn:E; [reflexivity|].
  cbn [JS.truthy JS.or_else]. apply String.eqb_refl.
Qed.

Lemma selects_own_id (r : Row) : selects (id r) None r = true.
Proof. unfold selects. rewrite String.eqb_refl. reflexivity. Qed.

(** A successful write: what the cache looks like afterwards. *)
Lemma addMessage_written now msg c :
  initialized c = true -> present (message msg) = true ->
  fst (addMessage now false msg c) =
  {| initialized := true;
     rows := insert_or_replace (row_of now msg) (rows c);
     stats := bump_total (stats c) |}.
Proof.
  intros Hi Hp. unfold addMessage. rewrite Hi, Hp. reflexivity.
Qed.

(** Read-after-write through the primary key. *)
Lemma get_after_insert (r : Row) (tbl : list Row) (chat : option string) :
  selects (id r) chat r = true ->
  db_get (selects (id r) chat) (insert_or_replace r tbl) = Some r.
Proof.
  intros Hsel. unfold insert_or_replace, db_get.
  rewrite find_app_first.
  pose proof (no_match_after_delete (id r) chat tbl) as Hnone.
  unfold db_get in Hnone. rewrite Hnone. simpl. rewrite Hsel. reflexivity.
Qed.

Lemma only_row_after_insert (r : Row) (tbl : list Row) :
  filter (fun x => id x = id r) (insert_or_replace r tbl) = [r].
Proof.
  unfold insert_or_replace. rewrite filter_app, none_left_after_delete.
  simpl. rewrite filter_cons. destruct (decide (id r = id r)); [reflexivity | contradiction].
Qed.

End MessageCacheFacts.

Section CacheKey.
Import MessageCache.

(** C1, as stated, fails: the table's primary key is the message id
    alone. The message with id 3EB0A1 is written for the chat with Alice
    and then a message with the same id for the chat with Bob; the second
    write deletes the first record, and looking up (3EB0A1, Alice) finds
    nothing, so the pair is not the key. *)
Lemma C1_pair_is_not_the_key :
  getMessage false "3EB0A1" (Some Samples.alice)
    (CacheKeySpec.after_two 1700000000500 1700000000900
       (Samples.incoming "3EB0A1" Samples.alice (Some (Samples.text_payload "hello")))
       (Samples.incoming "3EB0A1" Samples.bob (Some (Samples.text_payload "bonjour")))
       (fresh 1700000000000))
  = None
  /\ ~ CacheKeySpec.as_stated.
Proof.
  split; [vm_compute; reflexivity|].
  intros [_ Hkey].
  specialize (Hkey (fresh 1700000000000) 1700000000500 1700000000900
    (Samples.incoming "3EB0A1" Samples.alice (Some (Samples.text_payload "hello")))
    (Samples.incoming "3EB0A1" Samples.bob (Some (Samples.text_payload "bonjour")))
    eq_refl eq_refl eq_refl).
  assert (Hne : (key_id (key (Samples.incoming "3EB0A1" Samples.alice
                                 (Some (Samples.text_payload "hello")))),
                 remoteJid (key (Samples.incoming "3EB0A1" Samples.alice
                                 (Some (Samples.text_payload "hello")))))
                <> (key_id (key (Samples.incoming "3EB0A1" Samples.bob
                                 (Some (Samples.text_payload "bonjour")))),
                    remoteJid (key (Samples.incoming "3EB0A1" Samples.bob
                                 (Some (Samples.text_payload "bonjour"))))))
    by (vm_compute; discriminate).
  specialize (Hkey Hne). vm_compute in Hkey. discriminate Hkey.
Qed.

(** C1, amended: the message id alone is the key. For every two
    successful [addMessage] calls carrying the same message id (whatever
    their chat ids and contents), the later write replaces the earlier
    record: a [getMessage] by that id that the database answers, with the
    later chat id or with none, returns the later record (a read on which
    the database reports an error resolves to null), it is the only row
    left under that id, and each of the two writes adds one to the
    total-message counter. *)
Theorem C1_last_write_wins_by_id (c : Cache) (now1 now2 : Z) (m1 m2 : WAMessage) :
  initialized c = true ->
  present (message m1) = true -> present (message m2) = true ->
  key_id (key m1) = key_id (key m2) ->
  let c1 := fst (addMessage now1 false m1 c) in
  let c2 := fst (addMessage now2 false m2 c1) in
  getMessage false (key_id (key m2)) (Some (remoteJid (key m2))) c2
    = Some (cached_of (row_of now2 m2))
  /\ getMessage false (key_id (key m2)) None c2 = Some (cached_of (row_of now2 m2))
  /\ (forall chat, getMessage true (key_id (key m2)) chat c2 = None)
  /\ filter (fun r => id r = key_id (key m2)) (rows c2) = [row_of now2 m2]
  /\ totalMessages (stats c1) = totalMessages (stats c) + 1
  /\ totalMessages (stats c2) = totalMessages (stats c1) + 1.
Proof.
  intros Hi H1 H2 Hid c1 c2. subst c1 c2.
  rewrite (addMessage_written now1 m1 c Hi H1).
  rewrite (addMessage_written now2 m2) by (reflexivity || assumption).
  unfold getMessage. cbn [initialized rows stats negb].
  change (key_id (key m2)) with (id (row_of now2 m2)).
  change (remoteJid (key m2)) with (chatId (row_of now2 m2)).
  rewrite !get_after_insert by (apply selects_own_key || apply selects_own_id).
  rewrite only_row_after_insert.
  repeat split; reflexivity.
Qed.

Lemma C1_last_write_wins_by_id_witness :
  getMessage false "3EB0A1" None
    (fst (addMessage 1700000000900 false
            (Samples.incoming "3EB0A1" Samples.bob (Some (Samples.text_payload "bonjour")))
            (fst (addMessage 1700000000500 false
                    (Samples.incoming "3EB0A1" Samples.alice (Some (Samples.text_payload "hello")))
                    (fresh 1700000000000)))))
  = Some (cached_of (row_of 1700000000900
            (Samples.incoming "3EB0A1" Samples.bob (Some (Samples.text_payload "bonjour"))))).
Proof.
  exact (proj1 (proj2 (C1_last_write_wins_by_id (fresh 1700000000000)
    1700000000500 1700000000900
    (Samples.incoming "3EB0A1" Samples.alice (Some (Samples.text_payload "hello")))
    (Samples.incoming "3EB0A1" Samples.bob (Some (Samples.text_payload "bonjour")))
    eq_refl eq_refl eq_refl eq_refl))).
Defined.

End CacheKey.


(** ** The message cache: kind and text of what is read back *)

Section Derivation.
Import MessageCache DerivationSpec.

(** The if-chain of [extractText] is a first-match over conversation,
    extended-text body, image, video and document caption. *)
Lemma extractText_body_first (msg : WAMessage) :
  extractText msg = text_body_first msg.
Proof.
  unfold extractText, text_body_first. destruct (message msg) as [m|]; [|reflexivity].
  unfold captions, extended_body. cbn [app first_match].
  destruct (conversation m) as [[|a s]|]; cbn [JS.truthy JS.or_else first_match];
    try reflexivity;
    (destruct (opt_field ext_text (extendedTextMessage m)) as [[|a1 s1]|];
     cbn [JS.truthy JS.or_else first_match]; try reflexivity;
     (destruct (opt_field img_caption (imageMessage m)) as [[|a2 s2]|];
      cbn [JS.truthy JS.or_else first_match]; try reflexivity;
      (destruct (opt_field vid_caption (videoMessage m)) as [[|a3 s3]|];
       cbn [JS.truthy JS.or_else first_match]; try reflexivity;
       (destruct (opt_field doc_caption (documentMessage m)) as [[|a4 s4]|];
        cbn [JS.truthy JS.or_else first_match]; reflexivity)))).
Qed.

(** The if-chain of [detectMessageType] is the table [kind_rules]. *)
Lemma detectMessageType_rules (msg : WAMessage) :
  detectMessageType msg = kind_rules msg.
Proof.
  unfold detectMessageType, kind_rules. destruct (message msg) as [m|]; [|reflexivity].
  cbn [first_kind].
  destruct (present (imageMessage m)), (present (videoMessage m)),
    (present (audioMessage m)), (present (documentMessage m)), (stickerMessage m),
    (JS.truthy (conversation m)), (present (extendedTextMessage m)); reflexivity.
Qed.

(** Reading back right after a successful write returns the row
    written, when the database answers the read. *)
Lemma read_back_row (c : Cache) (now : Z) (msg : WAMessage) :
  initialized c = true -> present (message msg) = true ->
  read_back false now msg c = Some (cached_of (row_of now msg)).
Proof.
  intros Hi Hp. unfold read_back. rewrite (addMessage_written now msg c Hi Hp).
  unfold getMessage. cbn [initialized rows negb].
  change (key_id (key msg)) with (id (row_of now msg)).
  change (remoteJid (key msg)) with (chatId (row_of now msg)).
  rewrite get_after_insert by apply selects_own_key. reflexivity.
Qed.

(** C5, as stated, fails on the text order: for an image captioned "cat"
    that also carries the extended-text body "see this", the record read
    back has text "see this" (the body is checked before the captions),
    where the stated order (caption before body) gives "cat". *)
Lemma C5_body_before_caption :
  (exists rec,
     read_back false 1700000000500
       (Samples.incoming "3EB0C5" Samples.alice (Some Samples.captioned_image_with_body))
       (fresh 1700000000000) = Some rec
     /\ c_messageType rec = KImage
     /\ c_textContent rec = "see this")
  /\ text_as_stated
       (Samples.incoming "3EB0C5" Samples.alice (Some Samples.captioned_image_with_body))
     = "cat"
  /\ ~ round_trip_as_stated.
Proof.
  split; [eexists; split; [vm_compute; reflexivity | split; reflexivity]|].
  split; [reflexivity|].
  intros H.
  destruct (H (fresh 1700000000000) 1700000000500
              (Samples.incoming "3EB0C5" Samples.alice (Some Samples.captioned_image_with_body))
              eq_refl eq_refl) as (rec & Hget & _ & Htext).
  vm_compute in Hget. injection Hget as <-. vm_compute in Htext. discriminate Htext.
Qed.

(** C5, amended: for every message that carries a payload (so for each
    of the text, image, video, audio, document, sticker and unknown
    shapes), a successful [addMessage] followed by a [getMessage] with
    the same (id, chat id) that the database answers (a read on which it
    reports an error resolves to null) returns a record whose kind is
    given by the
    priority-ordered checks image, video, audio, document, sticker, text,
    else unknown, and whose text is the first non-empty of: conversation
    text, extended-text body, image caption, video caption, document
    caption; the empty string if none applies. *)
Theorem C5_round_trip_kind_and_text (c : Cache) (now : Z) (msg : WAMessage) :
  initialized c = true -> present (message msg) = true ->
  (exists rec, read_back false now msg c = Some rec
               /\ c_messageType rec = kind_rules msg
               /\ c_textContent rec = text_body_first msg
               /\ c_message rec = msg)
  /\ read_back true now msg c = None.
Proof.
  intros Hi Hp. split.
  - exists (cached_of (row_of now msg)).
    split; [apply read_back_row; assumption|].
    cbn [cached_of row_of c_messageType c_textContent c_message
         messageType textContent messageData].
    rewrite extractText_body_first, detectMessageType_rules. repeat split.
  - unfold read_back, getMessage. destruct (negb _); reflexivity.
Qed.

Lemma C5_round_trip_kind_and_text_witness :
  exists rec,
    read_back false 1700000000500
      (Samples.incoming "3EB0C6" Samples.alice (Some (Samples.image_payload (Some "hello"))))
      (fresh 1700000000000) = Some rec
    /\ c_messageType rec = KImage
    /\ c_textContent rec = "hello"
    /\ c_message rec
       = Samples.incoming "3EB0C6" Samples.alice (Some (Samples.image_payload (Some "hello"))).
Proof.
  exact (proj1 (C5_round_trip_kind_and_text (fresh 1700000000000) 1700000000500
           (Samples.incoming "3EB0C6" Samples.alice (Some (Samples.image_payload (Some "hello"))))
           eq_refl eq_refl)).
Defined.

(** The seven shapes, each read back with its kind and text. *)
Example shapes_read_back :
  let probe payload :=
    option_map (fun r => (c_messageType r, c_textContent r))
      (read_back false 1700000000500
         (Samples.incoming "3EB0C7" Samples.alice (Some payload))
         (fresh 1700000000000)) in
  probe (Samples.text_payload "hi") = Some (KText, "hi")
  /\ probe (Samples.extended_payload "quoted hi") = Some (KText, "quoted hi")
  /\ probe (Samples.image_payload (Some "a cat")) = Some (KImage, "a cat")
  /\ probe (Samples.video_payload (Some "a clip")) = Some (KVideo, "a clip")
  /\ probe Samples.audio_payload = Some (KAudio, EmptyString)
  /\ probe (Samples.document_payload (Some "the report")) = Some (KDocument, "the report")
  /\ probe Samples.sticker_payload = Some (KSticker, EmptyString)
  /\ probe Samples.no_content = Some (KUnknown, EmptyString).
Proof. vm_compute. repeat split. Qed.

(** Where at most one text source is present the two orders agree. *)
Lemma orders_agree_without_body (msg : WAMessage) :
  match message msg with
  | Some m => JS.truthy (extended_body m) = false
  | None => True
  end ->
  text_as_stated msg = text_body_first msg.
Proof.
  unfold text_as_stated, text_body_first. destruct (message msg) as [m|]; [|reflexivity].
  intros Hb. unfold captions. cbn [app].
  destruct (extended_body m) as [[|a s]|]; try discriminate Hb;
    destruct (conversation m) as [[|a0 s0]|]; cbn [first_match]; try reflexivity;
    destruct (opt_field img_caption (imageMessage m)) as [[|a1 s1]|];
    cbn [first_match]; try reflexivity;
    destruct (opt_field vid_caption (videoMessage m)) as [[|a2 s2]|];
    cbn [first_match]; try reflexivity;
    destruct (opt_field doc_caption (documentMessage m)) as [[|a3 s3]|];
    cbn [first_match]; reflexivity.
Qed.

End Derivation.


(** ** Connection life cycle: back-off, terminal close, exhaustion *)

Section ConnectionFacts.
Import Connection ConnectionSpec.

Lemma shouldReconnect_iff (u : Update) :
  shouldReconnect u = true <-> statusCode u <> Some 401.
Proof.
  unfold shouldReconnect. destruct (statusCode u) as [c|].
  - destruct (Z.eqb_spec c 401) as [->|Hne]; simpl; split; intros H; congruence.
  - split; [discriminate | reflexivity].
Qed.

Lemma scheduled_after_qr (u : Update) (rest : list Effect) :
  scheduled_reconnect (qr_effects u ++ rest) = scheduled_reconnect rest.
Proof. unfold qr_effects. destruct (qr u); reflexivity. Qed.

Lemma exits_after_qr (u : Update) (rest : list Effect) :
  exits (qr_effects u ++ rest) = exits rest.
Proof. unfold qr_effects. destruct (qr u); reflexivity. Qed.

(** One retryable close below the cap: the counter goes up by one and a
    reconnect is scheduled with the delay computed from the new count. *)
Lemma close_below_cap (cfg : Config) (s : Session) (u : Update) :
  retryable u -> reconnectAttempts s < maxReconnectAttempts s ->
  reconnectAttempts (fst (handleConnectionUpdate cfg s u)) = reconnectAttempts s + 1
  /\ maxReconnectAttempts (fst (handleConnectionUpdate cfg s u)) = maxReconnectAttempts s
  /\ connectionState (fst (handleConnectionUpdate cfg s u)) = Disconnected
  /\ scheduled_reconnect (snd (handleConnectionUpdate cfg s u))
     = Some (Z.min (1000 * 2 ^ (reconnectAttempts s + 1)) 30000)
  /\ exits (snd (handleConnectionUpdate cfg s u)) = false.
Proof.
  intros [Hc Hcode] Hlt. unfold handleConnectionUpdate. rewrite Hc.
  apply shouldReconnect_iff in Hcode. rewrite Hcode. cbn [reconnectAttempts maxReconnectAttempts].
  apply Z.ltb_lt in Hlt. rewrite Hlt. cbn [andb fst snd reconnectAttempts
    maxReconnectAttempts connectionState].
  rewrite scheduled_after_qr, exits_after_qr. repeat split.
Qed.

(** One retryable close at the cap: nothing is scheduled, nothing ends. *)
Lemma close_at_cap (cfg : Config) (s : Session) (u : Update) :
  retryable u -> maxReconnectAttempts s <= reconnectAttempts s ->
  fst (handleConnectionUpdate cfg s u)
  = {| connectionState := Disconnected; isConnected := false;
       reconnectAttempts := reconnectAttempts s;
       maxReconnectAttempts := maxReconnectAttempts s;
       reconnects := reconnects s; errors := errors s |}
  /\ scheduled_reconnect (snd (handleConnectionUpdate cfg s u)) = None
  /\ exits (snd (handleConnectionUpdate cfg s u)) = false.
Proof.
  intros [Hc Hcode] Hge. unfold handleConnectionUpdate. rewrite Hc.
  apply shouldReconnect_iff in Hcode. rewrite Hcode. cbn [reconnectAttempts maxReconnectAttempts].
  assert (Hnlt : (reconnectAttempts s <? maxReconnectAttempts s) = false)
    by (apply Z.ltb_ge; exact Hge).
  rewrite Hnlt. cbn [andb negb fst snd].
  rewrite scheduled_after_qr, exits_after_qr. repeat split.
Qed.

(** An open resets the counter; an update that is neither an open nor a
    close leaves the session alone. *)
Lemma open_resets (cfg : Config) (s : Session) (u : Update) :
  connection u = Some StatusOpen ->
  reconnectAttempts (fst (handleConnectionUpdate cfg s u)) = 0
  /\ maxReconnectAttempts (fst (handleConnectionUpdate cfg s u)) = maxReconnectAttempts s.
Proof. intros Hc. unfold handleConnectionUpdate. rewrite Hc. split; reflexivity. Qed.

Lemma other_update_ignored (cfg : Config) (s : Session) (u : Update) :
  connection u <> Some StatusOpen -> connection u <> Some StatusClose ->
  fst (handleConnectionUpdate cfg s u) = s.
Proof.
  intros Ho Hc. unfold handleConnectionUpdate.
  destruct (connection u) as [[ | | ]|]; try reflexivity; congruence.
Qed.

(** The counter is the number of closes since the last open, capped at
    the maximum. *)
Lemma attempts_after (cfg : Config) (updates : list Update) :
  forall (s : Session) (n : nat),
    Forall (fun u => ~ unauthorized u) updates ->
    maxReconnectAttempts s = 10 ->
    reconnectAttempts s = Z.min (Z.of_nat n) 10 ->
    maxReconnectAttempts (after cfg s updates) = 10
    /\ reconnectAttempts (after cfg s updates)
       = Z.min (Z.of_nat (fold_left count_close updates n)) 10.
Proof.
  induction updates as [|u rest IH]; intros s n Hall Hmax Ha; [split; assumption|].
  inversion Hall as [|? ? Hu Hrest]; subst.
  unfold after. cbn [fold_left]. fold (after cfg (fst (handleConnectionUpdate cfg s u)) rest).
  unfold count_close at 2.
  destruct (connection u) as [[ | | ]|] eqn:Hc.
  - destruct (open_resets cfg s u Hc) as [H0 Hm].
    apply IH; [assumption | congruence | rewrite H0; reflexivity].
  - assert (Hr : retryable u).
    { split; [exact Hc|]. intros H401. apply Hu. split; assumption. }
    destruct (Z.ltb_spec (reconnectAttempts s) 10) as [Hlt|Hge].
    + destruct (close_below_cap cfg s u Hr) as (Hs & Hm & _); [lia|].
      apply IH; [assumption | congruence | lia].
    + destruct (close_at_cap cfg s u Hr) as (Hs & _); [lia|].
      apply IH; [assumption | rewrite Hs; exact Hmax | rewrite Hs; cbn; lia].
  - rewrite other_update_ignored by congruence. apply IH; assumption.
  - rewrite other_update_ignored by congruence. apply IH; assumption.
Qed.

End ConnectionFacts.

Section ConnectionClaims.
Import Connection ConnectionSpec.

(** C2: take any sequence of connection updates handled by a new bot
    (none of them the unauthorized close, which ends the process) and a
    retryable close that follows it; let N count the closes since the
    last open, this one included. If N is at most 10 the close schedules
    a reconnect after min(1000 * 2^N, 30000) milliseconds; beyond 10
    nothing is scheduled; and the attempt counter then stands at
    min(N, 10), one more than before for every try made. *)
Theorem C2_backoff_schedule (cfg : Config) (before : list Update) (u : Update) :
  Forall (fun v => ~ unauthorized v) before ->
  retryable u ->
  scheduled_reconnect (snd (handleConnectionUpdate cfg (after cfg initial before) u))
  = (if (S (closes_since_open before) <=? 10)%nat
     then Some (Z.min (1000 * 2 ^ Z.of_nat (S (closes_since_open before))) 30000)
     else None)
  /\ reconnectAttempts (fst (handleConnectionUpdate cfg (after cfg initial before) u))
     = Z.min (Z.of_nat (S (closes_since_open before))) 10.
Proof.
  intros Hall Hr.
  destruct (attempts_after cfg before initial 0 Hall eq_refl eq_refl) as [Hmax Ha].
  fold (closes_since_open before) in Ha.
  destruct (Nat.leb_spec (S (closes_since_open before)) 10) as [Hle|Hgt].
  - destruct (close_below_cap cfg (after cfg initial before) u Hr) as (Hs & _ & _ & Hsch & _);
      [lia|].
    rewrite Hsch, Hs, Ha.
    replace (Z.min (Z.of_nat (closes_since_open before)) 10 + 1)
      with (Z.of_nat (S (closes_since_open before))) by lia.
    split; [reflexivity | lia].
  - destruct (close_at_cap cfg (after cfg initial before) u Hr) as (Hs & Hsch & _); [lia|].
    rewrite Hsch, Hs. cbn [reconnectAttempts]. split; [reflexivity | lia].
Qed.

Lemma C2_backoff_schedule_witness :
  scheduled_reconnect
    (snd (handleConnectionUpdate Samples.config
            (after Samples.config initial
               [close_with (Some 408);
                {| connection := Some StatusOpen; statusCode := None; qr := false |};
                close_with None; close_with (Some 500)])
            (close_with (Some 428))))
  = Some 8000
  /\ reconnectAttempts
       (fst (handleConnectionUpdate Samples.config
               (after Samples.config initial
                  [close_with (Some 408);
                   {| connection := Some StatusOpen; statusCode := None; qr := false |};
                   close_with None; close_with (Some 500)])
               (close_with (Some 428))))
     = 3.
Proof.
  apply (C2_backoff_schedule Samples.config
           [close_with (Some 408);
            {| connection := Some StatusOpen; statusCode := None; qr := false |};
            close_with None; close_with (Some 500)]
           (close_with (Some 428))).
  - repeat constructor; intros [_ H]; discriminate H.
  - split; [reflexivity | discriminate].
Defined.

(** The delays of eleven closes in a row. *)
Example eleven_closes :
  map (fun k => scheduled_reconnect
                  (snd (handleConnectionUpdate Samples.config
                          (after Samples.config initial (repeat (close_with (Some 428)) k))
                          (close_with (Some 428)))))
      (seq 0 11)
  = [Some 2000; Some 4000; Some 8000; Some 16000; Some 30000; Some 30000;
     Some 30000; Some 30000; Some 30000; Some 30000; None].
Proof. vm_compute. reflexivity. Qed.

(** C3: [handleConnectionUpdate] ends the process (session invalid) if
    and only if the event is a close whose status code is 401, and then
    schedules no reconnect; on a close for any other reason, while the
    attempt count is below the maximum, it ends nothing and schedules
    [connect], whose first action is to put the state machine back to
    connecting. *)
Theorem C3_terminal_only_on_unauthorized (cfg : Config) (s : Session) (u : Update) :
  (exits (snd (handleConnectionUpdate cfg s u)) = true <-> unauthorized u)
  /\ (unauthorized u ->
      scheduled_reconnect (snd (handleConnectionUpdate cfg s u)) = None)
  /\ (retryable u -> reconnectAttempts s < maxReconnectAttempts s ->
      exits (snd (handleConnectionUpdate cfg s u)) = false
      /\ (exists delay,
            scheduled_reconnect (snd (handleConnectionUpdate cfg s u)) = Some delay)
      /\ forall sessionExists socketOk,
           connectionState
             (fst (fst (connect sessionExists socketOk (fst (handleConnectionUpdate cfg s u)))))
           = Connecting).
Proof.
  unfold unauthorized. split; [|split].
  - unfold handleConnectionUpdate.
    destruct (connection u) as [[ | | ]|] eqn:Hc.
    + cbn [snd]. rewrite exits_after_qr.
      destruct (JS.truthy (AUTO_PRESENCE cfg)); simpl; split;
        [discriminate | intros [? _]; discriminate
        | discriminate | intros [? _]; discriminate].
    + destruct (shouldReconnect u) eqn:Hs.
      * assert (Hcode : statusCode u <> Some 401) by (apply shouldReconnect_iff; exact Hs).
        cbn [andb negb].
        destruct (reconnectAttempts _ <? maxReconnectAttempts _);
          cbn [snd]; rewrite exits_after_qr; simpl; split;
          try discriminate; intros [_ ?]; contradiction.
      * assert (Hcode : statusCode u = Some 401).
        { destruct (statusCode u) as [c|] eqn:E; unfold shouldReconnect in Hs; rewrite E in Hs;
            [| discriminate].
          destruct (Z.eqb_spec c 401); [congruence | discriminate]. }
        cbn [andb negb snd]. rewrite exits_after_qr. simpl. split; [auto | reflexivity].
    + cbn [snd]. unfold qr_effects. destruct (qr u); simpl; split;
        try discriminate; intros [? _]; discriminate.
    + cbn [snd]. unfold qr_effects. destruct (qr u); simpl; split;
        try discriminate; intros [? _]; discriminate.
  - intros [Hc Hcode]. unfold handleConnectionUpdate, shouldReconnect.
    rewrite Hc, Hcode. cbn [Z.eqb Pos.eqb negb andb snd].
    rewrite scheduled_after_qr. reflexivity.
  - intros Hr Hlt.
    destruct (close_below_cap cfg s u Hr Hlt) as (_ & _ & _ & Hsch & Hex).
    split; [exact Hex|]. split; [eexists; exact Hsch|].
    intros sessionExists socketOk. unfold connect.
    destruct sessionExists, socketOk; reflexivity.
Qed.

Lemma C3_terminal_only_on_unauthorized_witness :
  exits (snd (handleConnectionUpdate Samples.config initial (close_with (Some 428)))) = false
  /\ (exists delay,
        scheduled_reconnect
          (snd (handleConnectionUpdate Samples.config initial (close_with (Some 428))))
        = Some delay)
  /\ forall sessionExists socketOk,
       connectionState
         (fst (fst (connect sessionExists socketOk
                      (fst (handleConnectionUpdate Samples.config initial
                              (close_with (Some 428)))))))
       = Connecting.
Proof.
  apply (proj2 (proj2 (C3_terminal_only_on_unauthorized Samples.config initial
                          (close_with (Some 428))))).
  - split; [reflexivity | discriminate].
  - reflexivity.
Defined.

(** C4, as stated, fails: with all 10 attempts used, a close with status
    428 (retryable) only marks the session disconnected and logs the
    close; the process is not ended. *)
Lemma C4_exhausted_close_is_absorbed :
  handleConnectionUpdate Samples.config exhausted (close_with (Some 428))
  = ({| connectionState := Disconnected; isConnected := false;
        reconnectAttempts := 10; maxReconnectAttempts := 10;
        reconnects := 10; errors := 0 |},
     [Log "system" "CONN"])
  /\ ~ exhaustion_is_fatal.
Proof.
  split; [reflexivity|].
  intros H.
  specialize (H Samples.config exhausted (close_with (Some 428))).
  assert (Hr : retryable (close_with (Some 428))) by (split; [reflexivity | discriminate]).
  specialize (H Hr). cbn in H. assert (Hle : 10 <= 10) by lia.
  specialize (H Hle). discriminate H.
Qed.

(** C4, amended: a retryable close that arrives when the attempt count
    has reached the maximum is absorbed: the session is marked
    disconnected with its counters unchanged, no reconnect is scheduled
    and the process is not ended. *)
Theorem C4_exhaustion_absorbs_the_close (cfg : Config) (s : Session) (u : Update) :
  retryable u ->
  maxReconnectAttempts s <= reconnectAttempts s ->
  fst (handleConnectionUpdate cfg s u)
  = {| connectionState := Disconnected; isConnected := false;
       reconnectAttempts := reconnectAttempts s;
       maxReconnectAttempts := maxReconnectAttempts s;
       reconnects := reconnects s; errors := errors s |}
  /\ scheduled_reconnect (snd (handleConnectionUpdate cfg s u)) = None
  /\ exits (snd (handleConnectionUpdate cfg s u)) = false.
Proof. intros Hr Hge. exact (close_at_cap cfg s u Hr Hge). Qed.

Lemma C4_exhaustion_absorbs_the_close_witness :
  fst (handleConnectionUpdate Samples.config exhausted (close_with None))
  = {| connectionState := Disconnected; isConnected := false;
       reconnectAttempts := 10; maxReconnectAttempts := 10;
       reconnects := 10; errors := 0 |}
  /\ scheduled_reconnect
       (snd (handleConnectionUpdate Samples.config exhausted (close_with None))) = None
  /\ exits (snd (handleConnectionUpdate Samples.config exhausted (close_with None))) = false.
Proof.
  apply (C4_exhaustion_absorbs_the_close Samples.config exhausted (close_with None)).
  - split; [reflexivity | discriminate].
  - simpl. lia.
Defined.

End ConnectionClaims.


(** ** Command dispatch: unknown names and failing commands *)

Section StringFacts.

Lemma app_cons (a : ascii) (s rest : string) :
  String a s +:+ rest = String a (s +:+ rest).
Proof. reflexivity. Qed.

Lemma prefix_empty (s : string) : String.prefix EmptyString s = true.
Proof. destruct s; reflexivity. Qed.

Lemma prefix_app (p rest : string) : String.prefix p (p +:+ rest) = true.
Proof.
  induction p as [|a p IH]; [apply prefix_empty|].
  rewrite app_cons. cbn [String.prefix].
  destruct (Ascii.ascii_dec a a) as [_|Hne]; [exact IH | contradiction].
Qed.

Lemma includes_prefix (s sub : string) :
  String.prefix sub s = true -> JS.includes s sub = true.
Proof. intros H. destruct s; cbn [JS.includes]; rewrite H; reflexivity. Qed.

Lemma includes_app_r (front s sub : string) :
  JS.includes s sub = true -> JS.includes (front +:+ s) sub = true.
Proof.
  intros H. induction front as [|a front IH]; [exact H|].
  rewrite app_cons. cbn [JS.includes]. rewrite IH. apply orb_true_r.
Qed.

Lemma app_assoc_string (a b c : string) : (a +:+ b) +:+ c = a +:+ (b +:+ c).
Proof.
  induction a as [|x a IH]; [reflexivity|].
  rewrite !app_cons, IH. reflexivity.
Qed.

Lemma app_empty_r (a : string) : a +:+ EmptyString = a.
Proof.
  induction a as [|x a IH]; [reflexivity|].
  rewrite app_cons, IH. reflexivity.
Qed.

(** A text that ends with [sub] includes it. *)
Lemma includes_suffix (front sub : string) :
  JS.includes (front +:+ sub) sub = true.
Proof.
  apply includes_app_r, includes_prefix.
  rewrite <- (app_empty_r sub) at 2. apply prefix_app.
Qed.

End StringFacts.

Section Dispatch.
Import CommandHandler.

(** How the name and the arguments come out of a text. *)
Example tokens :
  JS.split_blanks "a  b " = ["a"; "b"; EmptyString]
  /\ JS.split_blanks EmptyString = [EmptyString]
  /\ commandName Samples.config "!PING  one two" = "ping"
  /\ arguments Samples.config "!PING  one two" = ["one"; "two"]
  /\ commandName Samples.config "!  ping" = "ping"
  /\ commandName Samples.config "!" = EmptyString.
Proof. vm_compute. repeat split. Qed.

(** White space of more than one byte is trimmed like a blank, here the
    no-break space U+00A0 after the name. *)
Example tokens_wide_space :
  commandName Samples.config ("!ping" +:+ String "194" (String "160" EmptyString)) = "ping"
  /\ JS.trim (String "194" (String "160" EmptyString)) = EmptyString
  /\ JS.trim (String "239" (String "187" (String "191" "menu  "))) = "menu".
Proof. vm_compute. repeat split. Qed.





(** The scenario of the specification: [!ping] with prefix [!]. *)
Example ping_pong :
  result_of (handleCommand Samples.handler
               (Samples.incoming "3EB0D3" Samples.alice (Some (Samples.text_payload "!ping")))
               "!ping" Samples.alice Samples.alice false)
  = JS.Return {| success := true; message := "pong"; command := Some "ping" |}.
Proof. vm_compute. reflexivity. Qed.

End Dispatch.


(** ** Sending: the footer *)

Section Footer.
Import Bot.

(** The footer ends with the channel link. *)
Lemma footer_brings_link (cfg : Config) (s : string) :
  JS.includes (s +:+ footer_text cfg) (CHANNEL_LINK cfg) = true.
Proof.
  unfold footer_text. do 7 apply includes_app_r.
  apply includes_prefix. rewrite <- (app_empty_r (CHANNEL_LINK cfg)) at 2. apply prefix_app.
Qed.

Lemma add_footer_fixed (cfg : Config) (s : string) :
  JS.includes s (CHANNEL_LINK cfg) = true -> add_footer cfg (Some s) = Some s.
Proof.
  intros H. unfold add_footer. rewrite H. rewrite andb_false_r. reflexivity.
Qed.

Lemma add_footer_twice (cfg : Config) (t : option string) :
  add_footer cfg (add_footer cfg t) = add_footer cfg t.
Proof.
  destruct t as [s|]; [|reflexivity].
  unfold add_footer at 2.
  destruct (JS.truthy (Some s) && negb (JS.includes s (CHANNEL_LINK cfg))) eqn:E.
  - rewrite (add_footer_fixed cfg _ (footer_brings_link cfg s)).
    unfold add_footer. rewrite E. reflexivity.
  - reflexivity.
Qed.

(** C10: the footer step of [sendMessage] is idempotent. A text that
    already contains the channel link reaches the transport unchanged;
    applying the step twice gives what applying it once gives; and the
    content object a successful [sendMessage] leaves behind, sent again,
    reaches the transport with the same text, without a second footer. *)
Theorem C10_footer_idempotent (cfg : Config) :
  (forall t : option string, add_footer cfg (add_footer cfg t) = add_footer cfg t)
  /\ (forall (env : Env) (to : string) (content : Content) (st : State) (s : string),
        text content = Some s ->
        JS.includes s (CHANNEL_LINK cfg) = true ->
        sock_sendMessage env to content = JS.Return tt ->
        snd (sendMessage cfg env to content st) = JS.Return content
        /\ sent (fst (sendMessage cfg env to content st)) = sent st ++ [(to, content)])
  /\ (forall (env : Env) (to : string) (content once : Content) (st st' : State),
        snd (sendMessage cfg env to content st) = JS.Return once ->
        snd (sendMessage cfg env to once st') = JS.Return once).
Proof.
  split; [apply add_footer_twice|]. split.
  - intros env to content st s Ht Hinc Hsock. unfold sendMessage.
    rewrite Ht, (add_footer_fixed cfg s Hinc).
    replace {| text := Some s; footer := footer content |} with content
      by (destruct content; simpl in *; congruence).
    rewrite Hsock. split; reflexivity.
  - intros env to content once st st' H. unfold sendMessage in *.
    destruct (sock_sendMessage env to _) as [[]|e] eqn:Hsock; cbn [snd] in H; [|discriminate].
    injection H as <-. cbn [text footer]. rewrite add_footer_twice, Hsock. reflexivity.
Qed.

Lemma C10_footer_idempotent_witness :
  snd (sendMessage Samples.config (Samples.delivering Samples.offline) Samples.alice
         {| text := Some "Join us: https://whatsapp.com/channel/megan"; footer := None |}
         Samples.idle)
  = JS.Return {| text := Some "Join us: https://whatsapp.com/channel/megan"; footer := None |}
  /\ sent (fst (sendMessage Samples.config (Samples.delivering Samples.offline) Samples.alice
                  {| text := Some "Join us: https://whatsapp.com/channel/megan"; footer := None |}
                  Samples.idle))
     = sent Samples.idle
       ++ [(Samples.alice,
            {| text := Some "Join us: https://whatsapp.com/channel/megan"; footer := None |})].
Proof.
  apply (proj1 (proj2 (C10_footer_idempotent Samples.config))
           (Samples.delivering Samples.offline) Samples.alice
           {| text := Some "Join us: https://whatsapp.com/channel/megan"; footer := None |}
           Samples.idle "Join us: https://whatsapp.com/channel/megan").
  - reflexivity.
  - vm_compute. reflexivity.
  - reflexivity.
Defined.

(** A text without the link gets the footer once. *)
Example footer_added_once :
  add_footer Samples.config (Some "pong")
  = Some ("pong" +:+ Chatbot.newline +:+ Chatbot.newline +:+ "📢 *MEGAN-MD*"
          +:+ Chatbot.newline +:+ "https://whatsapp.com/channel/megan")
  /\ add_footer Samples.config (add_footer Samples.config (Some "pong"))
     = add_footer Samples.config (Some "pong").
Proof. vm_compute. split; reflexivity. Qed.

End Footer.

(** ** The chatbot: bounded history *)

Section History.
Import Chatbot HistorySpec.

Lemma slice_last_short {A} (n : nat) (l : list A) :
  (length l <= n)%nat -> slice_last n l = l.
Proof.
  intros H. unfold slice_last. replace (length l - n)%nat with 0%nat by lia. reflexivity.
Qed.

Lemma slice_last_length {A} (n : nat) (l : list A) :
  (length (slice_last n l) <= n)%nat.
Proof. unfold slice_last. rewrite length_drop. lia. Qed.

(** Trimming early does not change what the last [n] entries are. *)
Lemma slice_last_absorb {A} (n : nat) (a b : list A) :
  slice_last n (slice_last n a ++ b) = slice_last n (a ++ b).
Proof.
  unfold slice_last.
  rewrite <- (drop_app_le a b (length a - n)) by lia.
  rewrite drop_drop. f_equal.
  rewrite length_drop, !length_app. lia.
Qed.

(** What [addToHistory] keeps is the last [maxHistory] entries. *)
Lemma addToHistory_history (now : Z) (user r : string) (m : Value) (st : State) :
  history (addToHistory now user r m st)
  = <[user := slice_last maxHistory
                (getHistory user st ++ [{| role := r; message := m; timestamp := now |}])]>
      (history st).
Proof.
  unfold addToHistory, getHistory. cbn [history]. f_equal.
  destruct (Nat.ltb_spec maxHistory
              (length (default [] (history st !! user)
                       ++ [{| role := r; message := m; timestamp := now |}]))) as [Hlt|Hge];
    [reflexivity | symmetry; apply slice_last_short; exact Hge].
Qed.

Lemma addToHistory_get (now : Z) (user r : string) (m : Value) (st : State) (u : string) :
  getHistory u (addToHistory now user r m st)
  = if decide (user = u)
    then slice_last maxHistory
           (getHistory u st ++ [{| role := r; message := m; timestamp := now |}])
    else getHistory u st.
Proof.
  unfold getHistory at 1. rewrite addToHistory_history.
  destruct (decide (user = u)) as [->|Hne].
  - rewrite lookup_insert_eq. reflexivity.
  - rewrite lookup_insert_ne by exact Hne. reflexivity.
Qed.

Lemma getUserContext_history (now : Z) (user : string) (st : State) :
  history (fst (getUserContext now user st)) = history st.
Proof. unfold getUserContext. destruct (contexts st !! user); reflexivity. Qed.

Lemma updateUserContext_history (now : Z) (user q : string) (r : Value)
    (p : option string) (st : State) :
  history (updateUserContext now user q r p st) = history st.
Proof.
  unfold updateUserContext.
  pose proof (getUserContext_history now user st) as H.
  destruct (getUserContext now user st) as [st1 c]. exact H.
Qed.

Lemma getHistory_ext (u : string) (st st' : State) :
  history st = history st' -> getHistory u st = getHistory u st'.
Proof. unfold getHistory. intros ->. reflexivity. Qed.

(** One call: the history of [u] afterwards is the last [maxHistory] of
    the history before followed by what the call inserted. *)
Lemma step_history (c : Call) (st : State) (u : string) :
  (length (getHistory u st) <= maxHistory)%nat ->
  getHistory u (step st c) = slice_last maxHistory (getHistory u st ++ inserted c u).
Proof.
  intros Hinv. destruct c as [now user r m | cfg w prompt user opt]; cbn [step inserted].
  - rewrite addToHistory_get.
    destruct (decide (user = u)); [reflexivity|].
    rewrite app_nil_r. symmetry. apply slice_last_short. exact Hinv.
  - unfold chat, chosen.
    destruct (getUserSettings w user) as [us|e].
    + pose proof (getUserContext_history (clock w ContextCreated) user st) as Hctx.
      destruct (getUserContext (clock w ContextCreated) user st) as [st1 c1].
      cbn [fst] in Hctx.
      assert (Hprompt :
        getHistory u (addToHistory (clock w UserEntry) user "user" (VText prompt) st1)
        = slice_last maxHistory
            (getHistory u st
             ++ (if decide (user = u)
                 then [{| role := "user"; message := VText prompt;
                          timestamp := clock w UserEntry |}]
                 else []))).
      { rewrite addToHistory_get, (getHistory_ext u st1 st Hctx).
        destruct (decide (user = u)); [reflexivity|].
        rewrite app_nil_r. symmetry. apply slice_last_short. exact Hinv. }
      destruct (call_handler _ w prompt) as [[result|]|e]; cbn [fst].
      * destruct (p_success result) eqn:Hok; cbn [fst].
        -- rewrite (getHistory_ext u _ _ (updateUserContext_history _ _ _ _ _ _)).
           rewrite !addToHistory_get, (getHistory_ext u st1 st Hctx).
           destruct (decide (user = u)).
           ++ rewrite slice_last_absorb, <- app_assoc. reflexivity.
           ++ rewrite app_nil_r. symmetry. apply slice_last_short. exact Hinv.
        -- rewrite Hprompt. destruct (decide (user = u)); reflexivity.
      * rewrite Hprompt. destruct (decide (user = u)); reflexivity.
      * rewrite Hprompt. destruct (decide (user = u)); reflexivity.
    + cbn [fst]. destruct (decide (user = u));
        rewrite app_nil_r; symmetry; apply slice_last_short; exact Hinv.
Qed.

Lemma run_snoc (calls : list Call) (c : Call) (st : State) :
  run (calls ++ [c]) st = step (run calls st) c.
Proof. unfold run. rewrite fold_left_app. reflexivity. Qed.

(** C9: after any sequence of [addToHistory] and [chat] calls on a new
    chatbot, the history stored for any user has at most [maxHistory]
    (10) entries, and [getHistory] returns the last 10 of the entries
    inserted for that user (all of them when fewer), oldest first. What
    a [chat] call inserts is the prompt and, only when the handler call
    gave a result object with [success] set, the reply: nothing when the
    settings cannot be read, the prompt alone when the provider fails or
    when the provider name finds a member of [Object.prototype]. *)
Theorem C9_history_bounded_and_recent (calls : list Call) (u : string) :
  (length (getHistory u (run calls initial)) <= 10)%nat
  /\ getHistory u (run calls initial) = slice_last 10 (all_inserted calls u).
Proof.
  induction calls as [|c calls IH] using rev_ind.
  - unfold run, getHistory. cbn [fold_left initial history].
    rewrite lookup_empty. split; [simpl; lia | reflexivity].
  - destruct IH as [Hlen Hget].
    rewrite run_snoc, (step_history c _ u Hlen).
    split; [apply (slice_last_length maxHistory)|].
    rewrite Hget. unfold all_inserted. rewrite map_app, concat_app.
    cbn [map concat]. rewrite app_nil_r. apply (slice_last_absorb maxHistory).
Qed.

(** Twelve inserts for one user: the two oldest are gone, the order of
    the rest is kept. *)
Example twelve_inserts :
  map timestamp
    (getHistory Samples.alice
       (run (map (fun n => CallAdd (Z.of_nat n) Samples.alice "user" (VText "hi")) (seq 1 12))
            initial))
  = [3; 4; 5; 6; 7; 8; 9; 10; 11; 12].
Proof. vm_compute. reflexivity. Qed.

(** Provider names that find a member of [Object.prototype]: the call
    gives no result object ([constructor]) or throws ([valueOf]), so the
    prompt is stored without a reply although the endpoints answer; with
    the default provider the reply is stored too. *)
Example inherited_names_store_the_prompt_only :
  let w := {| http := fun _ => HttpOk (Some "Habari!");
              random := random Samples.offline; clock := clock Samples.offline;
              customEndpointSet := false;
              getUserSettings := getUserSettings Samples.offline |} in
  map role
    (getHistory Samples.alice
       (run [CallChat Samples.config w "one" Samples.alice (Some "constructor");
             CallChat Samples.config w "two" Samples.alice (Some "valueOf");
             CallChat Samples.config w "three" Samples.alice None]
            initial))
  = ["user"; "user"; "user"; "assistant"]
  /\ provider (snd (chat Samples.config w "one" Samples.alice (Some "constructor") initial))
     = Some "fallback"
  /\ provider (snd (chat Samples.config w "two" Samples.alice (Some "valueOf") initial))
     = Some "error-fallback".
Proof. vm_compute. repeat split. Qed.

End History.

(** ** The chatbot path: a provider failure *)

Section ChatbotPath.
Import Chatbot Bot.

Lemma meganFast_fails (w : World) (prompt : string) :
  unreachable w -> p_success (meganFast w prompt) = false.
Proof.
  intros H. unfold meganFast. destruct (H WorkerFast) as [e ->]. reflexivity.
Qed.

Lemma meganBase_fails (w : World) (prompt : string) :
  unreachable w -> p_success (meganBase w prompt) = false.
Proof.
  intros H. unfold meganBase. destruct (H WorkerBase) as [e ->].
  apply meganFast_fails, H.
Qed.

Lemma meganUltra_fails (w : World) (prompt : string) :
  unreachable w -> p_success (meganUltra w prompt) = false.
Proof.
  intros H. unfold meganUltra. destruct (H WorkerUltra) as [e ->].
  apply meganBase_fails, H.
Qed.

Lemma customAI_fails (w : World) (prompt : string) :
  unreachable w -> p_success (customAI w prompt) = false.
Proof.
  intros H. unfold customAI. destruct (customEndpointSet w); cbn [negb].
  - destruct (H CustomEndpoint) as [e ->]. apply meganFast_fails, H.
  - apply meganFast_fails, H.
Qed.

(** Whatever provider is selected, it reports failure when no HTTP call
    gets through. *)
Lemma providers_fail (prov : option string) (w : World) (prompt : string) :
  unreachable w -> p_success (providers prov w prompt) = false.
Proof.
  intros H. unfold providers, geminiAI, openAI. destruct prov as [p|].
  - repeat match goal with
           | |- context [if ?b then _ else _] => destruct b
           end;
      auto using meganFast_fails, meganBase_fails, meganUltra_fails, customAI_fails.
  - apply meganFast_fails, H.
Qed.

(** What the handler call returns is, for a name the provider table
    decides itself, the result of the provider. *)
Lemma call_handler_own (prov : option string) (w : World) (prompt : string) :
  ObjectPrototype.own_lookup prov = true ->
  call_handler prov w prompt = JS.Return (Some (providers prov w prompt)).
Proof.
  unfold call_handler, ObjectPrototype.own_lookup, ObjectPrototype.inherited,
    ObjectPrototype.inherited_names.
  destruct prov as [p|]; [|reflexivity].
  rewrite existsb_app. intros H. apply negb_true_iff, orb_false_iff in H as [Hr Ht].
  rewrite Ht, Hr. reflexivity.
Qed.

(** A result object can only come from the provider table. *)
Lemma call_handler_result (prov : option string) (w : World) (prompt : string)
    (result : ProviderResult) :
  call_handler prov w prompt = JS.Return (Some result) ->
  result = providers prov w prompt.
Proof.
  unfold call_handler. destruct prov as [p|]; [|intros [= <-]; reflexivity].
  destruct (existsb _ ObjectPrototype.throwing_names); [discriminate|].
  destruct (existsb _ ObjectPrototype.returning_names); [discriminate|].
  intros [= <-]. reflexivity.
Qed.

(** With the settings readable, [chat] then resolves to a failure that
    carries a fallback text. *)
Lemma chat_falls_back (cfg : Config) (w : World) (prompt user : string)
    (opt : option string) (st : Chatbot.State) (us : UserSettings) :
  unreachable w -> getUserSettings w user = JS.Return us ->
  success (snd (chat cfg w prompt user opt st)) = false
  /\ exists site,
       response (snd (chat cfg w prompt user opt st))
       = VText (fallbackResponse (random w site) prompt).
Proof.
  intros H Hus. unfold chat. rewrite Hus.
  destruct (getUserContext (clock w ContextCreated) user st) as [st1 c1].
  destruct (call_handler _ w prompt) as [[result|]|e] eqn:Hcall; cbn [snd].
  - rewrite (call_handler_result _ _ _ _ Hcall), (providers_fail _ w prompt H).
    split; [reflexivity | exists ChatFailed; reflexivity].
  - split; [reflexivity | exists ChatFailed; reflexivity].
  - split; [reflexivity | exists ChatCatch; reflexivity].
Qed.

(** C8 fails on the code: when no HTTP call of the provider chain gets
    through, [handleChatbot] sends nothing, for any message, text and
    state, although [chat] has resolved to a fallback text
    ([chat_falls_back]): the text is dropped because only a result with
    [success] set is relayed. *)
Theorem C8_provider_failure_is_silent (cfg : Config) (env : Env)
    (msg : MessageCache.WAMessage) (txt : string) (st : Bot.State) :
  unreachable (world env) ->
  sent (handleChatbot cfg env msg txt st) = sent st.
Proof.
  intros H. unfold handleChatbot.
  destruct (negb (JS.truthy (Some txt)) || (String.length (JS.trim txt) =? 0)%nat);
    [reflexivity|].
  destruct (getUserSettings (world env) _) as [us|e] eqn:Hus; [|reflexivity].
  destruct (if JS.endsWith _ _ then _ else _) as [gs|e]; [|reflexivity].
  destruct (negb _); [reflexivity|].
  pose proof (chat_falls_back cfg (world env) txt _ None
                (chatbot (logged st "ai" "Processing...")) us H Hus) as (Hfail & _).
  destruct (chat cfg (world env) txt _ None _) as [cb r].
  cbn [snd] in Hfail. rewrite Hfail. reflexivity.
Qed.

Lemma C8_provider_failure_is_silent_witness :
  sent (handleChatbot Samples.config (Samples.delivering Samples.offline)
          (Samples.incoming "3EB0E1" Samples.alice (Some (Samples.text_payload "hello")))
          "hello" Samples.idle)
  = sent Samples.idle.
Proof.
  apply (C8_provider_failure_is_silent Samples.config (Samples.delivering Samples.offline)
           (Samples.incoming "3EB0E1" Samples.alice (Some (Samples.text_payload "hello")))
           "hello" Samples.idle).
  intros ep. eexists. reflexivity.
Defined.

(** The failing run, evaluated: [chat] hands back a fallback text and
    nothing reaches the transport. *)
Example silent_failure_run :
  snd (chat Samples.config Samples.offline "hello" Samples.alice None Chatbot.initial)
  = {| success := false; response := VText "Processing your message...";
       error := Some "timeout of 10000ms exceeded"; provider := Some "fallback";
       historyLength := None |}
  /\ sent (handleChatbot Samples.config (Samples.delivering Samples.offline)
             (Samples.incoming "3EB0E1" Samples.alice (Some (Samples.text_payload "hello")))
             "hello" Samples.idle) = [].
Proof. vm_compute. split; reflexivity. Qed.

(** When the provider answers, the reply is relayed. *)
Example answered_run :
  map fst
    (sent (handleChatbot Samples.config
             (Samples.delivering
                {| http := fun _ => HttpOk (Some "Habari!");
                   random := random Samples.offline; clock := clock Samples.offline;
                   customEndpointSet := false;
                   getUserSettings := getUserSettings Samples.offline |})
             (Samples.incoming "3EB0E2" Samples.alice (Some (Samples.text_payload "hello")))
             "hello" Samples.idle))
  = [Samples.alice].
Proof. vm_compute. reflexivity. Qed.

End ChatbotPath.


(** ** The message cache: more on lookups, deletion, the sweep and the statistics *)

Section CacheLookups.
Import MessageCache CacheOps.

(** A filter that keeps every row a query selects does not change the
    answer of the query. *)
Lemma find_filter_keep {A} (p : A -> bool) (Q : A -> Prop) `{!forall x, Decision (Q x)}
    (l : list A) :
  (forall x, p x = true -> Q x) -> List.find p (filter Q l) = List.find p l.
Proof.
  intros Hpq. induction l as [|a l IH]; [reflexivity|].
  rewrite filter_cons. destruct (decide (Q a)) as [Hq|Hnq]; simpl.
  - destruct (p a); [reflexivity | exact IH].
  - destruct (p a) eqn:Hp; [exfalso; apply Hnq, Hpq, Hp | exact IH].
Qed.

(** A filter that keeps the row a query finds does not change the answer. *)
Lemma find_filter_found {A} (p : A -> bool) (Q : A -> Prop) `{!forall x, Decision (Q x)}
    (l : list A) (r : A) :
  List.find p l = Some r -> Q r -> List.find p (filter Q l) = Some r.
Proof.
  induction l as [|a l IH]; [discriminate|].
  simpl. rewrite filter_cons. destruct (p a) eqn:Hp.
  - intros [= ->] Hq. destruct (decide (Q r)); [|contradiction]. simpl. rewrite Hp. reflexivity.
  - intros Hf Hq. destruct (decide (Q a)); simpl; [rewrite Hp|]; apply IH; assumption.
Qed.

Lemma selects_id (i : string) (chat : option string) (r : Row) :
  selects i chat r = true -> id r = i.
Proof.
  unfold selects. intros H. apply andb_true_iff in H as [H _].
  apply String.eqb_eq in H. exact H.
Qed.

Lemma find_none_all {A} (p : A -> bool) (l : list A) :
  (forall x, x ∈ l -> p x = false) -> List.find p l = None.
Proof.
  induction l as [|a l IH]; intros Hall; [reflexivity|].
  simpl. rewrite (Hall a) by left. apply IH. intros x Hx. apply Hall. right. exact Hx.
Qed.

Lemma find_some_elem {A} (p : A -> bool) (l : list A) (r : A) :
  List.find p l = Some r -> r ∈ l /\ p r = true.
Proof.
  induction l as [|a l IH]; [discriminate|].
  simpl. destruct (p a) eqn:Hp.
  - intros [= <-]. split; [left | exact Hp].
  - intros Hf. destruct (IH Hf) as [Hin Hpr]. split; [right; exact Hin | exact Hpr].
Qed.

(** With unique ids, no row but the first match has the id asked for. *)
Lemma find_unique_none (i : string) (chat chat' : option string) (tbl : list Row)
    (Q : Row -> Prop) `{!forall x, Decision (Q x)} (r : Row) :
  NoDup (id <$> tbl) ->
  List.find (selects i chat) tbl = Some r -> ~ Q r ->
  List.find (selects i chat') (filter Q tbl) = None.
Proof.
  induction tbl as [|a tbl IH]; [discriminate|].
  rewrite fmap_cons. intros Hnd. apply NoDup_cons in Hnd as [Hnotin Hnd].
  simpl. rewrite filter_cons. destruct (selects i chat a) eqn:Hsel.
  - intros [= ->] Hnq. destruct (decide (Q r)); [contradiction|].
    apply selects_id in Hsel. apply find_none_all.
    intros x Hx. apply list_elem_of_filter in Hx as [_ Hx].
    destruct (selects i chat' x) eqn:E; [|reflexivity].
    apply selects_id in E. exfalso. apply Hnotin.
    rewrite Hsel, <- E. apply list_elem_of_fmap_2. exact Hx.
  - intros Hf Hnq. destruct (decide (Q a)); simpl.
    + destruct (selects i chat' a) eqn:Hsel'.
      * exfalso. apply selects_id in Hsel'.
        destruct (find_some_elem _ _ _ Hf) as [Hr Hpr]. apply selects_id in Hpr.
        apply Hnotin. rewrite Hsel', <- Hpr. apply list_elem_of_fmap_2. exact Hr.
      * apply IH; assumption.
    + apply IH; assumption.
Qed.

(** *** The table never holds two rows with one id *)

Lemma insert_keeps_ids_unique (r : Row) (tbl : list Row) :
  NoDup (id <$> tbl) -> NoDup (id <$> insert_or_replace r tbl).
Proof.
  intros Hnd. unfold insert_or_replace. rewrite fmap_app. apply NoDup_app. split; [|split].
  - eapply sublist_NoDup; [exact Hnd | apply fmap_sublist, sublist_filter].
  - intros x Hx Hx'. apply list_elem_of_fmap in Hx as (y & -> & Hy).
    apply list_elem_of_filter in Hy as [Hne _].
    simpl in Hx'. apply list_elem_of_singleton in Hx'. contradiction.
  - simpl. apply NoDup_singleton.
Qed.

Lemma filter_keeps_ids_unique (Q : Row -> Prop) `{!forall x, Decision (Q x)} (tbl : list Row) :
  NoDup (id <$> tbl) -> NoDup (id <$> filter Q tbl).
Proof.
  intros Hnd. eapply sublist_NoDup; [exact Hnd | apply fmap_sublist, sublist_filter].
Qed.

Lemma apply_keeps_ids_unique (c : Cache) (o : Op) :
  NoDup (id <$> rows c) -> NoDup (id <$> rows (apply c o)).
Proof.
  intros Hnd. destruct o as [now dberr msg | dberr i | now dberr]; cbn [apply].
  - unfold addMessage. destruct (negb (initialized c) || negb (present (message msg)));
      [exact Hnd|]. destruct dberr; [exact Hnd|]. cbn [fst rows].
    apply insert_keeps_ids_unique, Hnd.
  - unfold deleteMessage. destruct (negb (initialized c)); [exact Hnd|].
    destruct dberr; [exact Hnd|]. cbn [fst rows].
    apply filter_keeps_ids_unique, Hnd.
  - unfold cleanupOldMessages. destruct (negb (initialized c)); [exact Hnd|].
    destruct dberr; [exact Hnd|]. cbn [rows].
    apply filter_keeps_ids_unique, Hnd.
Qed.

Lemma run_snoc_op (ops : list Op) (o : Op) (c : Cache) :
  run (ops ++ [o]) c = apply (run ops c) o.
Proof. unfold run. rewrite fold_left_app. reflexivity. Qed.

Lemma run_ids_unique (ops : list Op) (c : Cache) :
  NoDup (id <$> rows c) -> NoDup (id <$> rows (run ops c)).
Proof.
  intros Hnd. induction ops as [|o ops IH] using rev_ind; [exact Hnd|].
  rewrite run_snoc_op. apply apply_keeps_ids_unique, IH.
Qed.

Lemma cache_ids_unique_aux (ops : list Op) (now : Z) :
  NoDup (id <$> rows (run ops (fresh now))).
Proof. apply run_ids_unique. simpl. apply NoDup_nil_2. Qed.

(** After any sequence of [addMessage], [deleteMessage] and
    [cleanupOldMessages] calls on a new cache, no two rows of the table
    share a message id, so a lookup by id alone has at most one record
    to return. *)
Theorem cache_ids_unique (ops : list Op) (now : Z) (i : string) :
  NoDup (id <$> rows (run ops (fresh now)))
  /\ (length (filter (fun r => id r = i) (rows (run ops (fresh now)))) <= 1)%nat.
Proof.
  pose proof (run_ids_unique ops (fresh now) (NoDup_nil_2 : NoDup (id <$> rows (fresh now))))
    as Hnd.
  split; [exact Hnd|].
  induction (rows (run ops (fresh now))) as [|r tbl IH]; [simpl; lia|].
  rewrite fmap_cons in Hnd. apply NoDup_cons in Hnd as [Hnotin Hnd].
  rewrite filter_cons. destruct (decide (id r = i)) as [Heq|Hne]; [|apply IH, Hnd].
  assert (Hnone : filter (fun r0 => id r0 = i) tbl = []).
  { clear -Hnotin Heq. induction tbl as [|x tbl IHt]; [reflexivity|].
    rewrite fmap_cons in Hnotin. apply not_elem_of_cons in Hnotin as [Hx Hrest].
    rewrite filter_cons. destruct (decide (id x = i)); [congruence | apply IHt, Hrest]. }
  rewrite Hnone. simpl. lia.
Qed.

End CacheLookups.

Section CacheBehaviour.
Import MessageCache CacheOps.

Lemma find_filter_none {A} (p : A -> bool) (Q : A -> Prop) `{!forall x, Decision (Q x)}
    (l : list A) :
  List.find p l = None -> List.find p (filter Q l) = None.
Proof.
  induction l as [|a l IH]; [reflexivity|].
  simpl. rewrite filter_cons. destruct (p a) eqn:Hp; [discriminate|].
  intros Hf. destruct (decide (Q a)); simpl; [rewrite Hp|]; apply IH, Hf.
Qed.

(** A stricter query that accepts the row a query finds, finds it too. *)
Lemma find_narrowed {A} (p p' : A -> bool) (l : list A) (r : A) :
  (forall x, p' x = true -> p x = true) ->
  List.find p l = Some r -> p' r = true -> List.find p' l = Some r.
Proof.
  intros Himp. induction l as [|a l IH]; [discriminate|].
  simpl. destruct (p a) eqn:Hp.
  - intros [= ->] Hr. rewrite Hr. reflexivity.
  - intros Hf Hr. destruct (p' a) eqn:Hp'; [rewrite (Himp a Hp') in Hp; discriminate|].
    apply IH; assumption.
Qed.

Lemma run_initialized (ops : list Op) (c : Cache) :
  initialized (run ops c) = initialized c.
Proof.
  induction ops as [|o ops IH] using rev_ind; [reflexivity|].
  rewrite run_snoc_op, <- IH. generalize (run ops c). intros c0.
  destruct o as [now dberr msg | dberr i | now dberr]; cbn [apply].
  - unfold addMessage. destruct (negb (initialized c0) || negb (present (message msg)));
      [reflexivity|]. destruct dberr; reflexivity.
  - unfold deleteMessage. destruct (negb (initialized c0)); [reflexivity|].
    destruct dberr; reflexivity.
  - unfold cleanupOldMessages. destruct (negb (initialized c0)); [reflexivity|].
    destruct dberr; reflexivity.
Qed.

(** When [deleteMessage(id)] resolves to [true], the record with that id
    is gone whatever chat it belongs to: [getMessage] by that id finds
    nothing, with or without a chat id. When it resolves to [false] (the
    cache is not ready, or the database reported an error) the cache is
    as it was. In both cases lookups by any other id answer as before. *)
Theorem delete_removes_by_id (c : Cache) (dberr rerr : bool) (i j : string)
    (chat : option string) :
  (snd (deleteMessage dberr i c) = true ->
   getMessage rerr i chat (fst (deleteMessage dberr i c)) = None)
  /\ (snd (deleteMessage dberr i c) = false -> fst (deleteMessage dberr i c) = c)
  /\ (j <> i ->
      getMessage rerr j chat (fst (deleteMessage dberr i c)) = getMessage rerr j chat c).
Proof.
  unfold deleteMessage, getMessage.
  destruct (initialized c) eqn:Hi; cbn [negb fst snd];
    [|rewrite Hi; repeat split; try reflexivity; discriminate].
  destruct dberr; cbn [fst snd]; [rewrite Hi; repeat split; try reflexivity; discriminate|].
  cbn [initialized rows negb]. destruct rerr; [repeat split; try reflexivity; discriminate|].
  split; [|split].
  - intros _. rewrite no_match_after_delete. reflexivity.
  - discriminate.
  - intros Hne. unfold db_get. rewrite find_filter_keep; [reflexivity|].
    intros x Hx. apply selects_id in Hx. congruence.
Qed.

Lemma delete_removes_by_id_witness :
  getMessage false "3EB0A2" None
    (fst (deleteMessage false "3EB0A1"
            (CacheKeySpec.after_two 1700000000500 1700000000900
               (Samples.incoming "3EB0A1" Samples.alice (Some (Samples.text_payload "hello")))
               (Samples.incoming "3EB0A2" Samples.bob (Some (Samples.text_payload "bonjour")))
               (fresh 1700000000000))))
  = getMessage false "3EB0A2" None
      (CacheKeySpec.after_two 1700000000500 1700000000900
         (Samples.incoming "3EB0A1" Samples.alice (Some (Samples.text_payload "hello")))
         (Samples.incoming "3EB0A2" Samples.bob (Some (Samples.text_payload "bonjour")))
         (fresh 1700000000000)).
Proof.
  apply (proj2 (proj2 (delete_removes_by_id
                  (CacheKeySpec.after_two 1700000000500 1700000000900
                     (Samples.incoming "3EB0A1" Samples.alice
                        (Some (Samples.text_payload "hello")))
                     (Samples.incoming "3EB0A2" Samples.bob
                        (Some (Samples.text_payload "bonjour")))
                     (fresh 1700000000000))
                  false false "3EB0A1" "3EB0A2" None))).
  discriminate.
Defined.

(** [addMessage] touches only the record of its own message id: whatever
    the outcome of the call, a lookup by any other id answers as before. *)
Theorem add_leaves_other_ids (c : Cache) (now : Z) (dberr rerr : bool) (msg : WAMessage)
    (j : string) (chat : option string) :
  key_id (key msg) <> j ->
  getMessage rerr j chat (fst (addMessage now dberr msg c)) = getMessage rerr j chat c.
Proof.
  intros Hne. unfold addMessage.
  destruct (negb (initialized c) || negb (present (message msg))); [reflexivity|].
  destruct dberr; [reflexivity|]. cbn [fst]. unfold getMessage. cbn [initialized rows].
  destruct (negb (initialized c)); [reflexivity|]. destruct rerr; [reflexivity|]. f_equal.
  unfold db_get, insert_or_replace. rewrite find_app_first.
  rewrite find_filter_keep.
  - destruct (List.find (selects j chat) (rows c)); [reflexivity|].
    simpl. unfold selects at 1. cbn [row_of id].
    destruct (String.eqb_spec (key_id (key msg)) j); [contradiction | reflexivity].
  - intros x Hx. apply selects_id in Hx. cbn [row_of id]. congruence.
Qed.

Lemma add_leaves_other_ids_witness :
  getMessage false "3EB0A1" None
    (fst (addMessage 1700000000900 false
            (Samples.incoming "3EB0A2" Samples.alice (Some (Samples.text_payload "again")))
            (fst (addMessage 1700000000500 false
                    (Samples.incoming "3EB0A1" Samples.alice (Some (Samples.text_payload "hello")))
                    (fresh 1700000000000)))))
  = getMessage false "3EB0A1" None
      (fst (addMessage 1700000000500 false
              (Samples.incoming "3EB0A1" Samples.alice (Some (Samples.text_payload "hello")))
              (fresh 1700000000000))).
Proof.
  apply (add_leaves_other_ids
           (fst (addMessage 1700000000500 false
                   (Samples.incoming "3EB0A1" Samples.alice (Some (Samples.text_payload "hello")))
                   (fresh 1700000000000)))
           1700000000900 false false
           (Samples.incoming "3EB0A2" Samples.alice (Some (Samples.text_payload "again")))
           "3EB0A1" None).
  discriminate.
Defined.

(** On every cache reached from a new one, a sweep run at time [now]
    that the database carries out removes exactly the records older than
    [now] minus 24 hours: a lookup afterwards finds nothing if the record
    it found before has a timestamp below that boundary, and the same
    record otherwise; and the last-sweep time becomes [now]. A sweep the
    database refuses changes nothing, the last-sweep time included. *)
Theorem sweep_removes_exactly_the_old (ops : list Op) (t0 now : Z) (rerr : bool)
    (i : string) (chat : option string) :
  getMessage rerr i chat (cleanupOldMessages now false (run ops (fresh t0)))
  = match getMessage rerr i chat (run ops (fresh t0)) with
    | Some r => if c_timestamp r <? now - 24 * 60 * 60 * 1000 then None else Some r
    | None => None
    end
  /\ lastCleanup (stats (cleanupOldMessages now false (run ops (fresh t0)))) = now
  /\ cleanupOldMessages now true (run ops (fresh t0)) = run ops (fresh t0).
Proof.
  pose proof (run_initialized ops (fresh t0)) as Hi.
  pose proof (cache_ids_unique_aux ops t0) as Hnd.
  unfold cleanupOldMessages, getMessage.
  change (initialized (fresh t0)) with true in Hi. rewrite Hi.
  cbv zeta. cbn [negb initialized rows stats lastCleanup].
  split; [|split; reflexivity].
  destruct rerr; [reflexivity|].
  unfold db_get.
  destruct (List.find (selects i chat) (rows (run ops (fresh t0)))) as [r|] eqn:Hf.
  - cbn [fmap option_fmap option_map cached_of c_timestamp].
    destruct (Z.ltb_spec (timestamp r) (now - 24 * 60 * 60 * 1000)) as [Hold|Hnew].
    + rewrite (find_unique_none i chat chat _ _ r Hnd Hf); [reflexivity|].
      intros Hq. apply Hq. exact Hold.
    + rewrite (find_filter_found _ _ _ r Hf); [reflexivity|]. lia.
  - rewrite find_filter_none by exact Hf. reflexivity.
Qed.

End CacheBehaviour.

Section CacheStatistics.
Import MessageCache CacheOps.

(** On every cache reached from a new one: if a lookup by id alone finds
    a record, then a lookup by the same id with a chat id returns that
    record when the chat id is the record's (or is the empty string,
    which does not narrow) and nothing otherwise; a chat id that does not
    match is a miss, not an error and not another record. *)
Theorem lookup_narrowed_by_chat (ops : list Op) (t0 : Z) (rerr : bool)
    (i chat : string) (r : Cached) :
  getMessage rerr i None (run ops (fresh t0)) = Some r ->
  getMessage rerr i (Some chat) (run ops (fresh t0))
  = if decide (chat = EmptyString \/ chat = c_chatId r) then Some r else None.
Proof.
  pose proof (cache_ids_unique_aux ops t0) as Hnd.
  unfold getMessage. destruct (negb (initialized (run ops (fresh t0)))); [discriminate|].
  destruct rerr; [discriminate|].
  unfold db_get.
  destruct (List.find (selects i None) (rows (run ops (fresh t0)))) as [row|] eqn:Hf;
    [|discriminate].
  cbn [fmap option_fmap option_map]. intros [= <-]. cbn [cached_of c_chatId].
  destruct (find_some_elem _ _ _ Hf) as [_ Hsel].
  destruct (decide (chat = EmptyString \/ chat = chatId row)) as [[->| ->]|Hno].
  - rewrite (find_narrowed (selects i None) (selects i (Some EmptyString)) _ row);
      [reflexivity | intros x Hx; exact Hx | exact Hf | exact Hsel].
  - rewrite (find_narrowed (selects i None) (selects i (Some (chatId row))) _ row);
      [reflexivity | | exact Hf |].
    + intros x Hx. unfold selects in *. apply andb_true_iff in Hx as [Hx _].
      rewrite Hx. reflexivity.
    + apply selects_id in Hsel. rewrite <- Hsel. apply selects_own_key.
  - assert (Hchat : JS.truthy (Some chat) = true)
      by (destruct chat; [exfalso; apply Hno; left; reflexivity | reflexivity]).
    rewrite <- (find_filter_keep (selects i (Some chat)) (fun x => chatId x = chat)).
    + rewrite (find_unique_none i None (Some chat) _ _ row Hnd Hf); [reflexivity|].
      intros E. apply Hno. right. symmetry. exact E.
    + intros x Hx. unfold selects in Hx. rewrite Hchat in Hx.
      apply andb_true_iff in Hx as [_ Hx]. apply String.eqb_eq in Hx.
      destruct chat; [discriminate Hchat | exact Hx].
Qed.

Lemma lookup_narrowed_by_chat_witness :
  getMessage false "3EB0A1" (Some Samples.bob)
    (run [OpAdd 1700000000500 false
            (Samples.incoming "3EB0A1" Samples.alice (Some (Samples.text_payload "hello")))]
         (fresh 1700000000000))
  = None.
Proof.
  apply (lookup_narrowed_by_chat
           [OpAdd 1700000000500 false
              (Samples.incoming "3EB0A1" Samples.alice (Some (Samples.text_payload "hello")))]
           1700000000000 false "3EB0A1" Samples.bob
           (cached_of (row_of 1700000000500
              (Samples.incoming "3EB0A1" Samples.alice (Some (Samples.text_payload "hello")))))).
  vm_compute. reflexivity.
Defined.

(** A message written and then swept: it is still readable after a sweep
    at time [later] exactly when its stored timestamp (the message's own,
    in milliseconds, or the time of the write when it has none) is not
    below [later] minus 24 hours. *)
Theorem written_then_swept (c : Cache) (now later : Z) (msg : WAMessage) :
  initialized c = true -> present (message msg) = true ->
  getMessage false (key_id (key msg)) (Some (remoteJid (key msg)))
    (cleanupOldMessages later false (fst (addMessage now false msg c)))
  = if row_timestamp now msg <? later - 24 * 60 * 60 * 1000
    then None
    else Some (cached_of (row_of now msg)).
Proof.
  intros Hi Hp. rewrite (addMessage_written now msg c Hi Hp).
  unfold cleanupOldMessages, getMessage. cbv zeta. cbn [initialized rows negb].
  unfold db_get, insert_or_replace. rewrite filter_app, find_app_first.
  change (key_id (key msg)) with (id (row_of now msg)).
  change (remoteJid (key msg)) with (chatId (row_of now msg)).
  change (row_timestamp now msg) with (timestamp (row_of now msg)).
  set (r := row_of now msg).
  rewrite find_filter_none by apply no_match_after_delete.
  rewrite filter_cons, filter_nil.
  destruct (Z.ltb_spec (timestamp r) (later - 24 * 60 * 60 * 1000)) as [Hold|Hnew].
  - destruct (decide (~ timestamp r < later - 24 * 60 * 60 * 1000)) as [Hq|_];
      [contradiction | reflexivity].
  - destruct (decide (~ timestamp r < later - 24 * 60 * 60 * 1000)) as [_|Hq];
      [| exfalso; apply Hq; lia].
    cbn [List.find]. rewrite selects_own_key. reflexivity.
Qed.

Lemma written_then_swept_witness :
  getMessage false "3EB0B1" (Some Samples.alice)
    (cleanupOldMessages 1800000000000 false
       (fst (addMessage 1800000000000 false
               (Samples.incoming "3EB0B1" Samples.alice (Some (Samples.text_payload "old news")))
               (fresh 1700000000000))))
  = None.
Proof.
  apply (written_then_swept (fresh 1700000000000) 1800000000000 1800000000000
           (Samples.incoming "3EB0B1" Samples.alice (Some (Samples.text_payload "old news")))).
  - reflexivity.
  - reflexivity.
Defined.

(** *** Statistics *)

Lemma filter_Forall {A} (P : A -> Prop) (Q : A -> Prop) `{!forall x, Decision (Q x)}
    (l : list A) :
  Forall P l -> Forall P (filter Q l).
Proof.
  intros HP. apply Forall_forall. intros x Hx. apply list_elem_of_filter in Hx as [_ Hx].
  rewrite Forall_forall in HP. apply HP, Hx.
Qed.

Lemma apply_keeps_counts (c : Cache) (o : Op) :
  flags_ok c /\ Z.of_nat (length (rows c)) <= totalMessages (stats c) ->
  flags_ok (apply c o)
  /\ Z.of_nat (length (rows (apply c o))) <= totalMessages (stats (apply c o)).
Proof.
  intros [Hf Hlen]. unfold flags_ok in *.
  destruct o as [now dberr msg | dberr i | now dberr]; cbn [apply].
  - unfold addMessage. destruct (negb (initialized c) || negb (present (message msg)));
      [split; assumption|]. destruct dberr; [split; assumption|]. cbn [fst rows stats].
    unfold insert_or_replace, bump_total. cbn [totalMessages]. split.
    + apply Forall_app. split; [apply filter_Forall, Hf|].
      constructor; [|constructor]. cbn [row_of isViewOnce].
      destruct (checkViewOnce msg); [right | left]; reflexivity.
    + rewrite length_app. cbn [length].
      pose proof (length_filter (fun x => id x <> id (row_of now msg)) (rows c)). lia.
  - unfold deleteMessage. destruct (negb (initialized c)); [split; assumption|].
    destruct dberr; [split; assumption|].
    cbn [fst rows stats]. split; [apply filter_Forall, Hf|].
    pose proof (length_filter (fun x => id x <> i) (rows c)). lia.
  - unfold cleanupOldMessages. destruct (negb (initialized c)); [split; assumption|].
    destruct dberr; [split; assumption|].
    cbv zeta. cbn [rows stats totalMessages]. split; [apply filter_Forall, Hf|].
    pose proof (length_filter (fun x => ~ timestamp x < now - 24 * 60 * 60 * 1000) (rows c)).
    lia.
Qed.

Lemma run_keeps_counts (ops : list Op) (t0 : Z) :
  flags_ok (run ops (fresh t0))
  /\ Z.of_nat (length (rows (run ops (fresh t0)))) <= totalMessages (stats (run ops (fresh t0))).
Proof.
  induction ops as [|o ops IH] using rev_ind.
  - split; [constructor | simpl; lia].
  - rewrite run_snoc_op. apply apply_keeps_counts, IH.
Qed.

Lemma remove_dups_shorter {A} `{EqDecision A} (l : list A) :
  (length (remove_dups l) <= length l)%nat.
Proof.
  induction l as [|a l IH]; [reflexivity|].
  simpl. destruct (decide_rel elem_of a l); simpl; lia.
Qed.

Lemma sum_flags_bounded (tbl : list Row) :
  Forall (fun r => isViewOnce r = 0 \/ isViewOnce r = 1) tbl ->
  0 <= sum_viewOnce tbl <= Z.of_nat (length tbl).
Proof.
  unfold sum_viewOnce. induction 1 as [|r tbl Hr _ IH]; [simpl; lia|].
  rewrite fmap_cons. cbn [foldr length]. lia.
Qed.

(** On every cache reached from a new one, [getStats] reports numbers
    that fit together: the view-once count and the distinct-chat count
    lie between 0 and the cache size, and the cache size never exceeds
    the total-messages counter (which also counts overwritten and removed
    records); with the database in error all three aggregates are 0. *)
Theorem statistics_are_consistent (ops : list Op) (t0 : Z) (dberr : bool) :
  0 <= viewOnceMessages (getStats dberr (run ops (fresh t0)))
       <= cacheSize (getStats dberr (run ops (fresh t0)))
  /\ 0 <= uniqueChats (getStats dberr (run ops (fresh t0)))
          <= cacheSize (getStats dberr (run ops (fresh t0)))
  /\ cacheSize (getStats dberr (run ops (fresh t0)))
     <= v_totalMessages (getStats dberr (run ops (fresh t0)))
  /\ (dberr = true -> cacheSize (getStats dberr (run ops (fresh t0))) = 0).
Proof.
  destruct (run_keeps_counts ops t0) as [Hflags Hlen].
  pose proof (sum_flags_bounded _ Hflags) as Hsum.
  pose proof (remove_dups_shorter (chatId <$> rows (run ops (fresh t0)))) as Hdup.
  rewrite length_fmap in Hdup.
  unfold getStats, view, count_chats.
  destruct (negb (initialized (run ops (fresh t0)))), dberr;
    cbn [viewOnceMessages uniqueChats cacheSize v_totalMessages];
    repeat split; try lia; try discriminate.
Qed.

End CacheStatistics.

(** ** The orchestrator: text extraction, routing, replies *)

Section Routing.
Import MessageCache Orchestrator.

(** The three text extractors (cache, orchestrator, logger) return the
    same text for every message whose document part, if any, has neither
    a caption nor a title; only documents make them differ. *)
Theorem extractors_agree_off_documents (msg : WAMessage) :
  (forall m, message msg = Some m ->
     JS.truthy (opt_field doc_caption (documentMessage m)) = false
     /\ JS.truthy (opt_field doc_title (documentMessage m)) = false) ->
  MessageCache.extractText msg = Orchestrator.extractMessageText msg
  /\ MessageCache.extractText msg = Logger.extractMessageText msg.
Proof.
  intros H. unfold extractText, extractMessageText, Logger.extractMessageText.
  destruct (message msg) as [m|]; [|split; reflexivity].
  destruct (H m eq_refl) as [Hc Ht]. rewrite Hc, Ht.
  destruct (JS.truthy (conversation m)); [split; reflexivity|].
  destruct (JS.truthy (opt_field ext_text (extendedTextMessage m))); [split; reflexivity|].
  destruct (JS.truthy (opt_field img_caption (imageMessage m))); [split; reflexivity|].
  destruct (JS.truthy (opt_field vid_caption (videoMessage m))); split; reflexivity.
Qed.

Lemma extractors_agree_off_documents_witness :
  MessageCache.extractText
    (Samples.incoming "3EB0F1" Samples.alice (Some (Samples.image_payload (Some "a cat"))))
  = Orchestrator.extractMessageText
      (Samples.incoming "3EB0F1" Samples.alice (Some (Samples.image_payload (Some "a cat"))))
  /\ MessageCache.extractText
       (Samples.incoming "3EB0F1" Samples.alice (Some (Samples.image_payload (Some "a cat"))))
     = Logger.extractMessageText
         (Samples.incoming "3EB0F1" Samples.alice (Some (Samples.image_payload (Some "a cat")))).
Proof.
  apply (extractors_agree_off_documents
           (Samples.incoming "3EB0F1" Samples.alice (Some (Samples.image_payload (Some "a cat"))))).
  intros m [= <-]. split; reflexivity.
Defined.

(** A captioned document: the cache stores the caption, the orchestrator
    routes on the title, the logger sees no text. *)
Example extractors_on_a_document :
  let msg := Samples.incoming "3EB0F2" Samples.alice
               (Some (Samples.document_payload (Some "the report"))) in
  MessageCache.extractText msg = "the report"
  /\ Orchestrator.extractMessageText msg = "report.pdf"
  /\ Logger.extractMessageText msg = EmptyString.
Proof. repeat split. Qed.

(** [getBotStats]: for a non-negative uptime in milliseconds the minutes
    shown are below 60 and hours and minutes together are the uptime
    rounded down to the minute. *)
Theorem uptime_split (uptime : Z) :
  0 <= uptime ->
  0 <= uptime_hours uptime
  /\ 0 <= uptime_minutes uptime < 60
  /\ uptime_hours uptime * 60 + uptime_minutes uptime = uptime / 60000.
Proof.
  intros H. unfold uptime_hours, uptime_minutes.
  change (1000 * 60 * 60) with 3600000. change (1000 * 60) with 60000.
  pose proof (Z.div_mod uptime 3600000 ltac:(lia)) as Hdm.
  pose proof (Z.mod_pos_bound uptime 3600000 ltac:(lia)) as Hmod.
  set (h := uptime / 3600000) in *. set (r := uptime mod 3600000) in *.
  assert (Hh : 0 <= h) by (subst h; apply Z.div_pos; lia).
  split; [exact Hh|]. split.
  - split; [apply Z.div_pos; lia | apply Z.div_lt_upper_bound; lia].
  - rewrite Hdm. replace (3600000 * h + r) with (r + (h * 60) * 60000) by lia.
    rewrite Z.div_add by lia. lia.
Qed.

Lemma uptime_split_witness :
  0 <= uptime_hours 7384000
  /\ 0 <= uptime_minutes 7384000 < 60
  /\ uptime_hours 7384000 * 60 + uptime_minutes 7384000 = 7384000 / 60000.
Proof. apply (uptime_split 7384000). lia. Defined.

End Routing.

Section DispatchReplies.
Import MessageCache Orchestrator.

(** With what [execute] throws being an [Error] object, every dispatch
    resolves; it edits neither the registry nor the configuration; a
    failure always carries a non-empty message. *)
Lemma dispatch_total (h : CommandHandler.Handler) (msg : WAMessage)
    (text from sender : string) (isGroup : bool) :
  exists h' r,
    CommandHandler.handleCommand h msg text from sender isGroup = JS.Return (h', r)
    /\ CommandHandler.commands h' = CommandHandler.commands h
    /\ CommandHandler.config h' = CommandHandler.config h
    /\ (CommandHandler.success r = false ->
        JS.truthy (Some (CommandHandler.message r)) = true)
    /\ (CommandHandler.success r = true ->
        CommandHandler.command r = Some (CommandHandler.commandName (CommandHandler.config h) text)
        /\ is_Some (CommandHandler.commands h
                      !! CommandHandler.commandName (CommandHandler.config h) text)).
Proof.
  unfold CommandHandler.handleCommand.
  destruct (CommandHandler.commands h !! _) as [cmd|] eqn:Hcmd.
  - unfold mbind, outcome_bind, JS.bind.
    destruct (CommandHandler.execute cmd _) as [res|e]; cbn [JS.try_catch].
    + eexists _, _. split; [reflexivity|]. cbn. repeat split; try discriminate; eauto.
    + eexists _, _. split; [reflexivity|]. cbn. repeat split; try discriminate.
  - eexists _, _. split; [reflexivity|]. cbn. repeat split; try discriminate.
Qed.

(** What [handleCommand] of the command handler resolves to, whenever it
    resolves, for a text that starts with the prefix and a typed name
    that is ASCII: the code of [handleCommand] has left registry and
    configuration as they were, a success is reported only for a
    registered name, which the result then carries, and every failure has
    a non-empty message. *)
Theorem dispatch_result_is_well_formed (h h' : CommandHandler.Handler) (msg : WAMessage)
    (text from sender : string) (isGroup : bool) (r : CommandHandler.Result) :
  String.prefix (PREFIX (CommandHandler.config h)) text = true ->
  JS.is_ascii (CommandHandler.typedName (CommandHandler.config h) text) = true ->
  CommandHandler.handleCommand h msg text from sender isGroup = JS.Return (h', r) ->
  CommandHandler.commands h' = CommandHandler.commands h
  /\ CommandHandler.config h' = CommandHandler.config h
  /\ (CommandHandler.success r = false ->
      JS.truthy (Some (CommandHandler.message r)) = true)
  /\ (CommandHandler.success r = true ->
      CommandHandler.command r = Some (CommandHandler.commandName (CommandHandler.config h) text)
      /\ is_Some (CommandHandler.commands h
                    !! CommandHandler.commandName (CommandHandler.config h) text)).
Proof.
  intros _ _ Hd.
  destruct (dispatch_total h msg text from sender isGroup) as (h0 & r0 & Hd0 & Hrest).
  rewrite Hd in Hd0. injection Hd0 as <- <-. exact Hrest.
Qed.

Lemma dispatch_result_is_well_formed_witness :
  CommandHandler.command
    {| CommandHandler.success := true; CommandHandler.message := "pong";
       CommandHandler.command := Some "ping" |}
  = Some (CommandHandler.commandName (CommandHandler.config Samples.handler) "!ping")
  /\ is_Some (CommandHandler.commands Samples.handler
                !! CommandHandler.commandName (CommandHandler.config Samples.handler) "!ping").
Proof.
  refine (proj2 (proj2 (proj2
            (dispatch_result_is_well_formed Samples.handler
               (CommandHandler.logged Samples.handler
                  ("⌨️ " +:+ "ping" +:+ " from " +:+ JS.before_at Samples.alice) "info")
               (Samples.incoming "3EB0D4" Samples.alice (Some (Samples.text_payload "!ping")))
               "!ping" Samples.alice Samples.alice false
               {| CommandHandler.success := true; CommandHandler.message := "pong";
                  CommandHandler.command := Some "ping" |}
               eq_refl eq_refl _))) eq_refl).
  vm_compute. reflexivity.
Defined.

(** The two ways [handleCommand] of megan.js ends, by the result of the
    dispatch. *)
Lemma handleCommand_cases (cfg : Config) (env : Env) (msg : WAMessage) (text : string)
    (st : State) (h : CommandHandler.Handler) (r : CommandHandler.Result) :
  CommandHandler.handleCommand (handler st) msg text (remoteJid (key msg))
    (JS.or_else (participant (key msg)) (remoteJid (key msg)))
    (JS.endsWith (remoteJid (key msg)) "@g.us") = JS.Return (h, r) ->
  handleCommand cfg env msg text st
  = if CommandHandler.success r
    then count_command {| bot := bot st; handler := h; counters := counters st |}
    else match Bot.sendMessage cfg (base env) (remoteJid (key msg))
                 {| Bot.text := Some (CommandHandler.message r);
                    Bot.footer := Some (CHANNEL_LINK cfg) |} (bot st) with
         | (b, JS.Return _) => {| bot := b; handler := h; counters := counters st |}
         | (b, JS.Throw _) =>
             count_error {| bot := b; handler := h; counters := counters st |}
         end.
Proof.
  intros Hd. unfold handleCommand. rewrite Hd.
  destruct (dispatch_total (handler st) msg text (remoteJid (key msg))
              (JS.or_else (participant (key msg)) (remoteJid (key msg)))
              (JS.endsWith (remoteJid (key msg)) "@g.us")) as (h0 & r0 & Hd0 & _ & _ & Hmsg & _).
  rewrite Hd in Hd0. injection Hd0 as <- <-.
  destruct (CommandHandler.success r) eqn:Hs; cbn [negb andb]; [reflexivity|].
  rewrite (Hmsg eq_refl). cbn [bot with_bot].
  destruct (Bot.sendMessage cfg (base env) _ _ (bot st)) as [b [c|e]]; reflexivity.
Qed.

(** When a dispatch fails (unknown name, or a command that throws) and
    the transport delivers, the orchestrator sends exactly one message,
    to the chat the command came from: the failure message with the
    footer step of [sendMessage] applied; no counter changes. *)
Theorem failed_dispatch_is_reported (cfg : Config) (env : Env) (msg : WAMessage)
    (text : string) (st : State) (h : CommandHandler.Handler) (r : CommandHandler.Result) :
  CommandHandler.handleCommand (handler st) msg text (remoteJid (key msg))
    (JS.or_else (participant (key msg)) (remoteJid (key msg)))
    (JS.endsWith (remoteJid (key msg)) "@g.us") = JS.Return (h, r) ->
  CommandHandler.success r = false ->
  Bot.sock_sendMessage (base env) (remoteJid (key msg))
    {| Bot.text := Bot.add_footer cfg (Some (CommandHandler.message r));
       Bot.footer := Some (CHANNEL_LINK cfg) |} = JS.Return tt ->
  Bot.sent (bot (handleCommand cfg env msg text st))
  = Bot.sent (bot st)
    ++ [(remoteJid (key msg),
         {| Bot.text := Bot.add_footer cfg (Some (CommandHandler.message r));
            Bot.footer := Some (CHANNEL_LINK cfg) |})]
  /\ counters (handleCommand cfg env msg text st) = counters st.
Proof.
  intros Hd Hs Hsock. rewrite (handleCommand_cases cfg env msg text st h r Hd), Hs.
  unfold Bot.sendMessage. cbn [Bot.text Bot.footer]. rewrite Hsock.
  split; reflexivity.
Qed.

Lemma failed_dispatch_is_reported_witness :
  Bot.sent (bot (handleCommand Samples.config
                   {| base := Samples.delivering Samples.offline;
                      cacheMessage := fun _ => JS.Return tt;
                      processMessage := fun _ => JS.Return tt |}
                   (Samples.incoming "3EB0D5" Samples.alice
                      (Some (Samples.text_payload "!dance")))
                   "!dance"
                   {| bot := Samples.idle; handler := Samples.handler;
                      counters := {| messagesProcessed := 0; commandsExecuted := 0;
                                     errors := 0 |} |}))
  = Bot.sent Samples.idle
    ++ [(Samples.alice,
         {| Bot.text := Bot.add_footer Samples.config
                          (Some "❌ Unknown command. Type !menu for available commands.");
            Bot.footer := Some (CHANNEL_LINK Samples.config) |})]
  /\ counters (handleCommand Samples.config
                 {| base := Samples.delivering Samples.offline;
                    cacheMessage := fun _ => JS.Return tt;
                    processMessage := fun _ => JS.Return tt |}
                 (Samples.incoming "3EB0D5" Samples.alice
                    (Some (Samples.text_payload "!dance")))
                 "!dance"
                 {| bot := Samples.idle; handler := Samples.handler;
                    counters := {| messagesProcessed := 0; commandsExecuted := 0;
                                   errors := 0 |} |})
     = {| messagesProcessed := 0; commandsExecuted := 0; errors := 0 |}.
Proof.
  apply (failed_dispatch_is_reported Samples.config
           {| base := Samples.delivering Samples.offline;
              cacheMessage := fun _ => JS.Return tt;
              processMessage := fun _ => JS.Return tt |}
           (Samples.incoming "3EB0D5" Samples.alice (Some (Samples.text_payload "!dance")))
           "!dance"
           {| bot := Samples.idle; handler := Samples.handler;
              counters := {| messagesProcessed := 0; commandsExecuted := 0; errors := 0 |} |}
           Samples.handler
           {| CommandHandler.success := false;
              CommandHandler.message := "❌ Unknown command. Type !menu for available commands.";
              CommandHandler.command := None |}).
  - vm_compute. reflexivity.
  - reflexivity.
  - reflexivity.
Defined.

(** When a dispatch succeeds, the orchestrator itself sends nothing (the
    result text of the command is not relayed) and adds one to the
    executed-commands counter, leaving the other counters alone. *)
Theorem successful_dispatch_is_counted_not_relayed (cfg : Config) (env : Env)
    (msg : WAMessage) (text : string) (st : State)
    (h : CommandHandler.Handler) (r : CommandHandler.Result) :
  CommandHandler.handleCommand (handler st) msg text (remoteJid (key msg))
    (JS.or_else (participant (key msg)) (remoteJid (key msg)))
    (JS.endsWith (remoteJid (key msg)) "@g.us") = JS.Return (h, r) ->
  CommandHandler.success r = true ->
  Bot.sent (bot (handleCommand cfg env msg text st)) = Bot.sent (bot st)
  /\ commandsExecuted (counters (handleCommand cfg env msg text st))
     = commandsExecuted (counters st) + 1
  /\ errors (counters (handleCommand cfg env msg text st)) = errors (counters st)
  /\ messagesProcessed (counters (handleCommand cfg env msg text st))
     = messagesProcessed (counters st).
Proof.
  intros Hd Hs. rewrite (handleCommand_cases cfg env msg text st h r Hd), Hs.
  repeat split.
Qed.

Lemma successful_dispatch_is_counted_not_relayed_witness :
  Bot.sent (bot (handleCommand Samples.config
                   {| base := Samples.delivering Samples.offline;
                      cacheMessage := fun _ => JS.Return tt;
                      processMessage := fun _ => JS.Return tt |}
                   (Samples.incoming "3EB0D6" Samples.alice
                      (Some (Samples.text_payload "!ping")))
                   "!ping"
                   {| bot := Samples.idle; handler := Samples.handler;
                      counters := {| messagesProcessed := 0; commandsExecuted := 0;
                                     errors := 0 |} |}))
  = Bot.sent Samples.idle.
Proof.
  apply (successful_dispatch_is_counted_not_relayed Samples.config
           {| base := Samples.delivering Samples.offline;
              cacheMessage := fun _ => JS.Return tt;
              processMessage := fun _ => JS.Return tt |}
           (Samples.incoming "3EB0D6" Samples.alice (Some (Samples.text_payload "!ping")))
           "!ping"
           {| bot := Samples.idle; handler := Samples.handler;
              counters := {| messagesProcessed := 0; commandsExecuted := 0; errors := 0 |} |}
           (CommandHandler.logged Samples.handler
              ("⌨️ " +:+ "ping" +:+ " from " +:+ JS.before_at Samples.alice) "info")
           {| CommandHandler.success := true; CommandHandler.message := "pong";
              CommandHandler.command := Some "ping" |}).
  - vm_compute. reflexivity.
  - reflexivity.
Defined.

End DispatchReplies.

Section ChatbotReplies.
Import MessageCache Chatbot Bot.

(** The reply text [handleChatbot] builds ends with the channel link. *)
Lemma reply_brings_link (cfg : Config) (answer : string) :
  JS.includes (answer +:+ newline +:+ newline +:+ "💬 *AI Assistant*" +:+ newline
               +:+ CHANNEL_LINK cfg) (CHANNEL_LINK cfg) = true.
Proof.
  do 5 apply includes_app_r. apply includes_prefix.
  rewrite <- (app_empty_r (CHANNEL_LINK cfg)) at 2. apply prefix_app.
Qed.

Lemma sendMessage_sent (cfg : Config) (env : Env) (to : string) (content : Content)
    (st : State) :
  sent (fst (sendMessage cfg env to content st)) = sent st
  \/ exists c, sent (fst (sendMessage cfg env to content st)) = sent st ++ [(to, c)].
Proof.
  unfold sendMessage. destruct (sock_sendMessage env to _) as [[]|e]; cbn [fst logged sent];
    [right; eexists; reflexivity | left; reflexivity].
Qed.

Lemma sendMessage_chatbot (cfg : Config) (env : Env) (to : string) (content : Content)
    (st : State) :
  chatbot (fst (sendMessage cfg env to content st)) = chatbot st.
Proof.
  unfold sendMessage. destruct (sock_sendMessage env to _) as [[]|e]; reflexivity.
Qed.

(** Whatever the message, the text and the collaborators do,
    [handleChatbot] sends at most one message and only to the chat the
    message came from; everything sent before stays in place. *)
Theorem chatbot_sends_at_most_one (cfg : Config) (env : Env) (msg : WAMessage)
    (txt : string) (st : State) :
  sent (handleChatbot cfg env msg txt st) = sent st
  \/ exists c, sent (handleChatbot cfg env msg txt st)
               = sent st ++ [(remoteJid (key msg), c)].
Proof.
  unfold handleChatbot.
  destruct (negb (JS.truthy (Some txt)) || (String.length (JS.trim txt) =? 0)%nat);
    [left; reflexivity|].
  destruct (getUserSettings (world env) _) as [us|e]; [|left; reflexivity].
  destruct (if JS.endsWith _ _ then _ else _) as [gs|e]; [|left; reflexivity].
  destruct (negb _); [left; reflexivity|].
  destruct (chat cfg (world env) txt _ None _) as [cb r].
  destruct (success r); [|left; reflexivity].
  match goal with
  | |- context [sendMessage cfg env ?to ?content ?s] =>
      pose proof (sendMessage_sent cfg env to content s) as Hs;
      destruct (sendMessage cfg env to content s) as [st3 o]
  end.
  cbn [fst sent] in Hs.
  assert (Hlog : forall l c, sent (logged st3 l c) = sent st3) by reflexivity.
  destruct o as [c|e]; [destruct (response r)|]; rewrite Hlog; exact Hs.
Qed.

(** With the chatbot switched off for the sender, or, in a group, for
    the group (the two switches are and-ed; a private chat ignores the
    group switch), [handleChatbot] changes nothing: no reply, no history
    entry, no log line. *)
Theorem chatbot_switched_off (cfg : Config) (env : Env) (msg : WAMessage)
    (txt : string) (st : State) (us : UserSettings) (gs : GroupSettings) :
  getUserSettings (world env)
    (JS.or_else (participant (key msg)) (remoteJid (key msg))) = JS.Return us ->
  (if JS.endsWith (remoteJid (key msg)) "@g.us"
   then getGroupSettings env (remoteJid (key msg))
   else JS.Return {| chatbotInGroups := None |}) = JS.Return gs ->
  chatbotEnabled us = Some false
  \/ (JS.endsWith (remoteJid (key msg)) "@g.us" = true /\ chatbotInGroups gs = Some false) ->
  handleChatbot cfg env msg txt st = st.
Proof.
  intros Hus Hgs Hoff. unfold handleChatbot.
  destruct (negb (JS.truthy (Some txt)) || (String.length (JS.trim txt) =? 0)%nat);
    [reflexivity|].
  rewrite Hus, Hgs.
  destruct Hoff as [Hu | [Hg Hgr]].
  - rewrite Hu. cbn [not_false]. destruct (JS.endsWith _ _);
      rewrite ?andb_false_r; reflexivity.
  - rewrite Hg, Hgr. reflexivity.
Qed.

Lemma chatbot_switched_off_witness :
  handleChatbot Samples.config
    {| sock_sendMessage := fun _ _ => JS.Return tt;
       getGroupSettings := fun _ => JS.Return {| chatbotInGroups := Some false |};
       world := Samples.offline |}
    (Samples.incoming "3EB0E3" "120363000000000001@g.us" (Some (Samples.text_payload "hello")))
    "hello" Samples.idle
  = Samples.idle.
Proof.
  apply (chatbot_switched_off Samples.config
           {| sock_sendMessage := fun _ _ => JS.Return tt;
              getGroupSettings := fun _ => JS.Return {| chatbotInGroups := Some false |};
              world := Samples.offline |}
           (Samples.incoming "3EB0E3" "120363000000000001@g.us"
              (Some (Samples.text_payload "hello")))
           "hello" Samples.idle
           {| aiProvider := None; chatbotEnabled := None |}
           {| chatbotInGroups := Some false |}).
  - reflexivity.
  - vm_compute. reflexivity.
  - right. split; [vm_compute; reflexivity | reflexivity].
Defined.

(** When the text is not blank, the chatbot is enabled, [chat] succeeds
    and the transport delivers, exactly one message goes to the chat: the
    answer, the assistant line and the channel link, with the bot name
    as footer field. [sendMessage] appends nothing to it, because the
    text already ends with the link; the chatbot state is the one [chat]
    left. The provider name must be one the provider table decides
    itself, and the answer must not be the raw reply body of the custom
    endpoint, whose conversion to text [to_string] gives for an object
    only. *)
Theorem chatbot_reply_has_one_footer (cfg : Config) (env : Env) (msg : WAMessage)
    (txt : string) (st : State) (us : UserSettings) (gs : GroupSettings) :
  ObjectPrototype.own_lookup
    (HistorySpec.chosen cfg (world env)
       (JS.or_else (participant (key msg)) (remoteJid (key msg))) None) = true ->
  response (snd (chat cfg (world env) txt
                   (JS.or_else (participant (key msg)) (remoteJid (key msg))) None
                   (chatbot st))) <> VData ->
  negb (JS.truthy (Some txt)) || (String.length (JS.trim txt) =? 0)%nat = false ->
  getUserSettings (world env)
    (JS.or_else (participant (key msg)) (remoteJid (key msg))) = JS.Return us ->
  (if JS.endsWith (remoteJid (key msg)) "@g.us"
   then getGroupSettings env (remoteJid (key msg))
   else JS.Return {| chatbotInGroups := None |}) = JS.Return gs ->
  not_false (chatbotEnabled us) = true ->
  not_false (chatbotInGroups gs) = true ->
  success (snd (chat cfg (world env) txt
                  (JS.or_else (participant (key msg)) (remoteJid (key msg))) None
                  (chatbot st))) = true ->
  sock_sendMessage env (remoteJid (key msg))
    {| text := Some (to_string (response (snd (chat cfg (world env) txt
                       (JS.or_else (participant (key msg)) (remoteJid (key msg))) None
                       (chatbot st))))
                     +:+ newline +:+ newline +:+ "💬 *AI Assistant*" +:+ newline
                     +:+ CHANNEL_LINK cfg);
       footer := Some (BOT_NAME cfg) |} = JS.Return tt ->
  sent (handleChatbot cfg env msg txt st)
  = sent st
    ++ [(remoteJid (key msg),
         {| text := Some (to_string (response (snd (chat cfg (world env) txt
                            (JS.or_else (participant (key msg)) (remoteJid (key msg))) None
                            (chatbot st))))
                          +:+ newline +:+ newline +:+ "💬 *AI Assistant*" +:+ newline
                          +:+ CHANNEL_LINK cfg);
            footer := Some (BOT_NAME cfg) |})]
  /\ chatbot (handleChatbot cfg env msg txt st)
     = fst (chat cfg (world env) txt
              (JS.or_else (participant (key msg)) (remoteJid (key msg))) None (chatbot st)).
Proof.
  intros _ _ Htxt Hus Hgs Hu Hg Hok Hsock. unfold handleChatbot.
  rewrite Htxt, Hus, Hgs, Hu, Hg.
  replace (if JS.endsWith (remoteJid (key msg)) "@g.us" then true && true else true)
    with true by (destruct (JS.endsWith _ _); reflexivity).
  cbn [negb logged chatbot].
  destruct (chat cfg (world env) txt _ None (chatbot st)) as [cb r] eqn:Hchat.
  cbn [snd fst] in *. rewrite Hok.
  unfold sendMessage. cbn [text footer].
  rewrite (add_footer_fixed cfg _ (reply_brings_link cfg (to_string (response r)))).
  rewrite Hsock. cbn [logged sent chatbot].
  destruct (response r); split; reflexivity.
Qed.

Lemma chatbot_reply_has_one_footer_witness :
  sent (handleChatbot Samples.config
          (Samples.delivering
             {| http := fun _ => HttpOk (Some "Habari!");
                random := random Samples.offline; clock := clock Samples.offline;
                customEndpointSet := false;
                getUserSettings := getUserSettings Samples.offline |})
          (Samples.incoming "3EB0E4" Samples.alice (Some (Samples.text_payload "hello")))
          "hello" Samples.idle)
  = [(Samples.alice,
      {| text := Some ("Habari!" +:+ newline +:+ newline +:+ "💬 *AI Assistant*" +:+ newline
                       +:+ "https://whatsapp.com/channel/megan");
         footer := Some "MEGAN-MD" |})].
Proof.
  refine (proj1 (chatbot_reply_has_one_footer Samples.config
           (Samples.delivering
              {| http := fun _ => HttpOk (Some "Habari!");
                 random := random Samples.offline; clock := clock Samples.offline;
                 customEndpointSet := false;
                 getUserSettings := getUserSettings Samples.offline |})
           (Samples.incoming "3EB0E4" Samples.alice (Some (Samples.text_payload "hello")))
           "hello" Samples.idle
           {| aiProvider := None; chatbotEnabled := None |}
           {| chatbotInGroups := None |}
           eq_refl _ eq_refl eq_refl eq_refl eq_refl eq_refl eq_refl eq_refl)).
  vm_compute. discriminate.
Defined.

End ChatbotReplies.

Section Batches.
Import MessageCache Orchestrator.

Lemma handleCommand_counters (cfg : Config) (env : Env) (msg : WAMessage) (text : string)
    (st : State) :
  messagesProcessed (counters (handleCommand cfg env msg text st))
  = messagesProcessed (counters st)
  /\ errors (counters st) <= errors (counters (handleCommand cfg env msg text st))
  /\ Bot.chatbot (bot (handleCommand cfg env msg text st)) = Bot.chatbot (bot st).
Proof.
  destruct (dispatch_total (handler st) msg text (remoteJid (key msg))
              (JS.or_else (participant (key msg)) (remoteJid (key msg)))
              (JS.endsWith (remoteJid (key msg)) "@g.us")) as (h & r & Hd & _).
  rewrite (handleCommand_cases cfg env msg text st h r Hd).
  destruct (CommandHandler.success r); [cbn; repeat split; lia|].
  match goal with
  | |- context [Bot.sendMessage cfg ?e ?to ?content ?s] =>
      pose proof (sendMessage_chatbot cfg e to content s) as Hcb;
      destruct (Bot.sendMessage cfg e to content s) as [b o]
  end.
  cbn [fst] in Hcb. destruct o; cbn; repeat split; try lia; exact Hcb.
Qed.

Lemma handleOne_counters (cfg : Config) (env : Env) (st : State) (msg : WAMessage) :
  messagesProcessed (counters (handleOne cfg env st msg))
  = messagesProcessed (counters st) + (if cached_ok env msg then 1 else 0)
  /\ errors (counters st) + (if failed_early env msg then 1 else 0)
     <= errors (counters (handleOne cfg env st msg)).
Proof.
  unfold handleOne, cached_ok, failed_early.
  destruct (cacheMessage env msg) as [[]|e]; [|cbn; split; lia].
  destruct (processMessage env msg) as [[]|e]; [|cbn; split; lia].
  destruct (JS.truthy _ && startsWith _ _).
  - destruct (handleCommand_counters cfg env msg (extractMessageText msg) (count_processed st))
      as (Hp & He & _).
    rewrite Hp. cbn in *. split; lia.
  - destruct (negb _ && _); cbn; split; lia.
Qed.

(** A batch that is not of type [notify] changes nothing. In a [notify]
    batch every message is handled, whatever happened to the ones before
    it: the processed counter grows by the number of messages that went
    into the cache without an exception, and the error counter by at
    least the number of messages on which caching or the automatic
    features threw. *)
Theorem batch_counts_every_message (cfg : Config) (env : Env) (messages : list WAMessage)
    (st : State) :
  handleMessagesUpsert cfg env messages false st = st
  /\ messagesProcessed (counters (handleMessagesUpsert cfg env messages true st))
     = messagesProcessed (counters st) + count (cached_ok env) messages
  /\ errors (counters st) + count (failed_early env) messages
     <= errors (counters (handleMessagesUpsert cfg env messages true st)).
Proof.
  split; [reflexivity|]. unfold handleMessagesUpsert, count. cbn [negb].
  revert st. induction messages as [|m rest IH]; intros st; [cbn; split; lia|].
  cbn [fold_left List.filter].
  destruct (IH (handleOne cfg env st m)) as [Hp He].
  destruct (handleOne_counters cfg env st m) as [Hp1 He1].
  rewrite Hp, Hp1.
  destruct (cached_ok env m), (failed_early env m); cbn [length] in *; split; lia.
Qed.

(** One message of a batch changes the chatbot state (histories and
    contexts) only if it is not from the bot itself and its text is not
    empty and does not start with the command prefix: commands and own
    messages never reach the chatbot. *)
Theorem chatbot_reached_only_by_foreign_plain_text (cfg : Config) (env : Env)
    (st : State) (msg : WAMessage) :
  fromMe (key msg) = true
  \/ extractMessageText msg = EmptyString
  \/ startsWith (extractMessageText msg) (PREFIX cfg) = true ->
  Bot.chatbot (bot (handleOne cfg env st msg)) = Bot.chatbot (bot st).
Proof.
  intros H. unfold handleOne.
  destruct (cacheMessage env msg) as [[]|e]; [|reflexivity].
  destruct (processMessage env msg) as [[]|e]; [|reflexivity].
  destruct (JS.truthy (Some (extractMessageText msg))
            && startsWith (extractMessageText msg) (PREFIX cfg)) eqn:Hcmd.
  - destruct (handleCommand_counters cfg env msg (extractMessageText msg) (count_processed st))
      as (_ & _ & Hcb). exact Hcb.
  - assert (Hno : negb (fromMe (key msg)) && shouldRespondToChatbot cfg msg = false).
    { unfold shouldRespondToChatbot. destruct H as [-> | [Ht | Hs]]; [reflexivity | |].
      - rewrite Ht. destruct (fromMe (key msg)); reflexivity.
      - rewrite Hs. destruct (fromMe (key msg)); [reflexivity|].
        destruct (negb (JS.truthy (Some (extractMessageText msg)))); reflexivity. }
    rewrite Hno. reflexivity.
Qed.

Lemma chatbot_reached_only_by_foreign_plain_text_witness :
  Bot.chatbot
    (bot (handleOne Samples.config
            {| base := Samples.delivering Samples.offline;
               cacheMessage := fun _ => JS.Return tt;
               processMessage := fun _ => JS.Return tt |}
            {| bot := Samples.idle; handler := Samples.handler;
               counters := {| messagesProcessed := 0; commandsExecuted := 0; errors := 0 |} |}
            (Samples.incoming "3EB0E5" Samples.alice (Some (Samples.text_payload "!ping")))))
  = Bot.chatbot Samples.idle.
Proof.
  apply (chatbot_reached_only_by_foreign_plain_text Samples.config
           {| base := Samples.delivering Samples.offline;
              cacheMessage := fun _ => JS.Return tt;
              processMessage := fun _ => JS.Return tt |}
           {| bot := Samples.idle; handler := Samples.handler;
              counters := {| messagesProcessed := 0; commandsExecuted := 0; errors := 0 |} |}
           (Samples.incoming "3EB0E5" Samples.alice (Some (Samples.text_payload "!ping")))).
  right. right. reflexivity.
Defined.

End Batches.


(** ** Connection life cycle: invariants of arbitrary runs *)

Section ConnectionRunsFacts.
Import Connection ConnectionRuns.

Lemma delays_after_qr (u : Update) (rest : list Effect) :
  reconnect_delays (qr_effects u ++ rest) = reconnect_delays rest.
Proof. unfold qr_effects. destruct (qr u); reflexivity. Qed.

(** One event from a good session: the session stays good, the reconnect
    statistic grows by the number of reconnects scheduled, and each
    scheduled delay lies between 2 and 30 seconds. *)
Lemma step_ok (cfg : Config) (s : Session) (e : Event) :
  session_ok s ->
  session_ok (fst (step cfg s e))
  /\ reconnects (fst (step cfg s e))
     = reconnects s + Z.of_nat (length (reconnect_delays (snd (step cfg s e))))
  /\ Forall (fun d => 2000 <= d <= 30000) (reconnect_delays (snd (step cfg s e))).
Proof.
  intros [Hmax Hrange]. unfold session_ok. destruct e as [u | sessionExists socketOk].
  - cbn [step]. unfold handleConnectionUpdate.
    destruct (connection u) as [[ | | ]|]; cbn [fst snd].
    + rewrite delays_after_qr.
      destruct (JS.truthy (AUTO_PRESENCE cfg)); cbn; repeat split; try lia; constructor.
    + cbn [reconnectAttempts maxReconnectAttempts].
      destruct (shouldReconnect u); cbn [andb negb].
      * destruct (Z.ltb_spec (reconnectAttempts s) (maxReconnectAttempts s)) as [Hlt|Hge];
          cbn [fst snd]; rewrite delays_after_qr; cbn; repeat split; try lia.
        -- constructor; [|constructor]. unfold backoff_delay.
           assert (2 <= 2 ^ (reconnectAttempts s + 1)).
           { replace (reconnectAttempts s + 1) with (Z.succ (reconnectAttempts s)) by lia.
             rewrite Z.pow_succ_r by lia.
             pose proof (Z.pow_pos_nonneg 2 (reconnectAttempts s) ltac:(lia) ltac:(lia)). lia. }
           lia.
        -- constructor.
      * unfold qr_effects. destruct (qr u); cbn; repeat split; try lia; constructor.
    + unfold qr_effects. destruct (qr u); cbn; repeat split; try lia; constructor.
    + unfold qr_effects. destruct (qr u); cbn; repeat split; try lia; constructor.
  - cbn [step]. unfold connect. destruct sessionExists, socketOk; cbn;
      repeat split; try lia; constructor.
Qed.

Lemma run_cons (cfg : Config) (s : Session) (e : Event) (rest : list Event) :
  run cfg s (e :: rest)
  = (fst (run cfg (fst (step cfg s e)) rest),
     snd (step cfg s e) ++ snd (run cfg (fst (step cfg s e)) rest)).
Proof.
  cbn [run]. destruct (step cfg s e) as [s1 effs]. cbn [fst snd].
  destruct (run cfg s1 rest) as [s2 more]. reflexivity.
Qed.

Lemma delays_app (a b : list Effect) :
  reconnect_delays (a ++ b) = reconnect_delays a ++ reconnect_delays b.
Proof. unfold reconnect_delays. apply omap_app. Qed.

Lemma run_ok (cfg : Config) (events : list Event) :
  forall s, session_ok s ->
    session_ok (fst (run cfg s events))
    /\ reconnects (fst (run cfg s events))
       = reconnects s + Z.of_nat (length (reconnect_delays (snd (run cfg s events))))
    /\ Forall (fun d => 2000 <= d <= 30000) (reconnect_delays (snd (run cfg s events))).
Proof.
  induction events as [|e rest IH]; intros s Hs.
  - cbn. repeat split; try apply Hs; try lia. constructor.
  - rewrite run_cons. cbn [fst snd].
    destruct (step_ok cfg s e Hs) as (Hs1 & Hr1 & Hd1).
    destruct (IH _ Hs1) as (Hs2 & Hr2 & Hd2).
    rewrite delays_app, length_app, Hr2, Hr1.
    repeat split; try apply Hs2; try lia. apply Forall_app. split; assumption.
Qed.

(** Whatever updates arrive and whenever [connect] runs, on a bot
    started fresh the attempt counter stays between 0 and the maximum of
    10, and the reconnect statistic equals the number of reconnects
    scheduled so far. *)
Theorem attempts_within_cap (cfg : Config) (events : list Event) :
  0 <= reconnectAttempts (fst (run cfg initial events)) <= 10
  /\ maxReconnectAttempts (fst (run cfg initial events)) = 10
  /\ reconnects (fst (run cfg initial events))
     = Z.of_nat (length (reconnect_delays (snd (run cfg initial events)))).
Proof.
  destruct (run_ok cfg events initial) as ([Hmax Hrange] & Hr & _).
  - split; [reflexivity | cbn; lia].
  - rewrite Hr. cbn [initial reconnects]. repeat split; try lia; assumption.
Qed.

(** Every reconnect ever scheduled, in any run of a bot started fresh,
    waits at least 2 and at most 30 seconds. *)
Theorem reconnect_delays_bounded (cfg : Config) (events : list Event) :
  Forall (fun d => 2000 <= d <= 30000)
    (reconnect_delays (snd (run cfg initial events))).
Proof.
  destruct (run_ok cfg events initial) as (_ & _ & Hd); [|exact Hd].
  split; [reflexivity | cbn; lia].
Qed.

End ConnectionRunsFacts.


(** ** The chatbot: what a call leaves behind *)

Section ChatbotFacts.
Import Chatbot ChatbotStats HistorySpec.

Lemma fallback_not_empty (pick : nat) (prompt : string) :
  JS.truthy (Some (fallbackResponse pick prompt)) = true.
Proof.
  unfold fallbackResponse.
  pose proof (Nat.mod_upper_bound pick 7 ltac:(lia)) as Hlt.
  destruct (pick mod 7)%nat as [|[|[|[|[|[|[|n]]]]]]]; try reflexivity; lia.
Qed.

Lemma or_else_not_empty (a : option string) (b : string) :
  JS.truthy (Some b) = true -> JS.truthy (Some (JS.or_else a b)) = true.
Proof. intros H. destruct a as [[|c s]|]; [exact H | reflexivity | exact H]. Qed.

Lemma truthy_or_else (a : option string) :
  JS.truthy a = true -> JS.truthy (Some (JS.or_else a EmptyString)) = true.
Proof. destruct a as [[|c s]|]; try discriminate. reflexivity. Qed.

Lemma meganFast_text (w : World) (prompt : string) :
  JS.truthy (Some (to_string (p_response (meganFast w prompt)))) = true.
Proof.
  unfold meganFast. destruct (http w WorkerFast); cbn [p_response to_string].
  - apply fallback_not_empty.
  - apply or_else_not_empty, fallback_not_empty.
Qed.

Lemma meganBase_text (w : World) (prompt : string) :
  JS.truthy (Some (to_string (p_response (meganBase w prompt)))) = true.
Proof.
  unfold meganBase. destruct (http w WorkerBase); [apply meganFast_text|].
  cbn [p_response]. destruct (JS.truthy text) eqn:E; [|reflexivity].
  cbn [to_string]. apply truthy_or_else, E.
Qed.

Lemma meganUltra_text (w : World) (prompt : string) :
  JS.truthy (Some (to_string (p_response (meganUltra w prompt)))) = true.
Proof.
  unfold meganUltra. destruct (http w WorkerUltra); [apply meganBase_text | reflexivity].
Qed.

Lemma customAI_text (w : World) (prompt : string) :
  JS.truthy (Some (to_string (p_response (customAI w prompt)))) = true.
Proof.
  unfold customAI. destruct (negb (customEndpointSet w)); [apply meganFast_text|].
  destruct (http w CustomEndpoint); [apply meganFast_text|].
  cbn [p_response]. destruct (JS.truthy text) eqn:E; [|reflexivity].
  cbn [to_string]. apply truthy_or_else, E.
Qed.

Lemma providers_text (prov : option string) (w : World) (prompt : string) :
  JS.truthy (Some (to_string (p_response (providers prov w prompt)))) = true.
Proof.
  unfold providers, geminiAI, openAI. destruct prov as [p|]; [|apply meganFast_text].
  repeat match goal with
         | |- context [if ?b then _ else _] => destruct b
         end;
    auto using meganFast_text, meganBase_text, meganUltra_text, customAI_text.
Qed.

(** Whether [chat] succeeds or not, the text of its [response] is never
    empty: an answer of a provider, or one of the fallback sentences. The
    one response this does not cover is the raw reply body of the custom
    endpoint, used when that reply carries no [response] text; it is
    converted by [to_string] as an object, and could be an empty text. *)
Theorem chat_response_never_empty (cfg : Config) (w : World) (prompt user : string)
    (opt : option string) (st : State) :
  response (snd (chat cfg w prompt user opt st)) <> VData ->
  to_string (response (snd (chat cfg w prompt user opt st))) <> EmptyString.
Proof.
  intros _.
  assert (H : JS.truthy (Some (to_string (response (snd (chat cfg w prompt user opt st)))))
              = true).
  { unfold chat. destruct (getUserSettings w user) as [us|e];
      [|cbn [snd caught response to_string]; apply fallback_not_empty].
    destruct (getUserContext (clock w ContextCreated) user st) as [st1 c1].
    destruct (call_handler _ w prompt) as [[result|]|e] eqn:Hcall;
      [|cbn [snd failed response to_string]; apply fallback_not_empty
       |cbn [snd caught response to_string]; apply fallback_not_empty].
    destruct (p_success result) eqn:Hok; cbn [snd failed response].
    - rewrite (call_handler_result _ _ _ _ Hcall). apply providers_text.
    - cbn [to_string]. apply fallback_not_empty. }
  intros E. rewrite E in H. discriminate H.
Qed.

Lemma chat_response_never_empty_witness :
  to_string (response (snd (chat Samples.config Samples.offline "hello" Samples.alice
                              None initial))) <> EmptyString.
Proof.
  apply (chat_response_never_empty Samples.config Samples.offline "hello" Samples.alice
           None initial).
  vm_compute. discriminate.
Defined.

Lemma replies_fast (w : World) (prompt : string) :
  p_success (meganFast w prompt) = replies w WorkerFast.
Proof. unfold meganFast, replies. destruct (http w WorkerFast); reflexivity. Qed.

Lemma replies_base (w : World) (prompt : string) :
  p_success (meganBase w prompt) = replies w WorkerBase || replies w WorkerFast.
Proof.
  unfold meganBase. unfold replies at 1.
  destruct (http w WorkerBase); [apply replies_fast | reflexivity].
Qed.

Lemma replies_ultra (w : World) (prompt : string) :
  p_success (meganUltra w prompt)
  = replies w WorkerUltra || (replies w WorkerBase || replies w WorkerFast).
Proof.
  unfold meganUltra. unfold replies at 1.
  destruct (http w WorkerUltra); [apply replies_base | reflexivity].
Qed.

Lemma providers_chain (prov : option string) (w : World) (prompt : string) :
  p_success (providers prov w prompt) = existsb (replies w) (chain prov w).
Proof.
  unfold providers, chain, geminiAI, openAI.
  destruct prov as [p|]; [|cbn [existsb]; rewrite orb_false_r; apply replies_fast].
  destruct (String.eqb p "megan-fast");
    [cbn [existsb]; rewrite orb_false_r; apply replies_fast|].
  destruct (String.eqb p "megan-base");
    [cbn [existsb]; rewrite orb_false_r; apply replies_base|].
  destruct (String.eqb p "megan-ultra");
    [cbn [existsb]; rewrite orb_false_r; apply replies_ultra|].
  destruct (String.eqb p "gemini");
    [cbn [existsb]; rewrite orb_false_r; apply replies_ultra|].
  destruct (String.eqb p "openai");
    [cbn [existsb]; rewrite orb_false_r; apply replies_ultra|].
  destruct (String.eqb p "custom");
    [|cbn [existsb]; rewrite orb_false_r; apply replies_fast].
  unfold customAI. destruct (customEndpointSet w); cbn [negb existsb]; rewrite orb_false_r.
  - unfold replies at 1. destruct (http w CustomEndpoint); [apply replies_fast | reflexivity].
  - apply replies_fast.
Qed.

(** [chat] succeeds exactly when the settings can be read and at least
    one endpoint of the chain of the selected provider answers: fast
    alone; base, then fast; ultra (also for gemini and openai), then
    base, then fast; the custom endpoint, when configured, then fast;
    any other name is treated as fast, provided it is not a name every
    object inherits, for which the provider table does not fall back. *)
Theorem chat_succeeds_iff_chain_answers (cfg : Config) (w : World) (prompt user : string)
    (opt : option string) (st : State) :
  ObjectPrototype.own_lookup (chosen cfg w user opt) = true ->
  success (snd (chat cfg w prompt user opt st))
  = match getUserSettings w user with
    | JS.Return _ => existsb (replies w) (chain (chosen cfg w user opt) w)
    | JS.Throw _ => false
    end.
Proof.
  unfold chat, chosen. destruct (getUserSettings w user) as [us|e]; [|reflexivity].
  intros Hown.
  destruct (getUserContext (clock w ContextCreated) user st) as [st1 c1].
  rewrite (call_handler_own _ w prompt Hown), <- (providers_chain _ w prompt).
  destruct (p_success (providers _ w prompt)); reflexivity.
Qed.

(** The base endpoint is down and the fast one answers: a user who asked
    for the base provider is served. *)
Lemma chat_succeeds_iff_chain_answers_witness :
  success (snd (chat Samples.config
                  {| http := fun ep => match ep with
                                       | WorkerFast => HttpOk (Some "Habari!")
                                       | _ => HttpError (JS.mkError "timeout")
                                       end;
                     random := random Samples.offline; clock := clock Samples.offline;
                     customEndpointSet := false;
                     getUserSettings := getUserSettings Samples.offline |}
                  "hello" Samples.alice (Some "megan-base") initial))
  = true.
Proof.
  rewrite (chat_succeeds_iff_chain_answers Samples.config
             {| http := fun ep => match ep with
                                  | WorkerFast => HttpOk (Some "Habari!")
                                  | _ => HttpError (JS.mkError "timeout")
                                  end;
                random := random Samples.offline; clock := clock Samples.offline;
                customEndpointSet := false;
                getUserSettings := getUserSettings Samples.offline |}
             "hello" Samples.alice (Some "megan-base") initial eq_refl).
  reflexivity.
Defined.

End ChatbotFacts.

Section ChatbotState.
Import Chatbot ChatbotStats HistorySpec.

(** [clearHistory(userId)] forgets the user: history and context are
    gone, every other user keeps both, and the next entry added for the
    user starts a new history. *)
Theorem clearHistory_forgets_one_user (st : State) (u other : string)
    (now : Z) (r : string) (m : Value) :
  getHistory u (clearHistory u st) = []
  /\ contexts (clearHistory u st) !! u = None
  /\ getHistory u (addToHistory now u r m (clearHistory u st))
     = [{| role := r; message := m; timestamp := now |}]
  /\ (other <> u ->
      getHistory other (clearHistory u st) = getHistory other st
      /\ contexts (clearHistory u st) !! other = contexts st !! other).
Proof.
  unfold clearHistory. split; [|split; [|split]].
  - unfold getHistory. cbn [history]. rewrite lookup_delete_eq. reflexivity.
  - cbn [contexts]. apply lookup_delete_eq.
  - rewrite addToHistory_get. destruct (decide (u = u)); [|contradiction].
    unfold getHistory. cbn [history]. rewrite lookup_delete_eq. reflexivity.
  - intros Hne. unfold getHistory. cbn [history contexts].
    rewrite !lookup_delete_ne by congruence. split; reflexivity.
Qed.

Lemma clearHistory_forgets_one_user_witness :
  getHistory Samples.bob
    (clearHistory Samples.alice
       (addToHistory 1 Samples.bob "user" (VText "hi")
          (addToHistory 0 Samples.alice "user" (VText "hello") initial)))
  = getHistory Samples.bob
      (addToHistory 1 Samples.bob "user" (VText "hi")
         (addToHistory 0 Samples.alice "user" (VText "hello") initial))
  /\ contexts (clearHistory Samples.alice
                (addToHistory 1 Samples.bob "user" (VText "hi")
                   (addToHistory 0 Samples.alice "user" (VText "hello") initial)))
     !! Samples.bob
     = contexts (addToHistory 1 Samples.bob "user" (VText "hi")
                   (addToHistory 0 Samples.alice "user" (VText "hello") initial))
       !! Samples.bob.
Proof.
  apply (proj2 (proj2 (proj2 (clearHistory_forgets_one_user
           (addToHistory 1 Samples.bob "user" (VText "hi")
              (addToHistory 0 Samples.alice "user" (VText "hello") initial))
           Samples.alice Samples.bob 0 "user" (VText "x"))))).
  discriminate.
Defined.

Lemma last_slice_last {A} (n : nat) (l : list A) (x : A) :
  last (slice_last (S n) (l ++ [x])) = Some x.
Proof.
  unfold slice_last. rewrite length_app. cbn [length].
  rewrite drop_app_le by lia. apply last_snoc.
Qed.

(** What one [chat] call leaves behind when the settings can be read: on
    success the newest history entry of the user is the assistant's
    reply, the one before it the prompt, and the context records prompt,
    reply and provider; on failure the prompt is nevertheless kept as the
    newest history entry, but no reply is recorded. The provider name
    must be one the provider table decides itself. *)
Theorem chat_records_the_exchange (cfg : Config) (w : World) (prompt user : string)
    (opt : option string) (st : State) (us : UserSettings) :
  ObjectPrototype.own_lookup (chosen cfg w user opt) = true ->
  getUserSettings w user = JS.Return us ->
  if success (snd (chat cfg w prompt user opt st))
  then
    getHistory user (fst (chat cfg w prompt user opt st))
    = slice_last 10
        (getHistory user st
         ++ [{| role := "user"; message := VText prompt; timestamp := clock w UserEntry |};
             {| role := "assistant";
                message := response (snd (chat cfg w prompt user opt st));
                timestamp := clock w AssistantEntry |}])
    /\ contexts (fst (chat cfg w prompt user opt st)) !! user
       = Some {| userId := user; lastActive := clock w ContextUpdated;
                 lastQuery := Some prompt;
                 lastResponse := Some (response (snd (chat cfg w prompt user opt st)));
                 providerUsed := provider (snd (chat cfg w prompt user opt st)) |}
    /\ historyLength (snd (chat cfg w prompt user opt st))
       = Some (length (getHistory user (fst (chat cfg w prompt user opt st))))
  else
    last (getHistory user (fst (chat cfg w prompt user opt st)))
    = Some {| role := "user"; message := VText prompt; timestamp := clock w UserEntry |}.
Proof.
  intros Hown Hus. unfold chosen in Hown. unfold chat. rewrite Hus in *.
  pose proof (getUserContext_history (clock w ContextCreated) user st) as Hctx.
  destruct (getUserContext (clock w ContextCreated) user st) as [st1 c1].
  cbn [fst] in Hctx. rewrite (call_handler_own _ w prompt Hown).
  destruct (p_success (providers _ w prompt)) eqn:Hok; cbn [fst snd failed success response
    provider historyLength].
  - split; [|split; [|reflexivity]].
    + rewrite (getHistory_ext user _ _ (updateUserContext_history _ _ _ _ _ _)).
      rewrite !addToHistory_get, (getHistory_ext user st1 st Hctx).
      destruct (decide (user = user)); [|contradiction].
      rewrite (slice_last_absorb maxHistory), <- app_assoc. reflexivity.
    + unfold updateUserContext.
      destruct (getUserContext _ user _) as [st5 c5]. cbn [contexts].
      apply lookup_insert_eq.
  - rewrite addToHistory_get, (getHistory_ext user st1 st Hctx).
    destruct (decide (user = user)); [|contradiction].
    apply (last_slice_last 9).
Qed.

Lemma chat_records_the_exchange_witness :
  last (getHistory Samples.alice
          (fst (chat Samples.config Samples.offline "hello" Samples.alice None initial)))
  = Some {| role := "user"; message := VText "hello"; timestamp := 1700000000500 |}.
Proof.
  exact (chat_records_the_exchange Samples.config Samples.offline "hello" Samples.alice
           None initial {| aiProvider := None; chatbotEnabled := None |} eq_refl eq_refl).
Defined.

Lemma run_history_bounded (calls : list Call) (u : string) :
  (length (getHistory u (run calls initial)) <= maxHistory)%nat.
Proof.
  induction calls as [|c calls IH] using rev_ind.
  - unfold run, getHistory. cbn [fold_left initial history]. rewrite lookup_empty.
    simpl. lia.
  - rewrite run_snoc, (step_history c _ u IH). apply slice_last_length.
Qed.

Lemma total_bounded (h : gmap string (list Entry)) :
  (forall u l, h !! u = Some l -> (length l <= 10)%nat) ->
  (map_fold (fun _ l sum => (sum + length l)%nat) 0%nat h <= 10 * size h)%nat.
Proof.
  revert h.
  apply (map_fold_weak_ind
           (fun (r : nat) (m : gmap string (list Entry)) =>
              (forall u l, m !! u = Some l -> (length l <= 10)%nat) ->
              (r <= 10 * size m)%nat)).
  - intros _. rewrite map_size_empty. lia.
  - intros i x m r Hnone IH Hall.
    rewrite map_size_insert_None by exact Hnone.
    assert (Hx : (length x <= 10)%nat) by (apply (Hall i), lookup_insert_eq).
    assert (Hr : (r <= 10 * size m)%nat).
    { apply IH. intros u l Hu. apply (Hall u).
      rewrite lookup_insert_ne; [exact Hu|]. intros ->. congruence. }
    lia.
Qed.

(** After any sequence of [addToHistory] and [chat] calls on a new
    chatbot, the [totalHistory] of [getStats] is at most ten entries per
    user that has a history. *)
Theorem total_history_bounded (calls : list Call) :
  (totalHistory (getStats (run calls initial))
   <= 10 * size (history (run calls initial)))%nat.
Proof.
  unfold getStats. cbn [totalHistory]. apply total_bounded.
  intros u l Hu. pose proof (run_history_bounded calls u) as Hb.
  unfold getHistory in Hb. rewrite Hu in Hb. exact Hb.
Qed.

End ChatbotState.

(** ** The model router *)

Section Router.
Import ModelRouter.

Lemma router_fallback_not_empty (pick : nat) (message : string) :
  JS.truthy (Some (fallbackResponse pick message)) = true.
Proof.
  unfold fallbackResponse.
  pose proof (Nat.mod_upper_bound pick 3 ltac:(lia)) as Hlt.
  destruct (pick mod 3)%nat as [|[|[|n]]]; try reflexivity; lia.
Qed.

Lemma fastModel_not_empty (w : World) (message : string) :
  JS.truthy (Some (fastModel w message)) = true.
Proof.
  unfold fastModel. destruct (http w FastCall).
  - apply router_fallback_not_empty.
  - apply or_else_not_empty. reflexivity.
Qed.

Lemma models_not_empty (model : string) (w : World) (message : string) :
  JS.truthy (Some (models model w message)) = true.
Proof.
  unfold models, cloudflareModel.
  repeat match goal with
         | |- context [if String.eqb ?a ?b then _ else _] => destruct (String.eqb a b)
         end; try apply fastModel_not_empty; [|reflexivity].
  unfold baseModel. destruct (http w BaseCall); [apply fastModel_not_empty|].
  destruct (JS.truthy text) eqn:E; [apply truthy_or_else, E | apply fastModel_not_empty].
Qed.

(** [route] skips a message (returns null) exactly when the router is
    disabled or it is inbox-only and the message comes from a group; in
    every other case it returns a non-empty text, also when every HTTP
    call fails. The model name must be one the model table decides
    itself. *)
Theorem router_answers_unless_skipped (r : Router) (w : World) (model message : string)
    (isGroup : bool) :
  ObjectPrototype.inherited model = false ->
  (route r w model message isGroup = None
   <-> enabled r = false \/ (onlyInbox r = true /\ isGroup = true))
  /\ (forall answer, route r w model message isGroup = Some answer ->
        answer <> EmptyString).
Proof.
  intros _. unfold route. split.
  - destruct (enabled r), (onlyInbox r), isGroup; cbn; split; intros H;
      try discriminate; try reflexivity; auto;
      destruct H as [H | [H1 H2]]; discriminate.
  - intros answer H.
    destruct (negb (enabled r)); [discriminate|].
    destruct (onlyInbox r && isGroup); [discriminate|].
    injection H as <-. intros E.
    pose proof (models_not_empty model w message) as Hne. rewrite E in Hne. discriminate Hne.
Qed.

Lemma router_answers_unless_skipped_witness :
  fallbackResponse 1 "hello" <> EmptyString.
Proof.
  apply (proj2 (router_answers_unless_skipped initial
                  {| http := fun _ => Chatbot.HttpError (JS.mkError "timeout"); random := 1 |}
                  "megan-base" "hello" false eq_refl)).
  reflexivity.
Defined.

End Router.

(** ** Command dispatch: names that can never be typed *)

Section UnreachableNames.
Import CommandHandler.

Lemma lower_char_idempotent (c : ascii) :
  JS.lower_char (JS.lower_char c) = JS.lower_char c.
Proof.
  destruct c as [b0 b1 b2 b3 b4 b5 b6 b7].
  destruct b0, b1, b2, b3, b4, b5, b6, b7; vm_compute; reflexivity.
Qed.

Lemma toLowerCase_idempotent (s : string) :
  JS.toLowerCase (JS.toLowerCase s) = JS.toLowerCase s.
Proof.
  induction s as [|c s IH]; [reflexivity|].
  cbn [JS.toLowerCase]. rewrite lower_char_idempotent, IH. reflexivity.
Qed.

Lemma commandName_is_lower (cfg : Config) (text : string) :
  JS.toLowerCase (commandName cfg text) = commandName cfg text.
Proof. unfold commandName. apply toLowerCase_idempotent. Qed.

(** The name is looked up lower-cased but registered as it is spelt: a
    command registered under a name with an upper-case letter can never
    be invoked. Every dispatch resolves to what it would resolve to with
    that entry removed from the registry. *)
Theorem mixed_case_names_are_unreachable (h : Handler) (name : string)
    (msg : MessageCache.WAMessage) (text from sender : string) (isGroup : bool) :
  JS.toLowerCase name <> name ->
  result_of (handleCommand h msg text from sender isGroup)
  = result_of (handleCommand {| config := config h;
                                commands := delete name (commands h);
                                log := log h |} msg text from sender isGroup).
Proof.
  intros Hmixed. unfold handleCommand. cbn [config commands].
  assert (Hne : name <> commandName (config h) text).
  { intros ->. apply Hmixed, commandName_is_lower. }
  rewrite lookup_delete_ne by exact Hne.
  destruct (commands h !! commandName (config h) text) as [cmd|]; [|reflexivity].
  unfold mbind, outcome_bind, JS.bind. destruct (execute cmd _); reflexivity.
Qed.

Lemma mixed_case_names_are_unreachable_witness :
  result_of (handleCommand
               {| config := Samples.config;
                  commands := <["Ping" := Samples.ping]> ∅; log := [] |}
               (Samples.incoming "3EB0D7" Samples.alice (Some (Samples.text_payload "!Ping")))
               "!Ping" Samples.alice Samples.alice false)
  = result_of (handleCommand
                 {| config := Samples.config;
                    commands := delete "Ping" (<["Ping" := Samples.ping]> ∅); log := [] |}
                 (Samples.incoming "3EB0D7" Samples.alice (Some (Samples.text_payload "!Ping")))
                 "!Ping" Samples.alice Samples.alice false).
Proof.
  pose proof (mixed_case_names_are_unreachable
                {| config := Samples.config;
                   commands := <["Ping" := Samples.ping]> ∅; log := [] |}
                "Ping"
                (Samples.incoming "3EB0D7" Samples.alice (Some (Samples.text_payload "!Ping")))
                "!Ping" Samples.alice Samples.alice false) as H.
  cbn [config commands log] in H. apply H. discriminate.
Defined.

End UnreachableNames.


(** ** Group utilities: JIDs *)

Section Jids.
Import GroupUtils.

Lemma digits_all_digits (s : string) : all_digits (digits s) = true.
Proof.
  induction s as [|c s IH]; [reflexivity|].
  cbn [digits]. destruct (is_digit c) eqn:E; [|exact IH].
  cbn [all_digits]. rewrite E, IH. reflexivity.
Qed.

Lemma digits_fixed (d : string) : all_digits d = true -> digits d = d.
Proof.
  induction d as [|c d IH]; [reflexivity|].
  cbn [all_digits digits]. intros H. apply andb_true_iff in H as [Hc Hd].
  rewrite Hc, (IH Hd). reflexivity.
Qed.

Lemma digit_is_not_at (c : ascii) : is_digit c = true -> (nat_of_ascii c =? 64)%nat = false.
Proof.
  unfold is_digit. intros H. apply andb_true_iff in H as [_ H].
  apply Nat.leb_le in H. apply Nat.eqb_neq. lia.
Qed.

Lemma before_at_digits (d rest : string) :
  all_digits d = true -> JS.before_at (d +:+ "@" +:+ rest) = d.
Proof.
  induction d as [|c d IH]; [reflexivity|].
  cbn [all_digits]. intros H. apply andb_true_iff in H as [Hc Hd].
  rewrite app_cons. cbn [JS.before_at]. rewrite (digit_is_not_at c Hc), (IH Hd). reflexivity.
Qed.

Lemma all_digits_app (a b : string) :
  all_digits a = true -> all_digits b = true -> all_digits (a +:+ b) = true.
Proof.
  intros Ha Hb. induction a as [|c a IH]; [exact Hb|].
  cbn [all_digits] in Ha. apply andb_true_iff in Ha as [Hc Ha].
  rewrite app_cons. cbn [all_digits]. rewrite Hc, (IH Ha). reflexivity.
Qed.

(** A string of digits followed by the WhatsApp domain is already in
    normal form. *)
Lemma normalizeJid_of_normal (d : string) :
  all_digits d = true -> normalizeJid (d +:+ whatsapp_net) = d +:+ whatsapp_net.
Proof.
  intros Hd. unfold normalizeJid, extractPhone, whatsapp_net.
  change "@s.whatsapp.net" with ("@" +:+ "s.whatsapp.net").
  destruct d as [|c d].
  - reflexivity.
  - assert (Hne : forall x, JS.truthy (Some (String c d +:+ x)) = true) by reflexivity.
    rewrite Hne. cbn [negb]. 
    replace (JS.or_else (Some (String c d +:+ "@" +:+ "s.whatsapp.net")) EmptyString)
      with (String c d +:+ "@" +:+ "s.whatsapp.net") by reflexivity.
    rewrite (before_at_digits (String c d) "s.whatsapp.net" Hd), (digits_fixed _ Hd).
    reflexivity.
Qed.

Lemma normalizeJid_idem (jid : string) :
  normalizeJid (normalizeJid jid) = normalizeJid jid.
Proof.
  destruct (negb (JS.truthy (Some jid))) eqn:Hj.
  - assert (H : normalizeJid jid = EmptyString)
      by (unfold normalizeJid; rewrite Hj; reflexivity).
    rewrite H. reflexivity.
  - destruct (negb (JS.truthy (Some (extractPhone (Some jid))))) eqn:Hp.
    + assert (H : normalizeJid jid = jid)
        by (unfold normalizeJid; rewrite Hj, Hp; reflexivity).
      rewrite !H. reflexivity.
    + assert (H : normalizeJid jid = extractPhone (Some jid) +:+ whatsapp_net)
        by (unfold normalizeJid; rewrite Hj, Hp; reflexivity).
      rewrite H. apply normalizeJid_of_normal.
      unfold extractPhone. rewrite Hj. apply digits_all_digits.
Qed.

(** [normalizeJid] is idempotent, and it looks only at the digits before
    the first [@]: two JIDs with the same digits there, at least one,
    have the same normal form whatever their domains. *)
Theorem normalizeJid_is_a_normal_form (jid other : string) :
  normalizeJid (normalizeJid jid) = normalizeJid jid
  /\ (extractPhone (Some jid) = extractPhone (Some other) ->
      extractPhone (Some jid) <> EmptyString ->
      normalizeJid jid = normalizeJid other).
Proof.
  split; [apply normalizeJid_idem|].
  intros Heq Hne. unfold normalizeJid.
  assert (Hj : forall j, extractPhone (Some j) <> EmptyString ->
                         negb (JS.truthy (Some j)) = false
                         /\ negb (JS.truthy (Some (extractPhone (Some j)))) = false).
  { intros j Hn. split.
    - destruct j; [exfalso; apply Hn; reflexivity | reflexivity].
    - destruct (extractPhone (Some j)); [contradiction | reflexivity]. }
  destruct (Hj jid Hne) as [H1 H2].
  destruct (Hj other ltac:(rewrite <- Heq; exact Hne)) as [H3 H4].
  rewrite H1, H2, H3, H4, Heq. reflexivity.
Qed.

Lemma normalizeJid_is_a_normal_form_witness :
  normalizeJid "254700000001@lid" = normalizeJid "254700000001@s.whatsapp.net".
Proof.
  apply (proj2 (normalizeJid_is_a_normal_form "254700000001@lid"
                  "254700000001@s.whatsapp.net")).
  - reflexivity.
  - discriminate.
Defined.

Lemma includes_at_normal (d : string) : JS.includes (d +:+ whatsapp_net) "@" = true.
Proof.
  apply includes_app_r. reflexivity.
Qed.

(** [formatJid] returns null only for the empty argument, and what it
    returns is a fixed point: formatting a formatted JID changes
    nothing. *)
Theorem formatJid_is_idempotent (phone : string) :
  (formatJid phone = None <-> phone = EmptyString)
  /\ (forall jid, formatJid phone = Some jid -> formatJid jid = Some jid).
Proof.
  split.
  - unfold formatJid. destruct phone as [|c p]; [split; reflexivity|].
    cbn [JS.truthy negb]. destruct (JS.includes _ _); split; discriminate.
  - intros jid. unfold formatJid at 1.
    destruct (negb (JS.truthy (Some phone))) eqn:Hp; [discriminate|].
    destruct (JS.includes phone "@") eqn:Hat.
    + intros [= <-]. unfold formatJid.
      assert (Hn : normalizeJid phone = phone
                   \/ exists d, all_digits d = true /\ normalizeJid phone = d +:+ whatsapp_net).
      { unfold normalizeJid. rewrite Hp.
        destruct (negb (JS.truthy (Some (extractPhone (Some phone))))); [left; reflexivity|].
        right. eexists. split; [|reflexivity].
        unfold extractPhone. rewrite Hp. apply digits_all_digits. }
      destruct Hn as [Hn | (d & Hd & Hn)].
      * rewrite Hn, Hp, Hat, Hn. reflexivity.
      * rewrite Hn.
        assert (Ht : negb (JS.truthy (Some (d +:+ whatsapp_net))) = false)
          by (destruct d; reflexivity).
        rewrite Ht, includes_at_normal, (normalizeJid_of_normal d Hd). reflexivity.
    + set (d := digits phone).
      set (d' := if negb (String.prefix "254" d) && (String.length d =? 9)%nat
                 then "254" +:+ d else d).
      intros [= <-].
      assert (Hd' : all_digits d' = true).
      { subst d'. destruct (negb _ && _); [|apply digits_all_digits].
        apply all_digits_app; [reflexivity | apply digits_all_digits]. }
      unfold formatJid.
      assert (Ht : negb (JS.truthy (Some (d' +:+ whatsapp_net))) = false)
        by (destruct d'; reflexivity).
      rewrite Ht, includes_at_normal, (normalizeJid_of_normal d' Hd'). reflexivity.
Qed.

Lemma formatJid_is_idempotent_witness :
  formatJid "254712345678@s.whatsapp.net" = Some "254712345678@s.whatsapp.net".
Proof.
  apply (proj2 (formatJid_is_idempotent "712 345 678") "254712345678@s.whatsapp.net").
  vm_compute. reflexivity.
Defined.

(** Nine digits get the country code; a device suffix is folded into the
    number. *)
Example jids :
  formatJid "712 345-678" = Some "254712345678@s.whatsapp.net"
  /\ formatJid "+254 712 345678" = Some "254712345678@s.whatsapp.net"
  /\ normalizeJid "254712345678:12@s.whatsapp.net" = "25471234567812@s.whatsapp.net"
  /\ normalizeJid "status@broadcast" = "status@broadcast".
Proof. vm_compute. repeat split. Qed.

End Jids.

Section GroupRoles.
Import GroupUtils.

(** If [isAdmin] says yes for a user, [getAdmins] lists a participant
    with the same normal form; the answer depends on the user only
    through the normal form of the JID; and when the metadata cannot be
    fetched the answer is no and both member lists are empty. *)
Theorem admin_check_agrees_with_admin_list (metadata : JS.Outcome (list Participant))
    (user other : string) :
  (isAdmin metadata user = true ->
   exists admin, In admin (getAdmins metadata) /\ normalizeJid admin = normalizeJid user)
  /\ (normalizeJid user = normalizeJid other -> isAdmin metadata user = isAdmin metadata other)
  /\ (forall e, metadata = JS.Throw e ->
        isAdmin metadata user = false /\ getAdmins metadata = []
        /\ getAllMembers metadata = []).
Proof.
  split; [|split].
  - unfold isAdmin, getAdmins. destruct metadata as [participants|e]; [|discriminate].
    destruct (List.find _ participants) as [p|] eqn:Hf; [|discriminate].
    intros Hrole. destruct (find_some_elem _ _ _ Hf) as [Hin Heq].
    exists (p_id p). split.
    + apply in_map, filter_In. split; [apply list_elem_of_In, Hin | exact Hrole].
    + apply String.eqb_eq, Heq.
  - intros Heq. unfold isAdmin. rewrite Heq. reflexivity.
  - intros e ->. repeat split.
Qed.

Lemma admin_check_agrees_with_admin_list_witness :
  exists admin,
    In admin (getAdmins (JS.Return [{| p_id := "254700000002@s.whatsapp.net"; p_admin := None |};
                                    {| p_id := "254700000001@lid"; p_admin := Some "admin" |}]))
    /\ normalizeJid admin = normalizeJid "254700000001@s.whatsapp.net".
Proof.
  apply (proj1 (admin_check_agrees_with_admin_list
                  (JS.Return [{| p_id := "254700000002@s.whatsapp.net"; p_admin := None |};
                              {| p_id := "254700000001@lid"; p_admin := Some "admin" |}])
                  "254700000001@s.whatsapp.net" EmptyString)).
  vm_compute. reflexivity.
Defined.

(** [isOwner] compares only the digits before the [@]: it answers yes
    exactly when the sender's digits are the owner's or the bot's. So a
    sender whose JID has no digit there passes the check whenever the
    bot's own id is not known (or the owner's number has no digit). *)
Theorem owner_check_compares_digits (ownerPhone : string) (botId : option string)
    (sender : string) :
  (isOwner ownerPhone botId sender = true
   <-> extractPhone (Some sender) = extractPhone (Some ownerPhone)
       \/ extractPhone (Some sender) = extractPhone botId)
  /\ (extractPhone (Some sender) = EmptyString -> isOwner ownerPhone None sender = true).
Proof.
  unfold isOwner. split.
  - rewrite orb_true_iff, !String.eqb_eq. reflexivity.
  - intros ->. apply orb_true_r.
Qed.

Lemma owner_check_compares_digits_witness :
  isOwner "254700000001" None "status@broadcast" = true.
Proof.
  apply (proj2 (owner_check_compares_digits "254700000001" None "status@broadcast")).
  reflexivity.
Defined.

End GroupRoles.

(** ** Loading and reloading the registry *)

Section LoaderFacts.
Import CommandHandler Loader.

Lemma require_view (disk : Disk) (c : gmap Path Export) (path : Path) :
  snd (require disk c path) = resolve disk c path
  /\ (forall q, resolve disk (fst (require disk c path)) q = resolve disk c q)
  /\ (forall q e, c !! q = Some e -> fst (require disk c path) !! q = Some e)
  /\ (forall e, resolve disk c path = JS.Return e ->
        fst (require disk c path) !! path = Some e).
Proof.
  unfold require, resolve. destruct (c !! path) as [e0|] eqn:Hc.
  - cbn [fst snd]. repeat split; try (intros; assumption).
    intros e [= <-]. exact Hc.
  - destruct (content disk path) as [e0|err] eqn:Hd; cbn [fst snd].
    + repeat split.
      * intros q. destruct (decide (path = q)) as [<-|Hne].
        -- rewrite lookup_insert_eq, Hc, Hd. reflexivity.
        -- rewrite lookup_insert_ne by exact Hne. reflexivity.
      * intros q e Hq. destruct (decide (path = q)) as [<-|Hne]; [congruence|].
        rewrite lookup_insert_ne by exact Hne. exact Hq.
      * intros e [= <-]. apply lookup_insert_eq.
    + repeat split; try (intros; assumption). discriminate.
Qed.

Lemma run_requires_cons (disk : Disk) (path : Path)
    (k : JS.Outcome Export -> Handler -> Handler)
    (steps : list (Path * (JS.Outcome Export -> Handler -> Handler))) (st : State) :
  run_requires disk ((path, k) :: steps) st
  = run_requires disk steps
      {| handler := k (snd (require disk (cache st) path)) (handler st);
         cache := fst (require disk (cache st) path) |}.
Proof.
  unfold run_requires. cbn [fold_left].
  destruct (require disk (cache st) path) as [c r]. reflexivity.
Qed.

(** Threading the cache gives what the outcomes at the start predict. *)
Lemma run_requires_view (disk : Disk)
    (steps : list (Path * (JS.Outcome Export -> Handler -> Handler))) :
  forall (st : State) (c0 : gmap Path Export),
    (forall q, resolve disk (cache st) q = resolve disk c0 q) ->
    handler (run_requires disk steps st) = build (resolve disk c0) steps (handler st).
Proof.
  induction steps as [|[path k] steps IH]; intros st c0 Hview; [reflexivity|].
  rewrite run_requires_cons. destruct (require_view disk (cache st) path) as (Hr & Hv & _).
  rewrite (IH _ c0).
  - cbn [handler build fold_left]. rewrite Hr, Hview. reflexivity.
  - intros q. cbn [cache]. rewrite Hv. apply Hview.
Qed.

(** What was cached stays cached, and every module that loads is cached. *)
Lemma run_requires_caches (disk : Disk)
    (steps : list (Path * (JS.Outcome Export -> Handler -> Handler))) :
  forall (st : State),
    (forall q e, cache st !! q = Some e -> cache (run_requires disk steps st) !! q = Some e)
    /\ (forall p k e, In (p, k) steps -> resolve disk (cache st) p = JS.Return e ->
          cache (run_requires disk steps st) !! p = Some e).
Proof.
  induction steps as [|[path k0] steps IH]; intros st.
  - split; [intros; assumption | intros p k e []].
  - rewrite run_requires_cons.
    destruct (require_view disk (cache st) path) as (_ & Hv & Hmono & Hnew).
    destruct (IH {| handler := k0 (snd (require disk (cache st) path)) (handler st);
                    cache := fst (require disk (cache st) path) |}) as [IHmono IHnew].
    cbn [cache] in *. split.
    + intros q e Hq. apply IHmono, Hmono, Hq.
    + intros p k e [Hin|Hin] Hres.
      * injection Hin as -> ->. apply IHmono, Hnew, Hres.
      * apply (IHnew p k e Hin). rewrite Hv. exact Hres.
Qed.

Lemma build_ext (o1 o2 : Path -> JS.Outcome Export)
    (steps : list (Path * (JS.Outcome Export -> Handler -> Handler))) :
  (forall p k, In (p, k) steps -> o1 p = o2 p) ->
  forall h, build o1 steps h = build o2 steps h.
Proof.
  induction steps as [|[path k] steps IH]; intros Hext h; [reflexivity|].
  cbn [build fold_left]. rewrite (Hext path k) by (left; reflexivity).
  apply IH. intros p k' Hin. apply (Hext p k'). right. exact Hin.
Qed.

(** *** Steps look at the registry and the configuration, not at the log *)

Lemma register_entry_same (file : string) (entry : string * option CommandDef)
    (h h' : Handler) :
  same_registry h h' -> same_registry (register_entry file h entry) (register_entry file h' entry).
Proof.
  intros [Hc Hm]. destruct entry as [n [def|]]; [|split; assumption].
  unfold register_entry, same_registry. cbn [logged set_command config commands].
  rewrite Hc, Hm. split; reflexivity.
Qed.

Lemma register_top_same (file : string) (r : JS.Outcome Export) (h h' : Handler) :
  same_registry h h' -> same_registry (register_top file r h) (register_top file r h').
Proof.
  intros Hs. unfold register_top.
  destruct r as [[def|f|entries| |]|e]; try exact Hs;
    try (destruct Hs; split; assumption).
  revert h h' Hs. induction entries as [|entry entries IH]; intros h h' Hs; [exact Hs|].
  cbn [fold_left]. apply IH, register_entry_same, Hs.
Qed.

Lemma register_category_same (cat title file : string) (r : JS.Outcome Export)
    (h h' : Handler) :
  same_registry h h' ->
  same_registry (register_category cat title file r h) (register_category cat title file r h').
Proof.
  intros [Hc Hm]. unfold register_category, same_registry.
  destruct r as [[def|f|entries| |]|e]; cbn [logged set_command config commands];
    rewrite ?Hc, ?Hm; split; reflexivity.
Qed.

Lemma build_plan_same (oracle : Path -> JS.Outcome Export) (disk : Disk) (h h' : Handler) :
  same_registry h h' ->
  same_registry (build oracle (plan disk) h) (build oracle (plan disk) h').
Proof.
  unfold plan. generalize (category_files disk) (top_files disk). intros cats tops.
  revert h h'. induction cats as [|[[cat title] f] cats IH]; intros h h' Hs.
  - cbn [List.map app]. revert h h' Hs.
    induction tops as [|f tops IHt]; intros h h' Hs; [exact Hs|].
    cbn [List.map build fold_left]. apply IHt, register_top_same, Hs.
  - cbn [List.map app build fold_left]. apply IH, register_category_same, Hs.
Qed.

End LoaderFacts.

Section Reload.
Import CommandHandler Loader.

Lemma cleared_top (files : list (string * string * string)) (c : gmap Path Export)
    (f : string) :
  fold_left (fun c '(cat, _, f) => delete (CategoryFile cat f) c) files c !! TopFile f
  = c !! TopFile f.
Proof.
  revert c. induction files as [|[[cat title] f0] files IH]; intros c; [reflexivity|].
  cbn [fold_left]. rewrite IH. apply lookup_delete_ne. discriminate.
Qed.

Lemma cleared_stays_cleared (files : list (string * string * string)) (c : gmap Path Export)
    (path : Path) :
  c !! path = None ->
  fold_left (fun c '(cat, _, f) => delete (CategoryFile cat f) c) files c !! path = None.
Proof.
  revert c. induction files as [|[[cat title] f0] files IH]; intros c Hc; [exact Hc|].
  cbn [fold_left]. apply IH.
  destruct (decide (CategoryFile cat f0 = path)) as [<-|Hne];
    [apply lookup_delete_eq | rewrite lookup_delete_ne by exact Hne; exact Hc].
Qed.

Lemma cleared_category (files : list (string * string * string)) (c : gmap Path Export)
    (cat title f : string) :
  In (cat, title, f) files ->
  fold_left (fun c '(cat, _, f) => delete (CategoryFile cat f) c) files c
    !! CategoryFile cat f = None.
Proof.
  revert c. induction files as [|[[cat0 title0] f0] files IH]; intros c Hin; [destruct Hin|].
  cbn [fold_left]. destruct Hin as [Heq|Hin].
  - injection Heq as -> -> ->. apply cleared_stays_cleared, lookup_delete_eq.
  - apply IH, Hin.
Qed.

(** The paths of the plan are the category files and the top-level
    files. *)
Lemma plan_paths (disk : Disk) (path : Path)
    (k : JS.Outcome Export -> Handler -> Handler) :
  In (path, k) (plan disk) ->
  match path with
  | CategoryFile cat f => exists title, In (cat, title, f) (category_files disk)
  | TopFile f => In f (top_files disk)
  end.
Proof.
  unfold plan. intros Hin. apply in_app_or in Hin as [Hin|Hin].
  - apply in_map_iff in Hin as ([[cat title] f] & Heq & Hin). injection Heq as <- _.
    exists title. exact Hin.
  - apply in_map_iff in Hin as (f & Heq & Hin). injection Heq as <- _. exact Hin.
Qed.

Lemma build_cons (oracle : Path -> JS.Outcome Export) (path : Path)
    (k : JS.Outcome Export -> Handler -> Handler)
    (steps : list (Path * (JS.Outcome Export -> Handler -> Handler))) (h : Handler) :
  build oracle ((path, k) :: steps) h = build oracle steps (k (oracle path) h).
Proof. reflexivity. Qed.

Lemma register_entries_config (file : string) (entries : list (string * option CommandDef))
    (h : Handler) :
  config (fold_left (register_entry file) entries h) = config h.
Proof.
  revert h. induction entries as [|[n [def|]] entries IH]; intros h; [reflexivity| |];
    cbn [fold_left]; rewrite IH; reflexivity.
Qed.

Lemma build_config (oracle : Path -> JS.Outcome Export) (disk : Disk) (h : Handler) :
  config (build oracle (plan disk) h) = config h.
Proof.
  unfold plan. generalize (category_files disk) (top_files disk). intros cats tops.
  revert h. induction cats as [|[[cat title] f] cats IH]; intros h.
  - cbn [List.map app]. revert h.
    induction tops as [|f tops IHt]; intros h; [reflexivity|].
    cbn [List.map]. rewrite build_cons, IHt. unfold register_top.
    destruct (oracle (TopFile f)) as [[def|g|entries| |]|e]; try reflexivity.
    apply register_entries_config.
  - cbn [List.map app]. rewrite build_cons, IH. unfold register_category.
    destruct (oracle (CategoryFile cat f)) as [[def|g|entries| |]|e]; reflexivity.
Qed.

(** The registry a reload leaves is the one built from nothing with
    category files read from disk and top-level files taken from the
    cache when they are in it. *)
Lemma reload_view (disk : Disk) (st : State) :
  same_registry (handler (fst (reloadCommands disk st)))
    (build (reload_oracle disk (cache st)) (plan disk)
       (empty_handler (config (handler st)))).
Proof.
  unfold reloadCommands, loadCommands. cbn [fst handler].
  rewrite (run_requires_view disk (plan disk) _ _ (fun q => eq_refl)). cbn [handler cache].
  rewrite (build_ext _ (reload_oracle disk (cache st))).
  - assert (Hs : forall h, same_registry (logged h "✅ Loaded commands" "success") h)
      by (intros h; split; reflexivity).
    destruct (Hs (build (reload_oracle disk (cache st)) (plan disk)
                    {| config := config (logged (handler st) "Reloading commands..." "info");
                       commands := ∅;
                       log := log (logged (handler st) "Reloading commands..." "info") |}))
      as [Hc Hm].
    destruct (build_plan_same (reload_oracle disk (cache st)) disk
                {| config := config (logged (handler st) "Reloading commands..." "info");
                   commands := ∅;
                   log := log (logged (handler st) "Reloading commands..." "info") |}
                (empty_handler (config (handler st)))) as [Hc' Hm'];
      [split; reflexivity|].
    split; congruence.
  - intros path k Hin. apply plan_paths in Hin. unfold resolve, reload_oracle.
    destruct path as [cat f | f].
    + destruct Hin as [title Hin]. rewrite (cleared_category _ _ cat title f Hin). reflexivity.
    + rewrite cleared_top. reflexivity.
Qed.

Lemma load_view (disk : Disk) (cfg : Config) :
  same_registry (handler (loadCommands disk {| handler := empty_handler cfg; cache := ∅ |}))
    (build (content disk) (plan disk) (empty_handler cfg)).
Proof.
  unfold loadCommands. cbn [handler].
  rewrite (run_requires_view disk (plan disk) _ _ (fun q => eq_refl)). cbn [handler cache].
  rewrite (build_ext _ (content disk)).
  - split; reflexivity.
  - intros path k _. unfold resolve. rewrite lookup_empty. reflexivity.
Qed.

Lemma plan_ext (d1 d2 : Disk) :
  (forall cat, category_listing d2 cat = category_listing d1 cat) ->
  top_listing d2 = top_listing d1 ->
  plan d2 = plan d1.
Proof.
  intros Hc Ht. unfold plan, category_files, top_files. rewrite Ht. do 3 f_equal.
  apply map_ext. intros [cat title]. rewrite Hc. reflexivity.
Qed.

(** Editing top-level multi-command files and reloading changes nothing:
    after a first load on a new handler in which every top-level file
    loaded, a reload on a disk that differs only in the contents of
    top-level files leaves exactly the registry of the first load,
    because [reloadCommands] drops only the category files from the
    module cache. *)
Theorem reload_ignores_edits_of_top_level_files (cfg : Config) (d1 d2 : Disk) :
  (forall cat, category_listing d2 cat = category_listing d1 cat) ->
  top_listing d2 = top_listing d1 ->
  (forall cat f, content d2 (CategoryFile cat f) = content d1 (CategoryFile cat f)) ->
  (forall f, In f (top_files d1) -> exists e, content d1 (TopFile f) = JS.Return e) ->
  commands (handler (fst (reloadCommands d2
               (loadCommands d1 {| handler := empty_handler cfg; cache := ∅ |}))))
  = commands (handler (loadCommands d1 {| handler := empty_handler cfg; cache := ∅ |})).
Proof.
  intros Hcat Htop Hsame Hloads.
  set (st1 := loadCommands d1 {| handler := empty_handler cfg; cache := ∅ |}).
  destruct (reload_view d2 st1) as [_ Hre]. rewrite Hre.
  destruct (load_view d1 cfg) as [Hcfg Hfirst]. fold st1 in Hcfg, Hfirst.
  rewrite Hfirst, Hcfg, build_config. cbn [empty_handler config].
  rewrite (plan_ext d1 d2 Hcat Htop).
  fold (empty_handler cfg). f_equal. apply build_ext.
  intros path k Hin. unfold reload_oracle. destruct path as [cat f | f]; [apply Hsame|].
  pose proof (plan_paths d1 _ _ Hin) as Hf. cbn in Hf.
  destruct (Hloads f Hf) as [e He].
  destruct (run_requires_caches d1 (plan d1)
              {| handler := empty_handler cfg; cache := ∅ |}) as [_ Hnew].
  unfold resolve. subst st1. unfold loadCommands. cbn [cache].
  rewrite (Hnew (TopFile f) k e Hin); [symmetry; exact He|].
  unfold resolve. cbn [cache]. rewrite lookup_empty. exact He.
Qed.

End Reload.


Section ReloadMore.
Import CommandHandler Loader.

Lemma reload_ignores_edits_of_top_level_files_witness :
  commands (handler (fst (reloadCommands LoaderSamples.edited
               (loadCommands LoaderSamples.disk
                  {| handler := empty_handler Samples.config; cache := ∅ |}))))
  = commands (handler (loadCommands LoaderSamples.disk
                         {| handler := empty_handler Samples.config; cache := ∅ |})).
Proof.
  apply (reload_ignores_edits_of_top_level_files Samples.config
           LoaderSamples.disk LoaderSamples.edited).
  - intros cat. reflexivity.
  - reflexivity.
  - intros cat f. reflexivity.
  - intros f _. eexists. reflexivity.
Defined.

(** The edit of the sample is not picked up: [kick] is still there and
    [ban] is not. *)
Example stale_after_reload :
  let st := fst (reloadCommands LoaderSamples.edited
                   (loadCommands LoaderSamples.disk LoaderSamples.fresh)) in
  (name <$> commands (handler st) !! "kick") = Some "kick"
  /\ (name <$> commands (handler st) !! "ban") = None
  /\ (category <$> commands (handler st) !! "ping") = Some "public"
  /\ snd (reloadCommands LoaderSamples.edited
             (loadCommands LoaderSamples.disk LoaderSamples.fresh)) = 2%nat.
Proof. vm_compute. repeat split. Qed.

(** A reload gives the registry of a fresh start whenever the top-level
    modules in the cache are what is on disk: the earlier registry plays
    no part, and category files are read again. *)
Theorem reload_rebuilds_from_disk (disk : Disk) (st : State) :
  (forall f e, In f (top_files disk) -> cache st !! TopFile f = Some e ->
     content disk (TopFile f) = JS.Return e) ->
  commands (handler (fst (reloadCommands disk st)))
  = commands (handler (loadCommands disk
                         {| handler := empty_handler (config (handler st)); cache := ∅ |})).
Proof.
  intros Hfresh.
  destruct (reload_view disk st) as [_ Hre]. rewrite Hre.
  destruct (load_view disk (config (handler st))) as [_ Hload]. rewrite Hload.
  f_equal. apply build_ext. intros path k Hin. unfold reload_oracle.
  destruct path as [cat f | f]; [reflexivity|].
  pose proof (plan_paths disk _ _ Hin) as Hf. cbn in Hf.
  unfold resolve. destruct (cache st !! TopFile f) as [e|] eqn:Hc; [|reflexivity].
  symmetry. apply (Hfresh f e Hf Hc).
Qed.

Lemma reload_rebuilds_from_disk_witness :
  commands (handler (fst (reloadCommands LoaderSamples.disk
               (loadCommands LoaderSamples.disk LoaderSamples.fresh))))
  = commands (handler (loadCommands LoaderSamples.disk
               {| handler := empty_handler
                               (config (handler (loadCommands LoaderSamples.disk
                                                   LoaderSamples.fresh)));
                  cache := ∅ |})).
Proof.
  apply (reload_rebuilds_from_disk LoaderSamples.disk
           (loadCommands LoaderSamples.disk LoaderSamples.fresh)).
  intros f e Hin Hc. vm_compute in Hin. destruct Hin as [<-|[]].
  vm_compute in Hc. injection Hc as <-. reflexivity.
Defined.

End ReloadMore.

Section RegistryEntries.
Import CommandHandler Loader.

Lemma default_description (d : option string) :
  JS.or_else d "No description" <> EmptyString.
Proof. destruct d as [[|c s]|]; discriminate. Qed.

Lemma set_command_ok (h : Handler) (n : string) (c : Command) :
  entries_ok h -> name c = n -> description c <> EmptyString ->
  entries_ok (set_command h n c).
Proof.
  intros Hok Hn Hd m c' Hm. unfold set_command in Hm. cbn [commands] in Hm.
  destruct (decide (n = m)) as [<-|Hne].
  - rewrite lookup_insert_eq in Hm. injection Hm as <-. split; assumption.
  - rewrite lookup_insert_ne in Hm by exact Hne. apply Hok, Hm.
Qed.

Lemma entries_ok_same (h h' : Handler) :
  same_registry h h' -> entries_ok h -> entries_ok h'.
Proof. intros [_ Hm] Hok n c Hc. apply Hok. rewrite Hm. exact Hc. Qed.

Lemma logged_ok (h : Handler) (t l : string) : entries_ok h -> entries_ok (logged h t l).
Proof. intros Hok. exact Hok. Qed.

Lemma register_category_ok (cat title file : string) (r : JS.Outcome Export) (h : Handler) :
  entries_ok h -> entries_ok (register_category cat title file r h).
Proof.
  intros Hok. unfold register_category.
  destruct r as [[def|f|entries| |]|e]; try exact Hok;
    apply logged_ok, set_command_ok; try exact Hok; try reflexivity.
  - apply default_description.
  - discriminate.
Qed.

Lemma register_top_ok (file : string) (r : JS.Outcome Export) (h : Handler) :
  entries_ok h -> entries_ok (register_top file r h).
Proof.
  intros Hok. unfold register_top.
  destruct r as [[def|f|entries| |]|e]; try exact Hok.
  revert h Hok. induction entries as [|[n [def|]] entries IH]; intros h Hok; [exact Hok| |].
  - cbn [fold_left]. apply IH. unfold register_entry.
    apply logged_ok, set_command_ok; [exact Hok | reflexivity | apply default_description].
  - cbn [fold_left]. apply IH, Hok.
Qed.

Lemma build_ok (oracle : Path -> JS.Outcome Export) (disk : Disk) (h : Handler) :
  entries_ok h -> entries_ok (build oracle (plan disk) h).
Proof.
  unfold plan. generalize (category_files disk) (top_files disk). intros cats tops.
  revert h. induction cats as [|[[cat title] f] cats IH]; intros h Hok.
  - cbn [List.map app]. revert h Hok.
    induction tops as [|f tops IHt]; intros h Hok; [exact Hok|].
    cbn [List.map]. rewrite build_cons. apply IHt, register_top_ok, Hok.
  - cbn [List.map app]. rewrite build_cons. apply IH, register_category_ok, Hok.
Qed.

(** After [loadCommands] on a well-formed registry, and after
    [reloadCommands] on any registry, every entry is stored under the
    key that is its [name] and has a non-empty description; the number
    [reloadCommands] returns is the size of the registry. *)
Theorem registry_entries_carry_their_key (disk : Disk) (st : State) :
  (entries_ok (handler st) -> entries_ok (handler (loadCommands disk st)))
  /\ entries_ok (handler (fst (reloadCommands disk st)))
  /\ snd (reloadCommands disk st)
     = size (commands (handler (fst (reloadCommands disk st)))).
Proof.
  split; [|split; [|reflexivity]].
  - intros Hok. unfold loadCommands. cbn [handler]. apply logged_ok.
    rewrite (run_requires_view disk (plan disk) st (cache st) (fun q => eq_refl)).
    apply build_ok, Hok.
  - destruct (reload_view disk st) as [Hc Hm].
    apply (entries_ok_same
             (build (reload_oracle disk (cache st)) (plan disk)
                (empty_handler (config (handler st))))).
    + split; symmetry; assumption.
    + apply build_ok. intros n c Hn. cbn in Hn. rewrite lookup_empty in Hn. discriminate.
Qed.

Lemma registry_entries_carry_their_key_witness :
  entries_ok (handler (loadCommands LoaderSamples.disk LoaderSamples.fresh)).
Proof.
  apply (proj1 (registry_entries_carry_their_key LoaderSamples.disk LoaderSamples.fresh)).
  intros n c Hn. cbn in Hn. rewrite lookup_empty in Hn. discriminate.
Defined.

End RegistryEntries.

Section LoadThenDispatch.
Import CommandHandler Loader.

Lemma slice_app (p n : string) : JS.slice (String.length p) (p +:+ n) = n.
Proof. induction p as [|c p IH]; [reflexivity|]. rewrite app_cons. exact IH. Qed.

Lemma length_app_string (a b : string) :
  String.length (a +:+ b) = (String.length a + String.length b)%nat.
Proof.
  induction a as [|c a IH]; [reflexivity|]. rewrite app_cons. cbn [String.length].
  rewrite IH. reflexivity.
Qed.

Lemma substring0_app (a b : string) : JS.substring0 (String.length a) (a +:+ b) = a.
Proof.
  induction a as [|c a IH]; [destruct b; reflexivity|].
  rewrite app_cons. cbn [String.length JS.substring0]. rewrite IH. reflexivity.
Qed.

Lemma basename_js (n : string) : basename (n +:+ ".js") = n.
Proof.
  unfold basename. rewrite length_app_string.
  replace (String.length n + String.length ".js" - 3)%nat with (String.length n)
    by (cbn [String.length]; lia).
  apply substring0_app.
Qed.

Lemma is_js_js (n : string) : is_js (n +:+ ".js") = true.
Proof.
  unfold is_js, JS.endsWith. rewrite length_app_string.
  replace (String.length n + String.length ".js" - String.length ".js")%nat
    with (String.length n) by lia.
  rewrite slice_app. apply andb_true_iff. split; [reflexivity|].
  apply Nat.leb_le. lia.
Qed.

Lemma plain_head (c : ascii) (n : string) :
  plain_name (String c n) = true ->
  JS.is_space c = false /\ JS.lower_char c = c /\ plain_name n = true.
Proof.
  cbn [plain_name]. intros H. apply andb_true_iff in H as [H Hn].
  apply andb_true_iff in H as [H Hl]. apply andb_true_iff in H as [_ Hs].
  apply negb_true_iff in Hs. apply Ascii.eqb_eq in Hl. repeat split; assumption.
Qed.

Lemma plain_head_ascii (c : ascii) (n : string) :
  plain_name (String c n) = true -> (nat_of_ascii c < 128)%nat.
Proof.
  cbn [plain_name]. intros H. apply andb_true_iff in H as [H _].
  apply andb_true_iff in H as [H _]. apply andb_true_iff in H as [H _].
  apply Nat.ltb_lt in H. exact H.
Qed.

(** An ASCII character starts no white space of two or three bytes. *)
Lemma ascii_starts_no_wide_space (c d e : ascii) :
  (nat_of_ascii c < 128)%nat -> JS.is_space2 c d = false /\ JS.is_space3 c d e = false.
Proof.
  intros H. unfold JS.is_space2, JS.is_space3. cbv zeta.
  assert (H194 : (nat_of_ascii c =? 194)%nat = false) by (apply Nat.eqb_neq; lia).
  assert (H225 : (nat_of_ascii c =? 225)%nat = false) by (apply Nat.eqb_neq; lia).
  assert (H226 : (nat_of_ascii c =? 226)%nat = false) by (apply Nat.eqb_neq; lia).
  assert (H227 : (nat_of_ascii c =? 227)%nat = false) by (apply Nat.eqb_neq; lia).
  assert (H239 : (nat_of_ascii c =? 239)%nat = false) by (apply Nat.eqb_neq; lia).
  rewrite H194, H225, H226, H227, H239. split; reflexivity.
Qed.

(** [trimStart] stops at an ASCII character that is not white space. *)
Lemma trimStart_stops (c : ascii) (n : string) :
  JS.is_space c = false -> (nat_of_ascii c < 128)%nat ->
  JS.trimStart (String c n) = String c n.
Proof.
  intros Hs Ha. cbn [JS.trimStart]. rewrite Hs.
  destruct n as [|d [|e n]]; [reflexivity | |].
  - rewrite (proj1 (ascii_starts_no_wide_space c d d Ha)). reflexivity.
  - destruct (ascii_starts_no_wide_space c d e Ha) as [-> ->]. reflexivity.
Qed.

Lemma space_covers_blank (c : ascii) : JS.is_space c = false -> JS.is_blank c = false.
Proof.
  unfold JS.is_space, JS.is_blank. intros H.
  destruct (nat_of_ascii c =? 32)%nat; [discriminate H | reflexivity].
Qed.

Lemma trimEnd_plain (n : string) : plain_name n = true -> JS.trimEnd n = n.
Proof.
  induction n as [|c n IH]; [reflexivity|].
  intros H. destruct (plain_head c n H) as (Hs & _ & Hn).
  cbn [JS.trimEnd]. unfold JS.all_space.
  rewrite (trimStart_stops c n Hs (plain_head_ascii c n H)), (IH Hn). reflexivity.
Qed.

Lemma trim_plain (n : string) : plain_name n = true -> JS.trim n = n.
Proof.
  intros H. unfold JS.trim.
  assert (Hstart : JS.trimStart n = n).
  { destruct n as [|c n]; [reflexivity|].
    destruct (plain_head c n H) as (Hs & _).
    apply (trimStart_stops c n Hs (plain_head_ascii c n H)). }
  rewrite Hstart. apply trimEnd_plain, H.
Qed.

Lemma split_plain (n : string) :
  plain_name n = true ->
  forall fuel cur, JS.split_blanks_aux fuel cur n = [cur +:+ n].
Proof.
  induction n as [|c n IH]; intros H fuel cur.
  - destruct fuel; cbn [JS.split_blanks_aux]; [reflexivity|].
    rewrite app_empty_r. reflexivity.
  - destruct (plain_head c n H) as (Hs & _ & Hn).
    destruct fuel; cbn [JS.split_blanks_aux]; [reflexivity|].
    rewrite (space_covers_blank c Hs), (IH Hn), app_assoc_string. reflexivity.
Qed.

Lemma lower_plain (n : string) : plain_name n = true -> JS.toLowerCase n = n.
Proof.
  induction n as [|c n IH]; [reflexivity|].
  intros H. destruct (plain_head c n H) as (_ & Hl & Hn).
  cbn [JS.toLowerCase]. rewrite Hl, (IH Hn). reflexivity.
Qed.

(** Typing the prefix and a plain name gives that name. *)
Lemma commandName_plain (cfg : Config) (n : string) :
  plain_name n = true -> commandName cfg (PREFIX cfg +:+ n) = n.
Proof.
  intros H. unfold commandName, JS.split_blanks.
  rewrite slice_app, (trim_plain n H), (split_plain n H). cbn [JS.first_token hd].
  apply lower_plain, H.
Qed.

Lemma set_command_grows (h : Handler) (n m : string) (c : Command) :
  is_Some (commands h !! m) -> is_Some (commands (set_command h n c) !! m).
Proof.
  intros Hm. cbn [set_command commands]. destruct (decide (n = m)) as [<-|Hne].
  - rewrite lookup_insert_eq. eauto.
  - rewrite lookup_insert_ne by exact Hne. exact Hm.
Qed.

Lemma register_category_grows (cat title file : string) :
  grows (register_category cat title file).
Proof.
  intros r h n Hn. unfold register_category.
  destruct r as [[def|f|entries| |]|e]; try exact Hn; apply set_command_grows, Hn.
Qed.

Lemma register_top_grows (file : string) : grows (register_top file).
Proof.
  intros r h n Hn. unfold register_top.
  destruct r as [[def|f|entries| |]|e]; try exact Hn.
  revert h Hn. induction entries as [|[m [def|]] entries IH]; intros h Hn; [exact Hn| |];
    cbn [fold_left]; apply IH; [apply set_command_grows, Hn | exact Hn].
Qed.

Lemma build_grows (oracle : Path -> JS.Outcome Export)
    (steps : list (Path * (JS.Outcome Export -> Handler -> Handler))) :
  (forall p k, In (p, k) steps -> grows k) ->
  forall h n, is_Some (commands h !! n) -> is_Some (commands (build oracle steps h) !! n).
Proof.
  induction steps as [|[path k] steps IH]; intros Hg h n Hn; [exact Hn|].
  rewrite build_cons. apply IH.
  - intros p k' Hin. apply (Hg p k'). right. exact Hin.
  - apply (Hg path k); [left; reflexivity | exact Hn].
Qed.

Lemma plan_grows (disk : Disk) (p : Path) (k : JS.Outcome Export -> Handler -> Handler) :
  In (p, k) (plan disk) -> grows k.
Proof.
  unfold plan. intros Hin. apply in_app_or in Hin as [Hin|Hin].
  - apply in_map_iff in Hin as ([[cat title] f] & Heq & _). injection Heq as _ <-.
    apply register_category_grows.
  - apply in_map_iff in Hin as (f & Heq & _). injection Heq as _ <-.
    apply register_top_grows.
Qed.

Lemma build_registers (oracle : Path -> JS.Outcome Export)
    (steps : list (Path * (JS.Outcome Export -> Handler -> Handler)))
    (cat title file : string) (def : CommandDef) :
  (forall p k, In (p, k) steps -> grows k) ->
  In (CategoryFile cat file, register_category cat title file) steps ->
  oracle (CategoryFile cat file) = JS.Return (ExpCommand def) ->
  forall h, is_Some (commands (build oracle steps h) !! basename file).
Proof.
  induction steps as [|[path k] steps IH]; intros Hg Hin Ho h; [destruct Hin|].
  rewrite build_cons. destruct Hin as [Heq|Hin].
  - injection Heq as -> ->. apply build_grows.
    + intros p k' Hin'. apply (Hg p k'). right. exact Hin'.
    + rewrite Ho. unfold register_category. cbn [logged set_command commands].
      rewrite lookup_insert_eq. eauto.
  - apply IH; [|exact Hin | exact Ho].
    intros p k' Hin'. apply (Hg p k'). right. exact Hin'.
Qed.

Lemma category_file_in_plan (disk : Disk) (cat title n : string) (files : list string) :
  In (cat, title) categories ->
  category_listing disk cat = Some files ->
  In (n +:+ ".js") files ->
  In (CategoryFile cat (n +:+ ".js"), register_category cat title (n +:+ ".js")) (plan disk).
Proof.
  intros Hcat Hlist Hfile. unfold plan. apply in_or_app. left.
  apply in_map_iff. exists (cat, title, n +:+ ".js"). split; [reflexivity|].
  unfold category_files. apply in_concat.
  exists (List.map (fun f => (cat, title, f)) (List.filter is_js files)). split.
  - apply in_map_iff. exists (cat, title). split; [rewrite Hlist; reflexivity | exact Hcat].
  - apply in_map_iff. exists (n +:+ ".js"). split; [reflexivity|].
    apply filter_In. split; [exact Hfile | apply is_js_js].
Qed.

(** From a source file to a dispatch: if a category folder lists
    [name.js], the file on disk exports a command object, and the name is
    plain (no white space, no upper-case letter), then after a reload the
    name is registered and the text made of the prefix and the name is
    dispatched to a registered command, never answered as unknown. *)
Theorem reloaded_command_is_dispatchable (disk : Disk) (st : State)
    (cat title n : string) (files : list string) (def : CommandDef)
    (msg : MessageCache.WAMessage) (from sender : string) (isGroup : bool) :
  In (cat, title) categories ->
  category_listing disk cat = Some files ->
  In (n +:+ ".js") files ->
  content disk (CategoryFile cat (n +:+ ".js")) = JS.Return (ExpCommand def) ->
  plain_name n = true ->
  exists c,
    commands (handler (fst (reloadCommands disk st))) !! n = Some c
    /\ result_of (handleCommand (handler (fst (reloadCommands disk st))) msg
                    (PREFIX (config (handler st)) +:+ n) from sender isGroup)
       = match execute c (invocation (config (handler st)) msg
                            (PREFIX (config (handler st)) +:+ n) from sender isGroup) with
         | JS.Return res =>
             JS.Return {| success := true;
                          message := JS.or_else res "✅ Command executed.";
                          command := Some n |}
         | JS.Throw e =>
             JS.Return {| success := false;
                          message := "❌ Error: " +:+ JS.err_message e;
                          command := None |}
         end.
Proof.
  intros Hcat Hlist Hfile Hcontent Hplain.
  destruct (reload_view disk st) as [Hcfg Hm].
  rewrite build_config in Hcfg. cbn [empty_handler config] in Hcfg.
  pose proof (build_registers (reload_oracle disk (cache st)) (plan disk) cat title
                (n +:+ ".js") def (plan_grows disk)
                (category_file_in_plan disk cat title n files Hcat Hlist Hfile)
                Hcontent (empty_handler (config (handler st)))) as [c Hc].
  rewrite basename_js, <- Hm in Hc.
  exists c. split; [exact Hc|].
  unfold handleCommand. rewrite Hcfg, (commandName_plain _ n Hplain), Hc.
  unfold mbind, outcome_bind, JS.bind.
  destruct (execute c _); reflexivity.
Qed.

Lemma reloaded_command_is_dispatchable_witness :
  exists c,
    commands (handler (fst (reloadCommands LoaderSamples.disk LoaderSamples.fresh)))
      !! "ping" = Some c
    /\ result_of (handleCommand
                    (handler (fst (reloadCommands LoaderSamples.disk LoaderSamples.fresh)))
                    (Samples.incoming "3EB0D8" Samples.alice
                       (Some (Samples.text_payload "!ping")))
                    (PREFIX (config (handler LoaderSamples.fresh)) +:+ "ping")
                    Samples.alice Samples.alice false)
       = match execute c (invocation (config (handler LoaderSamples.fresh))
                            (Samples.incoming "3EB0D8" Samples.alice
                               (Some (Samples.text_payload "!ping")))
                            (PREFIX (config (handler LoaderSamples.fresh)) +:+ "ping")
                            Samples.alice Samples.alice false) with
         | JS.Return res =>
             JS.Return {| success := true;
                          message := JS.or_else res "✅ Command executed.";
                          command := Some "ping" |}
         | JS.Throw e =>
             JS.Return {| success := false;
                          message := "❌ Error: " +:+ JS.err_message e;
                          command := None |}
         end.
Proof.
  apply (reloaded_command_is_dispatchable LoaderSamples.disk LoaderSamples.fresh
           "public" "👤 Public Commands" "ping" ["ping.js"; "notes.txt"]
           LoaderSamples.ping_def
           (Samples.incoming "3EB0D8" Samples.alice (Some (Samples.text_payload "!ping")))
           Samples.alice Samples.alice false).
  - left. reflexivity.
  - reflexivity.
  - left. reflexivity.
  - reflexivity.
  - reflexivity.
Defined.

End LoadThenDispatch.

Section StatisticsWitness.
Import MessageCache CacheOps.

Lemma statistics_are_consistent_witness :
  cacheSize (getStats true
               (run [OpAdd 1700000000500 false
                       (Samples.incoming "3EB0A1" Samples.alice
                          (Some (Samples.text_payload "hello")))]
                    (fresh 1700000000000))) = 0.
Proof.
  apply (proj2 (proj2 (proj2 (statistics_are_consistent
           [OpAdd 1700000000500 false
              (Samples.incoming "3EB0A1" Samples.alice (Some (Samples.text_payload "hello")))]
           1700000000000 true)))).
  reflexivity.
Defined.

(** Three writes, one of them an overwrite, then a deletion. *)
Example statistics_of_a_run :
  let c := run [OpAdd 1 false (Samples.incoming "A" Samples.alice
                                 (Some (Samples.text_payload "one")));
                OpAdd 2 false (Samples.incoming "B" Samples.bob
                                 (Some (Samples.text_payload "two")));
                OpAdd 3 false (Samples.incoming "A" Samples.alice
                                 (Some (Samples.text_payload "three")));
                OpDelete false "B"]
               (fresh 0) in
  cacheSize (getStats false c) = 1
  /\ uniqueChats (getStats false c) = 1
  /\ v_totalMessages (getStats false c) = 3.
Proof. vm_compute. repeat split. Qed.

End StatisticsWitness.
